(** * Register protocol of the Renesas ISL12020(M) RTC drivers

    A shallow embedding of [src/rtc-isl12020.c] and [src/rtc-isl12020m.c]:
    the BCD time codec, the BETA (temperature compensation) and INT
    (frequency output) read-modify-write setters, the temperature
    conversion, the sysfs store callbacks and the probe sequence.

    C integers are [Z] with the conversions of the source written out
    ([u8], [u32]); booleans are [bool]; a C function that returns an error
    code and fills out-parameters returns a tuple [(err, out, priv')].
    The register channel (the kernel's regmap over I2C) is an explicit
    state: register contents, a script of transport faults and the trace
    of the transactions performed so far. *)

From Stdlib Require Import ZArith List Bool String Ascii Lia.
Import ListNotations.
Local Open Scope Z_scope.

(** ** Kernel helpers used by the drivers (linux/bits.h, linux/bcd.h,
       errno, lib/kstrtox.c, lib/vsprintf.c) *)

Module Kernel.

(* #define BIT(nr) (1UL << (nr)) *)
Definition BIT (nr : Z) : Z := Z.shiftl 1 nr.

(* GENMASK(h, l): the bits l..h set *)
Definition GENMASK (h l : Z) : Z := Z.shiftl (Z.ones (h - l + 1)) l.

(* conversions to the unsigned types of the source *)
Definition u8 (x : Z) : Z := x mod 256.
Definition u32 (x : Z) : Z := x mod 4294967296.

Definition EIO : Z := 5.
Definition ENOMEM : Z := 12.
Definition ENODEV : Z := 19.
Definition EINVAL : Z := 22.
Definition ERANGE : Z := 34.
Definition EOPNOTSUPP : Z := 95.

(* unsigned char _bin2bcd(unsigned val) { return ((val / 10) << 4) + val % 10; } *)
Definition bin2bcd (val : Z) : Z :=
  let v := u32 val in u8 (Z.shiftl (v / 10) 4 + v mod 10).

(* unsigned _bcd2bin(unsigned char val) { return (val & 0x0f) + (val >> 4) * 10; } *)
Definition bcd2bin (val : Z) : Z :=
  let v := u8 val in Z.land v 15 + Z.shiftr v 4 * 10.

(* le16_to_cpu of a two byte buffer filled by a bulk read *)
Definition le16_to_cpu (buf : list Z) : Z :=
  nth 0 buf 0 + 256 * nth 1 buf 0.

Definition is_digit (c : ascii) : bool :=
  let n := Z.of_nat (nat_of_ascii c) in (48 <=? n) && (n <=? 57).

Definition digit_val (c : ascii) : Z := Z.of_nat (nat_of_ascii c) - 48.

(* isspace() of lib/ctype.c: the blank, 9..13 and the no-break space 0xA0 *)
Definition is_space (c : ascii) : bool :=
  let n := Z.of_nat (nat_of_ascii c) in
  (n =? 32) || ((9 <=? n) && (n <=? 13)) || (n =? 160).

(* the maximal run of decimal digits at the head of [s]: its value, its
   length and the rest of the string *)
Fixpoint parse_digits (s : string) (acc : Z) (len : nat) : Z * nat * string :=
  match s with
  | String c rest =>
      if is_digit c then parse_digits rest (10 * acc + digit_val c) (S len)
      else (acc, len, s)
  | EmptyString => (acc, len, s)
  end.

(* int kstrtobool(const char *s, bool *res): decided by the first
   character (and the second after an 'o'); (err, res) *)
Definition kstrtobool (s : string) : Z * bool :=
  match s with
  | String c rest =>
      if existsb (Ascii.eqb c) ["y"; "Y"; "t"; "T"; "e"; "E"; "1"]%char then (0, true)
      else if existsb (Ascii.eqb c) ["n"; "N"; "f"; "F"; "d"; "D"; "0"]%char then (0, false)
      else if existsb (Ascii.eqb c) ["o"; "O"]%char then
        match rest with
        | String d _ =>
            if existsb (Ascii.eqb d) ["n"; "N"]%char then (0, true)
            else if existsb (Ascii.eqb d) ["f"; "F"]%char then (0, false)
            else (- EINVAL, false)
        | EmptyString => (- EINVAL, false)
        end
      else (- EINVAL, false)
  | EmptyString => (- EINVAL, false)
  end.

Definition strip_plus (s : string) : string :=
  match s with
  | String "+"%char rest => rest
  | _ => s
  end.

(* ULLONG_MAX, past which _parse_integer reports KSTRTOX_OVERFLOW *)
Definition ULLONG_MAX : Z := 18446744073709551615.

(* int kstrtou8(const char *s, unsigned int base, u8 *res) at base 10: an
   optional '+', at least one digit, an optional final newline, nothing
   else. In the order of _kstrtoull and kstrtou8: -ERANGE when the digits
   overflow an unsigned long long, -EINVAL without a digit or with other
   text after the number, -ERANGE when the number does not fit a u8;
   (err, res) *)
Definition kstrtou8 (s : string) : Z * Z :=
  let '(v, len, rest) := parse_digits (strip_plus s) 0 0 in
  if ULLONG_MAX <? v then (- ERANGE, 0)
  else
    match len with
    | O => (- EINVAL, 0)
    | S _ =>
        let tail_ok :=
          match rest with
          | EmptyString => true
          | String c EmptyString => Ascii.eqb c "010"%char
          | _ => false
          end in
        if negb tail_ok then (- EINVAL, 0)
        else if 255 <? v then (- ERANGE, 0)
        else (0, v)
    end.

Fixpoint skip_spaces (s : string) : string :=
  match s with
  | String c rest => if is_space c then skip_spaces rest else s
  | EmptyString => s
  end.

(* sscanf(buf, "%hhu", &val): leading white space is skipped, a run of
   digits is converted and stored as an unsigned char; without a digit
   nothing is stored *)
Definition sscanf_hhu (buf : string) : option Z :=
  let '(v, len, _) := parse_digits (skip_spaces buf) 0 0 in
  match len with
  | O => None
  | S _ => Some (u8 v)
  end.

(* the length of a sysfs write, the [count] handed to a store callback *)
Definition strlen (s : string) : Z := Z.of_nat (String.length s).

(* enum hwmon_sensor_types (linux/hwmon.h) *)
Inductive hwmon_sensor_types : Type :=
| hwmon_chip | hwmon_temp | hwmon_in | hwmon_curr | hwmon_power | hwmon_energy
| hwmon_humidity | hwmon_fan | hwmon_pwm | hwmon_intrusion.

(* enum hwmon_temp_attributes (linux/hwmon.h), the members the drivers name *)
Definition hwmon_temp_input : Z := 1.
Definition hwmon_temp_lcrit : Z := 3.
Definition hwmon_temp_min : Z := 5.
Definition hwmon_temp_max : Z := 7.
Definition hwmon_temp_crit : Z := 9.

(* the decimal digits printf's %d gives for a value of 0..255 *)
Definition digit_char (d : Z) : ascii := ascii_of_nat (Z.to_nat (48 + d)).

Definition print_u8 (n : Z) : string :=
  if n <? 10 then String (digit_char n) EmptyString
  else if n <? 100 then String (digit_char (n / 10)) (String (digit_char (n mod 10)) EmptyString)
  else String (digit_char (n / 100))
         (String (digit_char (n / 10 mod 10)) (String (digit_char (n mod 10)) EmptyString)).

(* sysfs_emit(buf, "%c\n", flag ? '1' : '0'): the text left in buf *)
Definition emit_flag (flag : bool) : string :=
  String (if flag then "1"%char else "0"%char) (String "010"%char EmptyString).

End Kernel.

(** ** The register channel

    [devm_regmap_init_i2c] with [reg_bits = 8], [val_bits = 8] and no
    register cache: every call is a bus transaction. A transaction takes
    the next entry of the fault script: [Some e] makes it fail with
    [-e] and leaves the registers alone, [None] (or an exhausted script)
    lets it succeed. Every transaction, failed or not, is recorded in the
    trace, newest first. *)

Module Regmap.

Inductive access : Type :=
| RegRead (reg : Z)
| RegWrite (reg val : Z)
| BulkRead (reg : Z) (count : nat)
| BulkWrite (reg : Z) (vals : list Z).

Record t : Type := mk {
  regs : Z -> Z;
  faults : list (option positive);
  trace : list access
}.

Definition transfer (a : access) (m : t) : Z * t :=
  match faults m with
  | Some e :: fs => (Z.neg e, mk (regs m) fs (a :: trace m))
  | None :: fs => (0, mk (regs m) fs (a :: trace m))
  | [] => (0, mk (regs m) [] (a :: trace m))
  end.

Definition peek (m : t) (reg : Z) : Z := Kernel.u8 (regs m reg).

Definition poke (m : t) (reg val : Z) : t :=
  mk (fun r => if r =? reg then Kernel.u8 val else regs m r) (faults m) (trace m).

Fixpoint poke_all (m : t) (reg : Z) (vals : list Z) : t :=
  match vals with
  | [] => m
  | v :: rest => poke_all (poke m reg v) (reg + 1) rest
  end.

(* int regmap_read(map, reg, &val): (err, val, map'); val is 0 when the
   read failed (the kernel leaves the out-parameter untouched and no
   caller reads it then) *)
Definition regmap_read (m : t) (reg : Z) : Z * Z * t :=
  let '(err, m1) := transfer (RegRead reg) m in
  if err =? 0 then (0, peek m1 reg, m1) else (err, 0, m1).

(* int regmap_write(map, reg, val) *)
Definition regmap_write (m : t) (reg val : Z) : Z * t :=
  let '(err, m1) := transfer (RegWrite reg val) m in
  if err =? 0 then (0, poke m1 reg val) else (err, m1).

(* int regmap_bulk_read(map, reg, buf, count) *)
Definition regmap_bulk_read (m : t) (reg : Z) (count : nat) : Z * list Z * t :=
  let '(err, m1) := transfer (BulkRead reg count) m in
  if err =? 0
  then (0, map (fun i => peek m1 (reg + Z.of_nat i)) (seq 0 count), m1)
  else (err, [], m1).

(* int regmap_bulk_write(map, reg, buf, count) *)
Definition regmap_bulk_write (m : t) (reg : Z) (vals : list Z) : Z * t :=
  let '(err, m1) := transfer (BulkWrite reg vals) m in
  if err =? 0 then (0, poke_all m1 reg vals) else (err, m1).

(* int regmap_update_bits(map, reg, mask, val): read, merge, and write
   back only when the value changes *)
Definition regmap_update_bits (m : t) (reg mask val : Z) : Z * t :=
  let '(err, orig, m1) := regmap_read m reg in
  if err =? 0 then
    let tmp := Z.lor (Z.land orig (Z.lnot mask)) (Z.land val mask) in
    if tmp =? orig then (0, m1) else regmap_write m1 reg tmp
  else (err, m1).

(* a channel on which no fault is scheduled *)
Definition reliable (m : t) : Prop := faults m = [].

End Regmap.

(** ** struct rtc_time (linux/rtc.h) *)

Record rtc_time : Type := mk_rtc_time {
  tm_sec : Z;
  tm_min : Z;
  tm_hour : Z;
  tm_mday : Z;
  tm_mon : Z;
  tm_year : Z;
  tm_wday : Z;
  tm_yday : Z;
  tm_isdst : Z
}.

(** ** Platform facts a probe consults: the outcome of the allocations and
       registrations done by the driver core, and the firmware properties
       of the device node (a name, and its integer value when it has one) *)

Record i2c_client : Type := mk_i2c_client {
  i2c_functionality : bool;
  kzalloc_ok : bool;
  regmap_init : Z + Regmap.t;
  rtc_allocate_err : Z;
  sysfs_create_err : Z;
  hwmon_register_ok : bool;
  properties : list (string * option Z);
  rtc_register_err : Z
}.

Fixpoint property_lookup (props : list (string * option Z)) (name : string)
  : option (option Z) :=
  match props with
  | [] => None
  | (n, v) :: rest => if String.eqb n name then Some v else property_lookup rest name
  end.

(* bool device_property_present(dev, name) *)
Definition device_property_present (c : i2c_client) (name : string) : bool :=
  match property_lookup (properties c) name with
  | Some _ => true
  | None => false
  end.

(* int device_property_read_u32(dev, name, &val): val is written only on
   success; the result is the value val holds afterwards *)
Definition device_property_read_u32 (c : i2c_client) (name : string) (val : Z) : Z * Z :=
  match property_lookup (properties c) name with
  | Some (Some v) => (0, Kernel.u32 v)
  | _ => (- Kernel.EINVAL, val)
  end.

(* int device_property_read_u8(dev, name, &val) *)
Definition device_property_read_u8 (c : i2c_client) (name : string) (val : Z) : Z * Z :=
  match property_lookup (properties c) name with
  | Some (Some v) => if (0 <=? v) && (v <? 256) then (0, v) else (- Kernel.EINVAL, val)
  | _ => (- Kernel.EINVAL, val)
  end.

(** ** src/rtc-isl12020.c *)

Module Isl12020.
Import Kernel.

Definition MASK3BITS : Z := GENMASK 2 0.
Definition MASK4BITS : Z := GENMASK 3 0.
Definition MASK5BITS : Z := GENMASK 4 0.
Definition MASK6BITS : Z := GENMASK 5 0.
Definition MASK7BITS : Z := GENMASK 6 0.

Definition CENTURY_LEN : Z := 100.
Definition MONTH_OFFSET : Z := 1.

Definition MILLI_DEGREE_CELCIUS : Z := 1000.
Definition CELCIUS0 : Z := 369 * MILLI_DEGREE_CELCIUS.
Definition CELCIUS0_M : Z := 273 * MILLI_DEGREE_CELCIUS.
Definition TEMP_MIN : Z := -20 * MILLI_DEGREE_CELCIUS.
Definition TEMP_MIN_M : Z := -40 * MILLI_DEGREE_CELCIUS.
Definition TEMP_LCRIT : Z := -40 * MILLI_DEGREE_CELCIUS.
Definition TEMP_LCRIT_M : Z := -50 * MILLI_DEGREE_CELCIUS.
Definition TEMP_MAX : Z := 75 * MILLI_DEGREE_CELCIUS.
Definition TEMP_MAX_M : Z := 85 * MILLI_DEGREE_CELCIUS.
Definition TEMP_CRIT : Z := 85 * MILLI_DEGREE_CELCIUS.
Definition TEMP_CRIT_M : Z := 90 * MILLI_DEGREE_CELCIUS.

Definition FREQ_OUT_MODE_MAX : Z := GENMASK 3 0.

Definition ISL_REG_RTC_SC : Z := 0.
Definition ISL_REG_RTC_MN : Z := 1.
Definition ISL_REG_RTC_HR : Z := 2.
Definition ISL_REG_RTC_DT : Z := 3.
Definition ISL_REG_RTC_MO : Z := 4.
Definition ISL_REG_RTC_YR : Z := 5.
Definition ISL_REG_RTC_DW : Z := 6.
Definition ISL_REG_CSR_SR : Z := 7.
Definition ISL_REG_CSR_INT : Z := 8.
Definition ISL_REG_CSR_PWRVDD : Z := 9.
Definition ISL_REG_CSR_PWRBAT : Z := 10.
Definition ISL_REG_CSR_BETA : Z := 13.
Definition ISL_REG_TEMP_TKOL : Z := 40.
Definition ISL_REG_TEMP_TKOM : Z := 41.

Definition ISL_BIT_RTC_HR_MIL : Z := BIT 7.
Definition ISL_BIT_CSR_SR_OSCF : Z := BIT 7.
Definition ISL_BIT_CSR_SR_RTCF : Z := BIT 0.
Definition ISL_BIT_CSR_INT_WRTC : Z := BIT 6.
Definition ISL_BIT_CSR_INT_FOBATB : Z := BIT 4.
Definition ISL_BIT_CSR_BETA_TSE : Z := BIT 7.
Definition ISL_BIT_CSR_BETA_BTSE : Z := BIT 6.
Definition ISL_BIT_CSR_BETA_BTSR : Z := BIT 5.

Definition freq_out_modes : list string :=
  ["off"; "32768"; "4096"; "1024"; "64"; "32"; "16"; "8"; "4"; "2"; "1"; "1/2"; "1/4";
   "1/8"; "1/16"; "1/32"]%string.

Record isl12020_status : Type := mk_status {
  oscf : bool;
  rtcf : bool;
  power_triggers_checked : bool;
  lvdd : bool;
  lbat85 : bool;
  lbat75 : bool
}.

Record isl12020_config : Type := mk_config {
  freq_out_mode : Z;
  freq_out_bat : bool;
  tse : bool;
  btse : bool;
  btsr : bool
}.

(* struct isl12020_data; [hwmon_dev] records whether the hwmon device was
   registered; the client and rtc pointers carry no driver state *)
Record isl12020_data : Type := mk_data {
  regmap : Regmap.t;
  hwmon_dev : bool;
  status : isl12020_status;
  config : isl12020_config
}.

Definition with_regmap (priv : isl12020_data) (m : Regmap.t) : isl12020_data :=
  mk_data m (hwmon_dev priv) (status priv) (config priv).

Definition with_config (priv : isl12020_data) (c : isl12020_config) : isl12020_data :=
  mk_data (regmap priv) (hwmon_dev priv) (status priv) c.

Definition with_status (priv : isl12020_data) (s : isl12020_status) : isl12020_data :=
  mk_data (regmap priv) (hwmon_dev priv) s (config priv).

Definition with_hwmon_dev (priv : isl12020_data) (h : bool) : isl12020_data :=
  mk_data (regmap priv) h (status priv) (config priv).

(* static int isl12020_set_beta(priv, tse, btse, btsr) *)
Definition isl12020_set_beta (priv : isl12020_data) (tse' btse' btsr' : bool)
  : Z * isl12020_data :=
  let '(err, val, m1) := Regmap.regmap_read (regmap priv) ISL_REG_CSR_BETA in
  let priv := with_regmap priv m1 in
  if err =? 0 then
    let val := if tse' then Z.lor val ISL_BIT_CSR_BETA_TSE
               else Z.land val (Z.lnot ISL_BIT_CSR_BETA_TSE) in
    let val := if btse' then Z.lor val ISL_BIT_CSR_BETA_BTSE
               else Z.land val (Z.lnot ISL_BIT_CSR_BETA_BTSE) in
    let val := if btsr' then Z.lor val ISL_BIT_CSR_BETA_BTSR
               else Z.land val (Z.lnot ISL_BIT_CSR_BETA_BTSR) in
    let '(err, m2) := Regmap.regmap_write (regmap priv) ISL_REG_CSR_BETA val in
    let priv := with_regmap priv m2 in
    if err =? 0 then
      (err, with_config priv
              (mk_config (freq_out_mode (config priv)) (freq_out_bat (config priv))
                         tse' btse' btsr'))
    else (err, priv)
  else (err, priv).

(* static int isl12020_set_freq_out(priv, u8 mode, bool batmode) *)
Definition isl12020_set_freq_out (priv : isl12020_data) (mode : Z) (batmode : bool)
  : Z * isl12020_data :=
  let '(err, val, m1) := Regmap.regmap_read (regmap priv) ISL_REG_CSR_INT in
  let priv := with_regmap priv m1 in
  if err =? 0 then
    (* ISL_BIT_CSR_INT_FOBATB flag is a reversed bit *)
    let val := if batmode then Z.land val (Z.lnot ISL_BIT_CSR_INT_FOBATB)
               else Z.lor val ISL_BIT_CSR_INT_FOBATB in
    let val := Z.land val (Z.lnot MASK4BITS) in
    let val := Z.lor val (Z.land mode MASK4BITS) in
    let '(err, m2) := Regmap.regmap_write (regmap priv) ISL_REG_CSR_INT val in
    let priv := with_regmap priv m2 in
    if err =? 0 then
      (err, with_config priv
              (mk_config mode batmode (tse (config priv)) (btse (config priv))
                         (btsr (config priv))))
    else (err, priv)
  else (err, priv).

(* static int isl12020_read_temp(priv, long *val): (err, *val, priv') *)
Definition isl12020_read_temp (priv : isl12020_data) (val : Z) : Z * Z * isl12020_data :=
  let err := - EOPNOTSUPP in
  if tse (config priv) then
    let '(err, buf, m1) := Regmap.regmap_bulk_read (regmap priv) ISL_REG_TEMP_TKOL 2 in
    let priv := with_regmap priv m1 in
    if err =? 0 then
      let val := le16_to_cpu buf in
      let val := val * (MILLI_DEGREE_CELCIUS / 2) in
      let val := val - CELCIUS0_M in
      (err, val, priv)
    else (err, val, priv)
  else (err, val, priv).

(* the sysfs store callbacks: (result, priv') *)

Definition isl12020_tse_store (priv : isl12020_data) (buf : string) (count : Z)
  : Z * isl12020_data :=
  let '(err, val) := kstrtobool buf in
  let '(err, priv) :=
    if err =? 0
    then isl12020_set_beta priv val (btse (config priv)) (btsr (config priv))
    else (err, priv) in
  (if err =? 0 then count else err, priv).

Definition isl12020_btse_store (priv : isl12020_data) (buf : string) (count : Z)
  : Z * isl12020_data :=
  let '(err, val) := kstrtobool buf in
  let '(err, priv) :=
    if err =? 0
    then isl12020_set_beta priv (tse (config priv)) val (btsr (config priv))
    else (err, priv) in
  (if err =? 0 then count else err, priv).

Definition isl12020_btsr_store (priv : isl12020_data) (buf : string) (count : Z)
  : Z * isl12020_data :=
  let '(err, val) := kstrtobool buf in
  let '(err, priv) :=
    if err =? 0
    then isl12020_set_beta priv (tse (config priv)) (btse (config priv)) val
    else (err, priv) in
  (if err =? 0 then count else err, priv).

(* returns [err ? err : val] *)
Definition isl12020_bat_freq_out_store (priv : isl12020_data) (buf : string) (count : Z)
  : Z * isl12020_data :=
  let '(err, val) := kstrtobool buf in
  let '(err, priv) :=
    if err =? 0
    then isl12020_set_freq_out priv (freq_out_mode (config priv)) val
    else (err, priv) in
  (if err =? 0 then (if val then 1 else 0) else err, priv).

Definition isl12020_freq_out_store (priv : isl12020_data) (buf : string) (count : Z)
  : Z * isl12020_data :=
  let '(err, val) := kstrtou8 buf in
  let '(err, priv) :=
    if err =? 0 then
      if val <=? FREQ_OUT_MODE_MAX
      then isl12020_set_freq_out priv val (freq_out_bat (config priv))
      else (- ERANGE, priv)
    else (err, priv) in
  (if err =? 0 then count else err, priv).

(* static int isl12020_rtc_ops_read_time(dev, tm): (err, *tm, priv') *)
Definition isl12020_rtc_ops_read_time (priv : isl12020_data) (tm : rtc_time)
  : Z * rtc_time * isl12020_data :=
  let '(err, regmap_buf, m1) :=
    Regmap.regmap_bulk_read (regmap priv) ISL_REG_RTC_SC (Z.to_nat (ISL_REG_CSR_INT + 1)) in
  let priv := with_regmap priv m1 in
  if err <? 0 then (err, tm, priv)
  else
    let reg r := nth (Z.to_nat r) regmap_buf 0 in
    (0,
     mk_rtc_time
       (bcd2bin (Z.land (reg ISL_REG_RTC_SC) MASK7BITS))
       (bcd2bin (Z.land (reg ISL_REG_RTC_MN) MASK7BITS))
       (bcd2bin (Z.land (reg ISL_REG_RTC_HR) MASK6BITS))
       (bcd2bin (Z.land (reg ISL_REG_RTC_DT) MASK6BITS))
       (bcd2bin (Z.land (reg ISL_REG_RTC_MO) MASK5BITS) - MONTH_OFFSET)
       (bcd2bin (reg ISL_REG_RTC_YR) + CENTURY_LEN)
       (Z.land (reg ISL_REG_RTC_DW) MASK3BITS)
       (tm_yday tm)
       (tm_isdst tm),
     priv).

(* the register block built by isl12020_rtc_ops_set_time *)
Definition time_regs (tm : rtc_time) : list Z :=
  [ bin2bcd (tm_sec tm);
    bin2bcd (tm_min tm);
    u8 (Z.lor (bin2bcd (tm_hour tm)) ISL_BIT_RTC_HR_MIL);
    bin2bcd (tm_mday tm);
    bin2bcd (tm_mon tm + MONTH_OFFSET);
    bin2bcd (Z.rem (tm_year tm) CENTURY_LEN);
    u8 (Z.land (tm_wday tm) MASK3BITS) ].

(* static int isl12020_rtc_ops_set_time(dev, tm) *)
Definition isl12020_rtc_ops_set_time (priv : isl12020_data) (tm : rtc_time)
  : Z * isl12020_data :=
  let '(err, m1) :=
    Regmap.regmap_update_bits (regmap priv) ISL_REG_CSR_INT ISL_BIT_CSR_INT_WRTC
                              ISL_BIT_CSR_INT_WRTC in
  let priv := with_regmap priv m1 in
  if err <? 0 then (err, priv)
  else
    let '(err, m2) := Regmap.regmap_bulk_write (regmap priv) ISL_REG_RTC_SC (time_regs tm) in
    (err, with_regmap priv m2).

(* static int isl12020_probe(client): the error code and, once it was
   allocated, the driver data as the function leaves it *)
Definition isl12020_probe (client : i2c_client) : Z * option isl12020_data :=
  let freq_out_mode0 := 0 in
  let freq_out_bat0 := false in
  if negb (i2c_functionality client) then (- ENODEV, None)
  else if negb (kzalloc_ok client) then (- ENOMEM, None)
  else
    match regmap_init client with
    | inl err => (err, None)
    | inr m =>
        let priv := mk_data m false (mk_status false false false false false false)
                            (mk_config 0 false false false false) in
        if negb (rtc_allocate_err client =? 0) then (rtc_allocate_err client, Some priv)
        else if negb (sysfs_create_err client =? 0) then (sysfs_create_err client, Some priv)
        else
          let '(err, initial_state, m1) := Regmap.regmap_read (regmap priv) ISL_REG_CSR_SR in
          let priv := with_regmap priv m1 in
          if negb (err =? 0) then (err, Some priv)
          else
            let priv :=
              if negb (Z.land initial_state ISL_BIT_CSR_SR_OSCF =? 0)
              then with_status priv
                     (mk_status true (rtcf (status priv))
                                (power_triggers_checked (status priv)) (lvdd (status priv))
                                (lbat85 (status priv)) (lbat75 (status priv)))
              else priv in
            let priv :=
              if negb (Z.land initial_state ISL_BIT_CSR_SR_RTCF =? 0)
              then with_status priv
                     (mk_status (oscf (status priv)) true
                                (power_triggers_checked (status priv)) (lvdd (status priv))
                                (lbat85 (status priv)) (lbat75 (status priv)))
              else priv in
            let priv := with_hwmon_dev priv (hwmon_register_ok client) in
            let priv :=
              if device_property_present client "temperature-sensor-enable"
              then snd (isl12020_set_beta priv true (btse (config priv)) (btsr (config priv)))
              else priv in
            let priv :=
              if device_property_present client "battery-temperature-sensor-enable"
              then snd (isl12020_set_beta priv (tse (config priv)) true (btsr (config priv)))
              else priv in
            let priv :=
              if device_property_present client "high-sensing-frequency-enable"
              then snd (isl12020_set_beta priv (tse (config priv)) (btse (config priv)) true)
              else priv in
            let freq_out_bat0 :=
              if device_property_present client "battery-frequency-output-enable"
              then true else freq_out_bat0 in
            let freq_out_mode0 :=
              snd (device_property_read_u32 client "frequency-output-mode" freq_out_mode0) in
            let '(err, priv) := isl12020_set_freq_out priv (u8 freq_out_mode0) freq_out_bat0 in
            (rtc_register_err client, Some priv)
    end.

(* static umode_t isl12020_hwmon_temp_is_visible(priv, attr, channel);
   0444 is 292 *)
Definition isl12020_hwmon_temp_is_visible (priv : isl12020_data) (attr channel : Z) : Z :=
  let err := 292 in
  if (attr =? hwmon_temp_input) || (attr =? hwmon_temp_lcrit) || (attr =? hwmon_temp_min)
     || (attr =? hwmon_temp_max) || (attr =? hwmon_temp_crit)
  then (if 0 <? channel then 0 else err)
  else err.

(* static int isl12020_hwmon_temp_read(priv, attr, channel, long *val) *)
Definition isl12020_hwmon_temp_read (priv : isl12020_data) (attr channel val : Z)
  : Z * Z * isl12020_data :=
  if attr =? hwmon_temp_input then isl12020_read_temp priv val
  else if attr =? hwmon_temp_lcrit then (0, TEMP_LCRIT_M, priv)
  else if attr =? hwmon_temp_min then (0, TEMP_MIN_M, priv)
  else if attr =? hwmon_temp_max then (0, TEMP_MAX_M, priv)
  else if attr =? hwmon_temp_crit then (0, TEMP_CRIT_M, priv)
  else (- EOPNOTSUPP, val, priv).

(* static umode_t isl12020_hwmon_ops_is_visible(data, type, attr, channel) *)
Definition isl12020_hwmon_ops_is_visible (priv : isl12020_data)
           (type : hwmon_sensor_types) (attr channel : Z) : Z :=
  match type with
  | hwmon_temp => isl12020_hwmon_temp_is_visible priv attr channel
  | _ => 0
  end.

(* static int isl12020_hwmon_ops_read(dev, type, attr, channel, long *val) *)
Definition isl12020_hwmon_ops_read (priv : isl12020_data) (type : hwmon_sensor_types)
           (attr channel val : Z) : Z * Z * isl12020_data :=
  match type with
  | hwmon_temp => isl12020_hwmon_temp_read priv attr channel val
  | _ => (- EOPNOTSUPP, val, priv)
  end.

(* the sysfs show callbacks: the text emitted *)
Definition isl12020_oscf_show (priv : isl12020_data) : string :=
  emit_flag (oscf (status priv)).

Definition isl12020_rtcf_show (priv : isl12020_data) : string :=
  emit_flag (rtcf (status priv)).

Definition isl12020_tse_show (priv : isl12020_data) : string :=
  emit_flag (tse (config priv)).

Definition isl12020_btse_show (priv : isl12020_data) : string :=
  emit_flag (btse (config priv)).

Definition isl12020_btsr_show (priv : isl12020_data) : string :=
  emit_flag (btsr (config priv)).

Definition isl12020_bat_freq_out_show (priv : isl12020_data) : string :=
  emit_flag (freq_out_bat (config priv)).

(* static ssize_t isl12020_freq_out_show(dev, attr, buf): "%d (%s%s)\n" of
   the mode, freq_out_modes[mode] and " Hz" unless the mode is 0; None
   when the index lies outside freq_out_modes (the C code then reads past
   the end of the array) *)
Definition isl12020_freq_out_show (priv : isl12020_data) : option string :=
  let mode := freq_out_mode (config priv) in
  match nth_error freq_out_modes (Z.to_nat mode) with
  | Some name =>
      let hz := if mode =? 0 then ""%string else " Hz"%string in
      Some (print_u8 mode ++ " (" ++ name ++ hz ++ ")"
            ++ String "010"%char EmptyString)%string
  | None => None
  end.

End Isl12020.

(** ** src/rtc-isl12020m.c, the driver with hwmon and sysfs support
       (the second of the two drivers that file holds) *)

Module Isl12020m.
Import Kernel.

Definition MASK3BITS : Z := GENMASK 2 0.
Definition MASK4BITS : Z := GENMASK 3 0.
Definition MASK5BITS : Z := GENMASK 4 0.
Definition MASK6BITS : Z := GENMASK 5 0.
Definition MASK7BITS : Z := GENMASK 6 0.

Definition CENTURY_LEN : Z := 100.
Definition MONTH_OFFSET : Z := 1.

Definition MILLI_DEGREE_CELCIUS : Z := 1000.
Definition CELCIUS0 : Z := 273 * MILLI_DEGREE_CELCIUS.
Definition TEMP_MIN : Z := -40 * MILLI_DEGREE_CELCIUS.
Definition TEMP_LCRIT : Z := -50 * MILLI_DEGREE_CELCIUS.
Definition TEMP_MAX : Z := 85 * MILLI_DEGREE_CELCIUS.
Definition TEMP_CRIT : Z := 90 * MILLI_DEGREE_CELCIUS.

Definition FREQ_OUT_MODE_MAX : Z := GENMASK 4 0.

Definition ISL_REG_RTC_SC : Z := 0.
Definition ISL_REG_RTC_MN : Z := 1.
Definition ISL_REG_RTC_HR : Z := 2.
Definition ISL_REG_RTC_DT : Z := 3.
Definition ISL_REG_RTC_MO : Z := 4.
Definition ISL_REG_RTC_YR : Z := 5.
Definition ISL_REG_RTC_DW : Z := 6.
Definition ISL_REG_CSR_SR : Z := 7.
Definition ISL_REG_CSR_INT : Z := 8.
Definition ISL_REG_CSR_BETA : Z := 13.
Definition ISL_REG_TEMP_TKOL : Z := 40.
Definition ISL_REG_TEMP_TKOM : Z := 41.

Definition ISL_BIT_RTC_HR_MIL : Z := BIT 7.
Definition ISL_BIT_CSR_SR_OSCF : Z := BIT 7.
Definition ISL_BIT_CSR_SR_RTCF : Z := BIT 0.
Definition ISL_BIT_CSR_INT_WRTC : Z := BIT 6.
Definition ISL_BIT_CSR_INT_FOBATB : Z := BIT 4.
Definition ISL_BIT_CSR_BETA_TSE : Z := BIT 7.
Definition ISL_BIT_CSR_BETA_BTSE : Z := BIT 6.
Definition ISL_BIT_CSR_BETA_BTSR : Z := BIT 5.

(* struct isl12020m_data *)
Record isl12020m_data : Type := mk_data {
  regmap : Regmap.t;
  hwmon_dev : bool;
  freq_out_mode : Z;
  freq_out : bool;
  oscf : bool;
  rtcf : bool;
  tse : bool;
  btse : bool;
  btsr : bool
}.

Definition with_regmap (priv : isl12020m_data) (m : Regmap.t) : isl12020m_data :=
  mk_data m (hwmon_dev priv) (freq_out_mode priv) (freq_out priv) (oscf priv) (rtcf priv)
          (tse priv) (btse priv) (btsr priv).

(* static int isl12020m_beta(priv, tse, btse, btsr) *)
Definition isl12020m_beta (priv : isl12020m_data) (tse' btse' btsr' : bool)
  : Z * isl12020m_data :=
  let '(err, val, m1) := Regmap.regmap_read (regmap priv) ISL_REG_CSR_BETA in
  let priv := with_regmap priv m1 in
  if err =? 0 then
    let val := if tse' then Z.lor val ISL_BIT_CSR_BETA_TSE
               else Z.land val (Z.lnot ISL_BIT_CSR_BETA_TSE) in
    let val := if btse' then Z.lor val ISL_BIT_CSR_BETA_BTSE
               else Z.land val (Z.lnot ISL_BIT_CSR_BETA_BTSE) in
    let val := if btsr' then Z.lor val ISL_BIT_CSR_BETA_BTSR
               else Z.land val (Z.lnot ISL_BIT_CSR_BETA_BTSR) in
    let '(err, m2) := Regmap.regmap_write (regmap priv) ISL_REG_CSR_BETA val in
    let priv := with_regmap priv m2 in
    if err =? 0 then
      (err, mk_data (regmap priv) (hwmon_dev priv) (freq_out_mode priv) (freq_out priv)
                    (oscf priv) (rtcf priv) tse' btse' btsr')
    else (err, priv)
  else (err, priv).

(* static int isl12020m_read_temp(priv, long *val): (err, *val, priv') *)
Definition isl12020m_read_temp (priv : isl12020m_data) (val : Z)
  : Z * Z * isl12020m_data :=
  if tse priv then
    let '(err, buf, m1) := Regmap.regmap_bulk_read (regmap priv) ISL_REG_TEMP_TKOL 2 in
    let priv := with_regmap priv m1 in
    if err =? 0 then
      let val := le16_to_cpu buf in
      let val := val * (MILLI_DEGREE_CELCIUS / 2) in
      let val := val - CELCIUS0 in
      (err, val, priv)
    else (err, val, priv)
  else (- EOPNOTSUPP, val, priv).

(* the sysfs store callbacks; [val0] is what the uninitialised local
   [u8 val] holds when sscanf stores nothing; the result of
   isl12020m_beta is dropped and [count] returned *)

Definition isl12020m_tse_store (priv : isl12020m_data) (buf : string) (count : Z) (val0 : Z)
  : Z * isl12020m_data :=
  let val := match sscanf_hhu buf with Some v => v | None => val0 end in
  let priv :=
    if negb (val =? 0)
    then snd (isl12020m_beta priv true (btse priv) (btsr priv))
    else snd (isl12020m_beta priv false (btse priv) (btsr priv)) in
  (count, priv).

Definition isl12020m_btse_store (priv : isl12020m_data) (buf : string) (count : Z) (val0 : Z)
  : Z * isl12020m_data :=
  let val := match sscanf_hhu buf with Some v => v | None => val0 end in
  let priv :=
    if negb (val =? 0)
    then snd (isl12020m_beta priv (tse priv) true (btsr priv))
    else snd (isl12020m_beta priv (tse priv) false (btsr priv)) in
  (count, priv).

Definition isl12020m_btsr_store (priv : isl12020m_data) (buf : string) (count : Z) (val0 : Z)
  : Z * isl12020m_data :=
  let val := match sscanf_hhu buf with Some v => v | None => val0 end in
  let priv :=
    if negb (val =? 0)
    then snd (isl12020m_beta priv (tse priv) (btse priv) true)
    else snd (isl12020m_beta priv (tse priv) (btse priv) false) in
  (count, priv).

(* static int isl12020m_set_freq_out(priv, u8 mode, bool enable) *)
Definition isl12020m_set_freq_out (priv : isl12020m_data) (mode : Z) (enable : bool)
  : Z * isl12020m_data :=
  let '(err, val, m1) := Regmap.regmap_read (regmap priv) ISL_REG_CSR_INT in
  let priv := with_regmap priv m1 in
  if err =? 0 then
    let val := if enable then Z.lor val ISL_BIT_CSR_INT_FOBATB
               else Z.land val (Z.lnot ISL_BIT_CSR_INT_FOBATB) in
    let val := Z.land val (Z.lnot MASK4BITS) in
    let val := Z.lor val (Z.land mode MASK4BITS) in
    let '(err, m2) := Regmap.regmap_write (regmap priv) ISL_REG_CSR_INT val in
    let priv := with_regmap priv m2 in
    if err =? 0 then
      (err, mk_data (regmap priv) (hwmon_dev priv) mode enable (oscf priv) (rtcf priv)
                    (tse priv) (btse priv) (btsr priv))
    else (err, priv)
  else (err, priv).

(* static int isl12020m_rtc_ops_read_time(dev, tm): (err, *tm, priv') *)
Definition isl12020m_rtc_ops_read_time (priv : isl12020m_data) (tm : rtc_time)
  : Z * rtc_time * isl12020m_data :=
  let '(err, regmap_buf, m1) :=
    Regmap.regmap_bulk_read (regmap priv) ISL_REG_RTC_SC (Z.to_nat (ISL_REG_CSR_INT + 1)) in
  let priv := with_regmap priv m1 in
  if err <? 0 then (err, tm, priv)
  else
    let reg r := nth (Z.to_nat r) regmap_buf 0 in
    (0,
     mk_rtc_time
       (bcd2bin (Z.land (reg ISL_REG_RTC_SC) MASK7BITS))
       (bcd2bin (Z.land (reg ISL_REG_RTC_MN) MASK7BITS))
       (bcd2bin (Z.land (reg ISL_REG_RTC_HR) MASK6BITS))
       (bcd2bin (Z.land (reg ISL_REG_RTC_DT) MASK6BITS))
       (bcd2bin (Z.land (reg ISL_REG_RTC_MO) MASK5BITS) - MONTH_OFFSET)
       (bcd2bin (reg ISL_REG_RTC_YR) + CENTURY_LEN)
       (Z.land (reg ISL_REG_RTC_DW) MASK3BITS)
       (tm_yday tm)
       (tm_isdst tm),
     priv).

(* the register block built by isl12020m_rtc_ops_set_time *)
Definition time_regs (tm : rtc_time) : list Z :=
  [ bin2bcd (tm_sec tm);
    bin2bcd (tm_min tm);
    u8 (Z.lor (bin2bcd (tm_hour tm)) ISL_BIT_RTC_HR_MIL);
    bin2bcd (tm_mday tm);
    bin2bcd (tm_mon tm + MONTH_OFFSET);
    bin2bcd (Z.rem (tm_year tm) CENTURY_LEN);
    u8 (Z.land (tm_wday tm) MASK3BITS) ].

(* static int isl12020m_rtc_ops_set_time(dev, tm) *)
Definition isl12020m_rtc_ops_set_time (priv : isl12020m_data) (tm : rtc_time)
  : Z * isl12020m_data :=
  let '(err, m1) :=
    Regmap.regmap_update_bits (regmap priv) ISL_REG_CSR_INT ISL_BIT_CSR_INT_WRTC
                              ISL_BIT_CSR_INT_WRTC in
  let priv := with_regmap priv m1 in
  if err <? 0 then (err, priv)
  else
    let '(err, m2) := Regmap.regmap_bulk_write (regmap priv) ISL_REG_RTC_SC (time_regs tm) in
    (err, with_regmap priv m2).

(* static int isl12020m_probe(client) *)
Definition isl12020m_probe (client : i2c_client) : Z * option isl12020m_data :=
  let freq_out_mode0 := 1 in
  let freq_out0 := false in
  if negb (i2c_functionality client) then (- ENODEV, None)
  else if negb (kzalloc_ok client) then (- ENOMEM, None)
  else
    match regmap_init client with
    | inl err => (err, None)
    | inr m =>
        let priv := mk_data m false 0 false false false false false false in
        if negb (rtc_allocate_err client =? 0) then (rtc_allocate_err client, Some priv)
        else if negb (sysfs_create_err client =? 0) then (sysfs_create_err client, Some priv)
        else
          let '(err, initial_state, m1) := Regmap.regmap_read (regmap priv) ISL_REG_CSR_SR in
          let priv := with_regmap priv m1 in
          if negb (err =? 0) then (err, Some priv)
          else
            let priv :=
              if negb (Z.land initial_state ISL_BIT_CSR_SR_OSCF =? 0)
              then mk_data (regmap priv) (hwmon_dev priv) (freq_out_mode priv) (freq_out priv)
                           true (rtcf priv) (tse priv) (btse priv) (btsr priv)
              else priv in
            let priv :=
              if negb (Z.land initial_state ISL_BIT_CSR_SR_RTCF =? 0)
              then mk_data (regmap priv) (hwmon_dev priv) (freq_out_mode priv) (freq_out priv)
                           (oscf priv) true (tse priv) (btse priv) (btsr priv)
              else priv in
            let priv :=
              mk_data (regmap priv) (hwmon_register_ok client) (freq_out_mode priv)
                      (freq_out priv) (oscf priv) (rtcf priv) (tse priv) (btse priv)
                      (btsr priv) in
            let priv :=
              if device_property_present client "temperature-sensor-enabled"
              then snd (isl12020m_beta priv true (btse priv) (btsr priv))
              else priv in
            let priv :=
              if device_property_present client "battery-temperature-sensor-enabled"
              then snd (isl12020m_beta priv (tse priv) true (btsr priv))
              else priv in
            let priv :=
              if device_property_present client "high-sensing-frequency"
              then snd (isl12020m_beta priv (tse priv) (btse priv) true)
              else priv in
            let freq_out0 :=
              if device_property_present client "frequency-output-enable"
              then true else freq_out0 in
            let freq_out_mode0 :=
              snd (device_property_read_u8 client "frequency-output-mode" freq_out_mode0) in
            let '(err, priv) := isl12020m_set_freq_out priv freq_out_mode0 freq_out0 in
            (rtc_register_err client, Some priv)
    end.

(* static umode_t isl12020m_hwmon_temp_is_visible(priv, attr, channel) *)
Definition isl12020m_hwmon_temp_is_visible (priv : isl12020m_data) (attr channel : Z) : Z :=
  let err := 292 in
  if (attr =? hwmon_temp_input) || (attr =? hwmon_temp_lcrit) || (attr =? hwmon_temp_min)
     || (attr =? hwmon_temp_max) || (attr =? hwmon_temp_crit)
  then (if 0 <? channel then 0 else err)
  else err.

(* static int isl12020m_hwmon_temp_read(priv, attr, channel, long *val) *)
Definition isl12020m_hwmon_temp_read (priv : isl12020m_data) (attr channel val : Z)
  : Z * Z * isl12020m_data :=
  if attr =? hwmon_temp_input then isl12020m_read_temp priv val
  else if attr =? hwmon_temp_lcrit then (0, TEMP_LCRIT, priv)
  else if attr =? hwmon_temp_min then (0, TEMP_MIN, priv)
  else if attr =? hwmon_temp_max then (0, TEMP_MAX, priv)
  else if attr =? hwmon_temp_crit then (0, TEMP_CRIT, priv)
  else (- EOPNOTSUPP, val, priv).

(* static umode_t isl12020m_hwmon_ops_is_visible(data, type, attr, channel) *)
Definition isl12020m_hwmon_ops_is_visible (priv : isl12020m_data)
           (type : hwmon_sensor_types) (attr channel : Z) : Z :=
  match type with
  | hwmon_temp => isl12020m_hwmon_temp_is_visible priv attr channel
  | _ => 0
  end.

(* static int isl12020m_hwmon_ops_read(dev, type, attr, channel, long *val) *)
Definition isl12020m_hwmon_ops_read (priv : isl12020m_data) (type : hwmon_sensor_types)
           (attr channel val : Z) : Z * Z * isl12020m_data :=
  match type with
  | hwmon_temp => isl12020m_hwmon_temp_read priv attr channel val
  | _ => (- EOPNOTSUPP, val, priv)
  end.

(* the sysfs show callbacks: the text emitted *)
Definition isl12020m_oscf_show (priv : isl12020m_data) : string := emit_flag (oscf priv).
Definition isl12020m_rtcf_show (priv : isl12020m_data) : string := emit_flag (rtcf priv).
Definition isl12020m_tse_show (priv : isl12020m_data) : string := emit_flag (tse priv).
Definition isl12020m_btse_show (priv : isl12020m_data) : string := emit_flag (btse priv).
Definition isl12020m_btsr_show (priv : isl12020m_data) : string := emit_flag (btsr priv).

End Isl12020m.

(** ** src/rtc-isl12020m.c, the first driver of that file (RTC only): its
       weekday field is masked with WEEK_LEN *)

Module Isl12020mRtc.
Import Kernel.

Definition CENTURY_LEN : Z := 100.
Definition MONTH_OFFSET : Z := 1.
Definition WEEK_LEN : Z := 7.

Definition ISL_REG_RTC_SC : Z := 0.
Definition ISL_REG_RTC_MN : Z := 1.
Definition ISL_REG_RTC_HR : Z := 2.
Definition ISL_REG_RTC_DT : Z := 3.
Definition ISL_REG_RTC_MO : Z := 4.
Definition ISL_REG_RTC_YR : Z := 5.
Definition ISL_REG_RTC_DW : Z := 6.
Definition ISL_REG_CSR_SR : Z := 7.
Definition ISL_REG_CSR_INT : Z := 8.

Definition ISL_BIT_RTC_HR_MIL : Z := Z.shiftl 1 7.
Definition ISL_BIT_CSR_INT_WRTC : Z := Z.shiftl 1 6.

(* struct isl12020m_data: only the regmap carries state *)
Record isl12020m_data : Type := mk_data { regmap : Regmap.t }.

Definition isl12020m_rtc_ops_read_time (priv : isl12020m_data) (tm : rtc_time)
  : Z * rtc_time * isl12020m_data :=
  let '(err, regmap_buf, m1) :=
    Regmap.regmap_bulk_read (regmap priv) ISL_REG_RTC_SC (Z.to_nat (ISL_REG_CSR_INT + 1)) in
  let priv := mk_data m1 in
  if err <? 0 then (err, tm, priv)
  else
    let reg r := nth (Z.to_nat r) regmap_buf 0 in
    (0,
     mk_rtc_time
       (bcd2bin (Z.land (reg ISL_REG_RTC_SC) 127))
       (bcd2bin (Z.land (reg ISL_REG_RTC_MN) 127))
       (bcd2bin (Z.land (reg ISL_REG_RTC_HR) 63))
       (bcd2bin (Z.land (reg ISL_REG_RTC_DT) 63))
       (bcd2bin (Z.land (reg ISL_REG_RTC_MO) 31) - MONTH_OFFSET)
       (bcd2bin (reg ISL_REG_RTC_YR) + CENTURY_LEN)
       (Z.land (reg ISL_REG_RTC_DW) WEEK_LEN)
       (tm_yday tm)
       (tm_isdst tm),
     priv).

Definition time_regs (tm : rtc_time) : list Z :=
  [ bin2bcd (tm_sec tm);
    bin2bcd (tm_min tm);
    u8 (Z.lor (bin2bcd (tm_hour tm)) ISL_BIT_RTC_HR_MIL);
    bin2bcd (tm_mday tm);
    bin2bcd (tm_mon tm + MONTH_OFFSET);
    bin2bcd (Z.rem (tm_year tm) CENTURY_LEN);
    u8 (Z.land (tm_wday tm) WEEK_LEN) ].

Definition isl12020m_rtc_ops_set_time (priv : isl12020m_data) (tm : rtc_time)
  : Z * isl12020m_data :=
  let '(err, m1) :=
    Regmap.regmap_update_bits (regmap priv) ISL_REG_CSR_INT ISL_BIT_CSR_INT_WRTC
                              ISL_BIT_CSR_INT_WRTC in
  let priv := mk_data m1 in
  if err <? 0 then (err, priv)
  else
    let '(err, m2) := Regmap.regmap_bulk_write (regmap priv) ISL_REG_RTC_SC (time_regs tm) in
    (err, mk_data m2).

(* static int isl12020m_probe(client) of the first driver: no sysfs
   entries, no status read, no hwmon device *)
Definition isl12020m_probe (client : i2c_client) : Z * option isl12020m_data :=
  if negb (i2c_functionality client) then (- ENODEV, None)
  else if negb (kzalloc_ok client) then (- ENOMEM, None)
  else
    match regmap_init client with
    | inl err => (err, None)
    | inr m =>
        let priv := mk_data m in
        if negb (rtc_allocate_err client =? 0) then (rtc_allocate_err client, Some priv)
        else (rtc_register_err client, Some priv)
    end.

End Isl12020mRtc.

(** ** src/unnamed/part_003, an earlier revision of the driver with the
       temperature sensor: one compensation flag, TSE, is driven *)

Module Isl12020mTse.
Import Kernel.

Definition MILLI_DEGREE_CELCIUS : Z := 1000.
Definition CELCIUS0 : Z := 273 * MILLI_DEGREE_CELCIUS.

Definition ISL_REG_CSR_BETA : Z := 13.
Definition ISL_REG_CSR_BETA_TSE : Z := BIT 7.
Definition ISL_REG_TEMP_TKOL : Z := 40.

(* struct isl12020m_data: the fields the modelled functions use *)
Record isl12020m_data : Type := mk_data {
  regmap : Regmap.t;
  hwmon_dev : bool;
  tse : bool
}.

Definition with_regmap (priv : isl12020m_data) (m : Regmap.t) : isl12020m_data :=
  mk_data m (hwmon_dev priv) (tse priv).

(* static int isl12020m_tse(priv, bool enable) *)
Definition isl12020m_tse (priv : isl12020m_data) (enable : bool) : Z * isl12020m_data :=
  let '(err, val, m1) := Regmap.regmap_read (regmap priv) ISL_REG_CSR_BETA in
  let priv := with_regmap priv m1 in
  if err =? 0 then
    let val := if enable then Z.lor val ISL_REG_CSR_BETA_TSE
               else Z.land val (Z.lnot ISL_REG_CSR_BETA_TSE) in
    let '(err, m2) := Regmap.regmap_write (regmap priv) ISL_REG_CSR_BETA val in
    let priv := with_regmap priv m2 in
    if err =? 0 then (err, mk_data (regmap priv) (hwmon_dev priv) enable)
    else (err, priv)
  else (err, priv).

(* static int isl12020m_read_temp(priv, long *val): (err, *val, priv') *)
Definition isl12020m_read_temp (priv : isl12020m_data) (val : Z)
  : Z * Z * isl12020m_data :=
  if tse priv then
    let '(err, buf, m1) := Regmap.regmap_bulk_read (regmap priv) ISL_REG_TEMP_TKOL 2 in
    let priv := with_regmap priv m1 in
    if err =? 0 then
      let val := le16_to_cpu buf in
      let val := val * (MILLI_DEGREE_CELCIUS / 2) in
      let val := val - CELCIUS0 in
      (err, val, priv)
    else (err, val, priv)
  else (- EOPNOTSUPP, val, priv).

Definition isl12020m_tse_show (priv : isl12020m_data) : string := emit_flag (tse priv).

(* static ssize_t isl12020m_tse_store(dev, attr, buf, count); [val0] is
   what the uninitialised local [u8 val] holds when sscanf stores
   nothing *)
Definition isl12020m_tse_store (priv : isl12020m_data) (buf : string) (count : Z) (val0 : Z)
  : Z * isl12020m_data :=
  let val := match sscanf_hhu buf with Some v => v | None => val0 end in
  let priv :=
    if negb (val =? 0)
    then snd (isl12020m_tse priv true)
    else snd (isl12020m_tse priv false) in
  (count, priv).

End Isl12020mTse.

(** ** Statements used by the theorems *)

(* the calendar domain of the chip: 2000-01-01 .. 2099-12-31, with
   tm_mon counted from 0 and tm_year from 1900 as in struct rtc_time *)
Definition valid_time (t : rtc_time) : Prop :=
  0 <= tm_sec t <= 59 /\ 0 <= tm_min t <= 59 /\ 0 <= tm_hour t <= 23 /\
  1 <= tm_mday t <= 31 /\ 0 <= tm_mon t <= 11 /\ 100 <= tm_year t <= 199 /\
  0 <= tm_wday t <= 6.

(* [tm] after a read that was handed the buffer [tm0]: the seven calendar
   fields of [t], the two fields the drivers never write from [tm0] *)
Definition calendar_of (t tm0 : rtc_time) : rtc_time :=
  mk_rtc_time (tm_sec t) (tm_min t) (tm_hour t) (tm_mday t) (tm_mon t) (tm_year t)
              (tm_wday t) (tm_yday tm0) (tm_isdst tm0).

(* a bounded universal quantifier that computes *)
Fixpoint all_below (n : nat) (p : Z -> bool) : bool :=
  match n with
  | O => true
  | S k => p (Z.of_nat k) && all_below k p
  end.

(* none of the start-up properties read by isl12020_probe is present *)
Definition isl12020_no_startup_config (client : i2c_client) : bool :=
  forallb (fun name => negb (device_property_present client name))
          ["temperature-sensor-enable"; "battery-temperature-sensor-enable";
           "high-sensing-frequency-enable"; "battery-frequency-output-enable";
           "frequency-output-mode"]%string.

(* none of the start-up properties read by isl12020m_probe is present *)
Definition isl12020m_no_startup_config (client : i2c_client) : bool :=
  forallb (fun name => negb (device_property_present client name))
          ["temperature-sensor-enabled"; "battery-temperature-sensor-enabled";
           "high-sensing-frequency"; "frequency-output-enable";
           "frequency-output-mode"]%string.

(* a register file for examples: TKOL/TKOM hold the raw code [raw], every
   other register reads [fill] *)
Definition sample_regs (raw fill : Z) : Z -> Z :=
  fun r => if r =? 40 then raw mod 256 else if r =? 41 then raw / 256 else fill.

Definition sample_bus (raw fill : Z) (faults : list (option positive)) : Regmap.t :=
  Regmap.mk (sample_regs raw fill) faults [].

Definition sample_priv (raw fill : Z) (faults : list (option positive)) (tse : bool)
  : Isl12020.isl12020_data :=
  Isl12020.mk_data (sample_bus raw fill faults) true
    (Isl12020.mk_status false false false false false false)
    (Isl12020.mk_config 0 false tse false false).

Definition sample_priv_m (raw fill : Z) (faults : list (option positive)) (tse : bool)
  : Isl12020m.isl12020m_data :=
  Isl12020m.mk_data (sample_bus raw fill faults) true 0 false false false tse false false.

Definition sample_client (fill : Z) (props : list (string * option Z)) : i2c_client :=
  mk_i2c_client true true (inr (sample_bus 0 fill [])) 0 0 true props 0.

Definition sample_time : rtc_time := mk_rtc_time 59 30 23 31 11 199 6 364 0.

(* what a shell writes into a sysfs attribute: the text and a newline *)
Definition line (s : string) : string := s ++ String "010"%char EmptyString.

(* whether the k-th transaction from now on (counted from 0) is scripted
   to fail *)
Definition fault_at (m : Regmap.t) (k : nat) : bool :=
  match nth_error (Regmap.faults m) k with
  | Some (Some _) => true
  | _ => false
  end.

(* the answer of a store callback that forwards its error: [err ? err : count] *)
Definition store_result (err count : Z) : Z := if err =? 0 then count else err.

(* one flag of a control register: set the bit or clear it *)
Definition flag_bit (v bit : Z) (on : bool) : Z :=
  if on then Z.lor v bit else Z.land v (Z.lnot bit).

(* val &= ~MASK4BITS; val |= mode & MASK4BITS *)
Definition mode_field (v mode : Z) : Z :=
  Z.lor (Z.land v (Z.lnot (Kernel.GENMASK 3 0))) (Z.land mode (Kernel.GENMASK 3 0)).

(** ** Bit and byte facts *)

Module Facts.
Import Kernel.

Lemma all_below_spec (n : nat) (p : Z -> bool) :
  all_below n p = true -> forall z, 0 <= z < Z.of_nat n -> p z = true.
Proof.
  induction n as [| k IH]; intros Hall z Hz.
  - lia.
  - cbn [all_below] in Hall. apply andb_true_iff in Hall as [Hk Hrest].
    destruct (Z.eq_dec z (Z.of_nat k)) as [-> | Hne]; [assumption |].
    apply IH; [assumption | lia].
Qed.

Lemma testbit_BIT (k n : Z) : 0 <= k -> Z.testbit (BIT k) n = (k =? n).
Proof.
  intros Hk. unfold BIT. rewrite Z.shiftl_1_l. apply Z.pow2_bits_eqb; assumption.
Qed.

Lemma testbit_u8 (x n : Z) : Z.testbit (u8 x) n = (n <? 8) && Z.testbit x n.
Proof.
  unfold u8. change 256 with (2 ^ 8).
  destruct (Z.ltb_spec n 8) as [Hlt | Hge].
  - destruct (Z.neg_nonneg_cases n) as [Hneg | Hnn].
    + rewrite !Z.testbit_neg_r by assumption. reflexivity.
    + rewrite Z.mod_pow2_bits_low by lia. reflexivity.
  - rewrite Z.mod_pow2_bits_high by lia. reflexivity.
Qed.

Lemma u8_range (x : Z) : 0 <= u8 x < 256.
Proof. unfold u8. apply Z.mod_pos_bound. lia. Qed.

Lemma u8_small (x : Z) : 0 <= x < 256 -> u8 x = x.
Proof. intros H. unfold u8. apply Z.mod_small. assumption. Qed.

Lemma u8_idem (x : Z) : u8 (u8 x) = u8 x.
Proof. apply u8_small, u8_range. Qed.

(* setting or clearing one bit leaves every other bit alone *)
Lemma testbit_set_or_clear (v k n : Z) (on : bool) :
  0 <= k -> 0 <= n ->
  Z.testbit (if on then Z.lor v (BIT k) else Z.land v (Z.lnot (BIT k))) n
  = if k =? n then on else Z.testbit v n.
Proof.
  intros Hk Hn. destruct on.
  - rewrite Z.lor_spec, testbit_BIT by assumption.
    destruct (k =? n); [apply orb_true_r | apply orb_false_r].
  - rewrite Z.land_spec, Z.lnot_spec, testbit_BIT by assumption.
    destruct (k =? n); [apply andb_false_r | apply andb_true_r].
Qed.

(* val &= ~MASK4BITS; val |= mode & MASK4BITS *)
Lemma testbit_mode_field (v mode n : Z) :
  0 <= n ->
  Z.testbit (Z.lor (Z.land v (Z.lnot (GENMASK 3 0))) (Z.land mode (GENMASK 3 0))) n
  = if n <? 4 then Z.testbit mode n else Z.testbit v n.
Proof.
  intros Hn. change (GENMASK 3 0) with (Z.ones 4).
  rewrite Z.lor_spec, !Z.land_spec, Z.lnot_spec by assumption.
  destruct (Z.ltb_spec n 4) as [Hlt | Hge].
  - rewrite Z.ones_spec_low by lia. cbn. rewrite andb_false_r, andb_true_r. reflexivity.
  - rewrite Z.ones_spec_high by lia. cbn. rewrite andb_false_r, andb_true_r, orb_false_r.
    reflexivity.
Qed.

Lemma land_mode_field (v mode : Z) :
  Z.land (u8 (Z.lor (Z.land v (Z.lnot (GENMASK 3 0))) (Z.land mode (GENMASK 3 0))))
         (GENMASK 3 0)
  = mode mod 16.
Proof.
  change 16 with (2 ^ 4). rewrite <- Z.land_ones by lia.
  apply Z.bits_inj'. intros n Hn.
  rewrite Z.land_spec, testbit_u8, testbit_mode_field by assumption.
  change (GENMASK 3 0) with (Z.ones 4). rewrite Z.land_spec.
  destruct (Z.ltb_spec n 4) as [Hlt | Hge].
  - rewrite Z.ones_spec_low by lia.
    replace (n <? 8) with true by (symmetry; apply Z.ltb_lt; lia). reflexivity.
  - rewrite Z.ones_spec_high by lia. rewrite !andb_false_r. reflexivity.
Qed.

(* packed decimal: two digits survive the conversion to and fro *)
Lemma bin2bcd_digits (v : Z) : 0 <= v < 100 -> bin2bcd v = 16 * (v / 10) + v mod 10.
Proof.
  intros Hv. unfold bin2bcd, u32. rewrite (Z.mod_small v) by lia.
  rewrite Z.shiftl_mul_pow2 by lia. change (2 ^ 4) with 16.
  pose proof (Z.mod_pos_bound v 10 ltac:(lia)) as Hr.
  assert (0 <= v / 10 < 10) as Hq
    by (split; [apply Z.div_pos; lia | apply Z.div_lt_upper_bound; lia]).
  rewrite u8_small by lia. lia.
Qed.

Lemma bcd2bin_bin2bcd (v : Z) : 0 <= v < 100 -> bcd2bin (bin2bcd v) = v.
Proof.
  intros Hv. rewrite bin2bcd_digits by assumption.
  pose proof (Z.mod_pos_bound v 10 ltac:(lia)) as Hr.
  assert (0 <= v / 10 < 10) as Hq
    by (split; [apply Z.div_pos; lia | apply Z.div_lt_upper_bound; lia]).
  unfold bcd2bin. rewrite u8_small by lia.
  change 15 with (Z.ones 4). rewrite Z.land_ones, Z.shiftr_div_pow2 by lia.
  change (2 ^ 4) with 16.
  replace (16 * (v / 10) + v mod 10) with (v mod 10 + (v / 10) * 16) by lia.
  rewrite Z.mod_add, Z.div_add by lia.
  rewrite Z.mod_small, Z.div_small by lia.
  pose proof (Z.div_mod v 10 ltac:(lia)). lia.
Qed.

End Facts.

(** ** The register channel: reads see what writes stored *)

Module RegmapFacts.
Import Kernel Regmap.

Lemma peek_poke_same (m : t) (reg val : Z) : peek (poke m reg val) reg = u8 val.
Proof. unfold peek, poke. cbn. rewrite Z.eqb_refl. apply Facts.u8_idem. Qed.

Lemma peek_poke_other (m : t) (reg val r : Z) :
  r <> reg -> peek (poke m reg val) r = peek m r.
Proof.
  intros Hne. unfold peek, poke. cbn.
  destruct (Z.eqb_spec r reg); [contradiction | reflexivity].
Qed.

Lemma peek_poke_all_outside (vals : list Z) (m : t) (reg r : Z) :
  r < reg \/ reg + Z.of_nat (List.length vals) <= r ->
  peek (poke_all m reg vals) r = peek m r.
Proof.
  revert m reg. induction vals as [| v rest IH]; intros m reg Hr; cbn [poke_all].
  - reflexivity.
  - cbn [List.length] in Hr. rewrite IH by lia. apply peek_poke_other. lia.
Qed.

Lemma peek_poke_all_nth (vals : list Z) (m : t) (reg : Z) (i : nat) :
  (i < List.length vals)%nat ->
  peek (poke_all m reg vals) (reg + Z.of_nat i) = u8 (nth i vals 0).
Proof.
  revert m reg i. induction vals as [| v rest IH]; intros m reg i Hi; cbn [List.length] in Hi.
  - lia.
  - cbn [poke_all]. destruct i as [| j].
    + rewrite peek_poke_all_outside by lia.
      replace (reg + Z.of_nat 0) with reg by lia. apply peek_poke_same.
    + replace (reg + Z.of_nat (S j)) with (reg + 1 + Z.of_nat j) by lia.
      apply IH. lia.
Qed.

Lemma transfer_regs (a : access) (m : t) : regs (snd (transfer a m)) = regs m.
Proof. unfold transfer. destruct (faults m) as [| [e |] fs]; reflexivity. Qed.

Lemma peek_transfer (a : access) (m : t) (r : Z) : peek (snd (transfer a m)) r = peek m r.
Proof. unfold peek. rewrite transfer_regs. reflexivity. Qed.

(* a transaction either succeeds with 0 or fails with a negative code *)
Lemma transfer_cases (a : access) (m : t) :
  fst (transfer a m) = 0 \/ fst (transfer a m) < 0.
Proof. unfold transfer. destruct (faults m) as [| [e |] fs]; cbn; lia. Qed.

Lemma bulk_write_stores (m m2 : t) (reg : Z) (vals : list Z) :
  regmap_bulk_write m reg vals = (0, m2) ->
  forall i, (i < List.length vals)%nat -> peek m2 (reg + Z.of_nat i) = u8 (nth i vals 0).
Proof.
  unfold regmap_bulk_write. intros H i Hi.
  destruct (transfer _ m) as [err m1]. destruct (err =? 0) eqn:He.
  - injection H as <-. apply peek_poke_all_nth. exact Hi.
  - injection H as -> _. discriminate.
Qed.

Lemma bulk_read_cases (m m1 : t) (reg err : Z) (count : nat) (buf : list Z) :
  regmap_bulk_read m reg count = (err, buf, m1) ->
  (err = 0 /\ buf = map (fun i => peek m (reg + Z.of_nat i)) (seq 0 count))
  \/ (err < 0 /\ buf = []).
Proof.
  unfold regmap_bulk_read. intros H.
  pose proof (transfer_cases (BulkRead reg count) m) as Hc.
  pose proof (fun r => peek_transfer (BulkRead reg count) m r) as Hp.
  destruct (transfer _ m) as [e m']. cbn [fst snd] in *.
  destruct Hc as [-> | Hneg].
  - cbn in H. injection H as <- <- _. left. split; [reflexivity |].
    apply map_ext. intros i. apply Hp.
  - destruct (Z.eqb_spec e 0) as [-> | _]; [lia |].
    injection H as <- <- _. right. split; [assumption | reflexivity].
Qed.

Lemma read_ok (m m1 : t) (reg val : Z) :
  regmap_read m reg = (0, val, m1) ->
  val = peek m reg /\ forall r, peek m1 r = peek m r.
Proof.
  unfold regmap_read. intros H.
  pose proof (fun r => peek_transfer (RegRead reg) m r) as Hp.
  destruct (transfer _ m) as [e m']. cbn [snd] in Hp. cbv beta iota in H.
  destruct (Z.eqb_spec e 0) as [-> | Hne].
  - injection H as <- <-. split; [apply Hp | exact Hp].
  - injection H as He _ _. contradiction.
Qed.

Lemma write_ok (m m2 : t) (reg v : Z) :
  regmap_write m reg v = (0, m2) ->
  peek m2 reg = u8 v /\ forall r, r <> reg -> peek m2 r = peek m r.
Proof.
  unfold regmap_write. intros H.
  pose proof (fun r => peek_transfer (RegWrite reg v) m r) as Hp.
  destruct (transfer _ m) as [e m']. cbn [snd] in Hp. cbv beta iota in H.
  destruct (Z.eqb_spec e 0) as [-> | Hne].
  - injection H as <-. split.
    + apply peek_poke_same.
    + intros r Hr. rewrite peek_poke_other by assumption. apply Hp.
  - injection H as He _. contradiction.
Qed.

Lemma read_faults (m : t) (reg : Z) :
  faults (snd (regmap_read m reg)) = tl (faults m).
Proof.
  unfold regmap_read, transfer. destruct (faults m) as [| [e |] fs]; reflexivity.
Qed.

Lemma fault_at_tail (m m1 : t) (k : nat) :
  faults m1 = tl (faults m) -> fault_at m1 k = fault_at m (S k).
Proof.
  unfold fault_at. intros ->. destruct (faults m) as [| f fs]; [| reflexivity].
  destruct k; reflexivity.
Qed.

End RegmapFacts.

(** ** The time codec, field by field *)

Module CodecFacts.
Import Kernel.

Lemma seconds_field (v : Z) :
  0 <= v <= 59 -> bcd2bin (Z.land (u8 (bin2bcd v)) (GENMASK 6 0)) = v.
Proof.
  intros Hv. apply Z.eqb_eq.
  apply (Facts.all_below_spec 60
           (fun z => bcd2bin (Z.land (u8 (bin2bcd z)) (GENMASK 6 0)) =? z));
    [vm_compute; reflexivity | lia].
Qed.

Lemma hours_field (v : Z) :
  0 <= v <= 23 ->
  bcd2bin (Z.land (u8 (u8 (Z.lor (bin2bcd v) (BIT 7)))) (GENMASK 5 0)) = v.
Proof.
  intros Hv. apply Z.eqb_eq.
  apply (Facts.all_below_spec 24
           (fun z => bcd2bin (Z.land (u8 (u8 (Z.lor (bin2bcd z) (BIT 7)))) (GENMASK 5 0))
                     =? z));
    [vm_compute; reflexivity | lia].
Qed.

Lemma day_field (v : Z) :
  1 <= v <= 31 -> bcd2bin (Z.land (u8 (bin2bcd v)) (GENMASK 5 0)) = v.
Proof.
  intros Hv. apply Z.eqb_eq.
  apply (Facts.all_below_spec 32
           (fun z => bcd2bin (Z.land (u8 (bin2bcd z)) (GENMASK 5 0)) =? z));
    [vm_compute; reflexivity | lia].
Qed.

Lemma month_field (v : Z) :
  0 <= v <= 11 -> bcd2bin (Z.land (u8 (bin2bcd (v + 1))) (GENMASK 4 0)) - 1 = v.
Proof.
  intros Hv. apply Z.eqb_eq.
  apply (Facts.all_below_spec 12
           (fun z => bcd2bin (Z.land (u8 (bin2bcd (z + 1))) (GENMASK 4 0)) - 1 =? z));
    [vm_compute; reflexivity | lia].
Qed.

(* any year from 1900 on is stored modulo 100 and read back in 2000..2099 *)
Lemma year_field (y : Z) :
  0 <= y -> bcd2bin (u8 (bin2bcd (Z.rem y 100))) + 100 = 100 + y mod 100.
Proof.
  intros Hy. rewrite Z.rem_mod_nonneg by lia.
  pose proof (Z.mod_pos_bound y 100 ltac:(lia)) as Hr.
  replace (u8 (bin2bcd (y mod 100))) with (bin2bcd (y mod 100))
    by (unfold bin2bcd; symmetry; apply Facts.u8_idem).
  rewrite Facts.bcd2bin_bin2bcd by lia. lia.
Qed.

Lemma year_field_in_century (y : Z) :
  100 <= y <= 199 -> bcd2bin (u8 (bin2bcd (Z.rem y 100))) + 100 = y.
Proof.
  intros Hy. rewrite year_field by lia.
  replace y with (y - 100 + 1 * 100) at 1 by lia.
  rewrite Z.mod_add, Z.mod_small by lia. lia.
Qed.

Lemma weekday_field (v : Z) :
  0 <= v <= 6 -> Z.land (u8 (u8 (Z.land v (GENMASK 2 0)))) (GENMASK 2 0) = v.
Proof.
  intros Hv. apply Z.eqb_eq.
  apply (Facts.all_below_spec 7
           (fun z => Z.land (u8 (u8 (Z.land z (GENMASK 2 0)))) (GENMASK 2 0) =? z));
    [vm_compute; reflexivity | lia].
Qed.

End CodecFacts.

(** ** The time codec: what set_time stores and what read_time decodes *)

Module TimeCodec.
Import Kernel.

(* what set_time leaves in the seven time registers; [f] is the driver's
   set_time *)
Ltac set_time_stores_with f :=
  let H := fresh "H" in
  let i := fresh "i" in
  let Hi := fresh "Hi" in
  let Hw := fresh "Hw" in
  unfold f; intros H i Hi;
  destruct (Regmap.regmap_update_bits _ _ _ _) as [?err ?m1];
  match goal with
  | _ : context [?e <? 0] |- _ =>
      destruct (Z.ltb_spec e 0);
      [ injection H as -> _; lia
      | destruct (Regmap.regmap_bulk_write _ _ _) as [?err2 ?m2] eqn:Hw;
        injection H as -> <-;
        apply (RegmapFacts.bulk_write_stores _ _ _ _ Hw i); exact Hi ]
  end.

(* what read_time makes of the registers *)
Ltac read_time_decodes_with f :=
  let H := fresh "H" in
  let reg := fresh "reg" in
  let Hr := fresh "Hr" in
  let Hneg := fresh "Hneg" in
  intros H reg; unfold f in H;
  destruct (Regmap.regmap_bulk_read _ _ _) as [[?err ?buf] ?m1] eqn:Hr;
  destruct (RegmapFacts.bulk_read_cases _ _ _ _ _ _ Hr) as [[-> ->] | [Hneg ->]];
  [ injection H as <- _; reflexivity
  | apply Z.ltb_lt in Hneg; rewrite Hneg in H; injection H as H _ _;
    apply Z.ltb_lt in Hneg; lia ].

Lemma isl12020_set_time_stores (priv priv1 : Isl12020.isl12020_data) (t : rtc_time) :
  Isl12020.isl12020_rtc_ops_set_time priv t = (0, priv1) ->
  forall i, (i < 7)%nat ->
  Regmap.peek (Isl12020.regmap priv1) (Z.of_nat i) = u8 (nth i (Isl12020.time_regs t) 0).
Proof. set_time_stores_with Isl12020.isl12020_rtc_ops_set_time. Qed.

Lemma isl12020_read_time_decodes (priv priv2 : Isl12020.isl12020_data) (tm0 tm : rtc_time) :
  Isl12020.isl12020_rtc_ops_read_time priv tm0 = (0, tm, priv2) ->
  let reg r := Regmap.peek (Isl12020.regmap priv) r in
  tm = mk_rtc_time
         (bcd2bin (Z.land (reg 0) (GENMASK 6 0)))
         (bcd2bin (Z.land (reg 1) (GENMASK 6 0)))
         (bcd2bin (Z.land (reg 2) (GENMASK 5 0)))
         (bcd2bin (Z.land (reg 3) (GENMASK 5 0)))
         (bcd2bin (Z.land (reg 4) (GENMASK 4 0)) - 1)
         (bcd2bin (reg 5) + 100)
         (Z.land (reg 6) (GENMASK 2 0))
         (tm_yday tm0) (tm_isdst tm0).
Proof. read_time_decodes_with Isl12020.isl12020_rtc_ops_read_time. Qed.

(* set_time followed by read_time, from the two lemmas of a driver:
   [Hdec] decodes the registers, [Hsto] says what set_time stored,
   [rm] projects the regmap out of the driver data *)
Ltac round_trip_with Hdec Hsto rm :=
  let Hset := fresh "Hset" in
  let Hread := fresh "Hread" in
  let Hreg := fresh "Hreg" in
  intros (Hs & Hm & Hh & Hd & Hmo & Hy & Hw) Hset Hread;
  rewrite (Hdec _ _ _ _ Hread); cbv zeta;
  pose proof (Hsto _ _ _ Hset) as Hreg;
  match goal with
  | Hset : _ ?priv ?t = (0, ?priv1) |- _ =>
      assert (Regmap.peek (rm priv1) 0 = u8 (bin2bcd (tm_sec t))) as ->
        by exact (Hreg 0%nat ltac:(lia));
      assert (Regmap.peek (rm priv1) 1 = u8 (bin2bcd (tm_min t))) as ->
        by exact (Hreg 1%nat ltac:(lia));
      assert (Regmap.peek (rm priv1) 2 = u8 (u8 (Z.lor (bin2bcd (tm_hour t)) (BIT 7))))
        as -> by exact (Hreg 2%nat ltac:(lia));
      assert (Regmap.peek (rm priv1) 3 = u8 (bin2bcd (tm_mday t))) as ->
        by exact (Hreg 3%nat ltac:(lia));
      assert (Regmap.peek (rm priv1) 4 = u8 (bin2bcd (tm_mon t + 1))) as ->
        by exact (Hreg 4%nat ltac:(lia));
      assert (Regmap.peek (rm priv1) 5 = u8 (bin2bcd (Z.rem (tm_year t) 100))) as ->
        by exact (Hreg 5%nat ltac:(lia));
      assert (Regmap.peek (rm priv1) 6 = u8 (u8 (Z.land (tm_wday t) (GENMASK 2 0))))
        as -> by exact (Hreg 6%nat ltac:(lia))
  end;
  unfold calendar_of; f_equal;
  [ apply CodecFacts.seconds_field | apply CodecFacts.seconds_field
  | apply CodecFacts.hours_field | apply CodecFacts.day_field
  | apply CodecFacts.month_field | apply CodecFacts.year_field_in_century
  | apply CodecFacts.weekday_field ]; assumption.

(* the same codec in the two drivers of rtc-isl12020m.c *)

Lemma isl12020m_set_time_stores (priv priv1 : Isl12020m.isl12020m_data) (t : rtc_time) :
  Isl12020m.isl12020m_rtc_ops_set_time priv t = (0, priv1) ->
  forall i, (i < 7)%nat ->
  Regmap.peek (Isl12020m.regmap priv1) (Z.of_nat i) = u8 (nth i (Isl12020m.time_regs t) 0).
Proof. set_time_stores_with Isl12020m.isl12020m_rtc_ops_set_time. Qed.

Lemma isl12020m_read_time_decodes (priv priv2 : Isl12020m.isl12020m_data)
      (tm0 tm : rtc_time) :
  Isl12020m.isl12020m_rtc_ops_read_time priv tm0 = (0, tm, priv2) ->
  let reg r := Regmap.peek (Isl12020m.regmap priv) r in
  tm = mk_rtc_time
         (bcd2bin (Z.land (reg 0) (GENMASK 6 0)))
         (bcd2bin (Z.land (reg 1) (GENMASK 6 0)))
         (bcd2bin (Z.land (reg 2) (GENMASK 5 0)))
         (bcd2bin (Z.land (reg 3) (GENMASK 5 0)))
         (bcd2bin (Z.land (reg 4) (GENMASK 4 0)) - 1)
         (bcd2bin (reg 5) + 100)
         (Z.land (reg 6) (GENMASK 2 0))
         (tm_yday tm0) (tm_isdst tm0).
Proof. read_time_decodes_with Isl12020m.isl12020m_rtc_ops_read_time. Qed.

Lemma isl12020m_set_then_read (priv priv1 priv2 : Isl12020m.isl12020m_data)
      (t tm0 tm : rtc_time) :
  valid_time t ->
  Isl12020m.isl12020m_rtc_ops_set_time priv t = (0, priv1) ->
  Isl12020m.isl12020m_rtc_ops_read_time priv1 tm0 = (0, tm, priv2) ->
  tm = calendar_of t tm0.
Proof.
  round_trip_with isl12020m_read_time_decodes isl12020m_set_time_stores
                  Isl12020m.regmap.
Qed.

Lemma isl12020m_rtc_set_time_stores (priv priv1 : Isl12020mRtc.isl12020m_data)
      (t : rtc_time) :
  Isl12020mRtc.isl12020m_rtc_ops_set_time priv t = (0, priv1) ->
  forall i, (i < 7)%nat ->
  Regmap.peek (Isl12020mRtc.regmap priv1) (Z.of_nat i)
  = u8 (nth i (Isl12020mRtc.time_regs t) 0).
Proof. set_time_stores_with Isl12020mRtc.isl12020m_rtc_ops_set_time. Qed.

Lemma isl12020m_rtc_read_time_decodes (priv priv2 : Isl12020mRtc.isl12020m_data)
      (tm0 tm : rtc_time) :
  Isl12020mRtc.isl12020m_rtc_ops_read_time priv tm0 = (0, tm, priv2) ->
  let reg r := Regmap.peek (Isl12020mRtc.regmap priv) r in
  tm = mk_rtc_time
         (bcd2bin (Z.land (reg 0) (GENMASK 6 0)))
         (bcd2bin (Z.land (reg 1) (GENMASK 6 0)))
         (bcd2bin (Z.land (reg 2) (GENMASK 5 0)))
         (bcd2bin (Z.land (reg 3) (GENMASK 5 0)))
         (bcd2bin (Z.land (reg 4) (GENMASK 4 0)) - 1)
         (bcd2bin (reg 5) + 100)
         (Z.land (reg 6) (GENMASK 2 0))
         (tm_yday tm0) (tm_isdst tm0).
Proof. read_time_decodes_with Isl12020mRtc.isl12020m_rtc_ops_read_time. Qed.

(* the RTC-only driver of rtc-isl12020m.c decodes what it stored; masking
   the weekday with WEEK_LEN (7) is the three bit mask *)
Lemma isl12020m_rtc_set_then_read (priv priv1 priv2 : Isl12020mRtc.isl12020m_data)
      (t tm0 tm : rtc_time) :
  valid_time t ->
  Isl12020mRtc.isl12020m_rtc_ops_set_time priv t = (0, priv1) ->
  Isl12020mRtc.isl12020m_rtc_ops_read_time priv1 tm0 = (0, tm, priv2) ->
  tm = calendar_of t tm0.
Proof.
  round_trip_with isl12020m_rtc_read_time_decodes isl12020m_rtc_set_time_stores
                  Isl12020mRtc.regmap.
Qed.

(* on a channel without faults both calls succeed *)
Lemma isl12020_set_time_reliable (priv : Isl12020.isl12020_data) (t : rtc_time) :
  Regmap.reliable (Isl12020.regmap priv) ->
  fst (Isl12020.isl12020_rtc_ops_set_time priv t) = 0
  /\ Regmap.reliable (Isl12020.regmap (snd (Isl12020.isl12020_rtc_ops_set_time priv t))).
Proof.
  unfold Regmap.reliable. destruct priv as [[rg fs tr] hw st cf]. cbn. intros ->.
  unfold Isl12020.isl12020_rtc_ops_set_time, Regmap.regmap_update_bits,
    Regmap.regmap_read, Regmap.regmap_write, Regmap.regmap_bulk_write, Regmap.transfer.
  cbn -[Z.lor Z.land Z.lnot Isl12020.time_regs Regmap.poke_all Regmap.peek].
  match goal with |- context [if ?c then _ else _] => destruct c end; cbn; split; reflexivity.
Qed.

Lemma isl12020_read_time_reliable (priv : Isl12020.isl12020_data) (tm0 : rtc_time) :
  Regmap.reliable (Isl12020.regmap priv) ->
  fst (fst (Isl12020.isl12020_rtc_ops_read_time priv tm0)) = 0.
Proof.
  unfold Regmap.reliable. destruct priv as [[rg fs tr] hw st cf]. cbn. intros ->.
  reflexivity.
Qed.

Lemma isl12020m_rtc_set_time_reliable (priv : Isl12020mRtc.isl12020m_data)
      (t : rtc_time) :
  Regmap.reliable (Isl12020mRtc.regmap priv) ->
  fst (Isl12020mRtc.isl12020m_rtc_ops_set_time priv t) = 0
  /\ Regmap.reliable
       (Isl12020mRtc.regmap (snd (Isl12020mRtc.isl12020m_rtc_ops_set_time priv t))).
Proof.
  unfold Regmap.reliable. destruct priv as [[rg fs tr]]. cbn. intros ->.
  unfold Isl12020mRtc.isl12020m_rtc_ops_set_time, Regmap.regmap_update_bits,
    Regmap.regmap_read, Regmap.regmap_write, Regmap.regmap_bulk_write, Regmap.transfer.
  cbn -[Z.lor Z.land Z.lnot Isl12020mRtc.time_regs Regmap.poke_all Regmap.peek].
  match goal with |- context [if ?c then _ else _] => destruct c end; cbn; split; reflexivity.
Qed.

Lemma isl12020m_rtc_read_time_reliable (priv : Isl12020mRtc.isl12020m_data)
      (tm0 : rtc_time) :
  Regmap.reliable (Isl12020mRtc.regmap priv) ->
  fst (fst (Isl12020mRtc.isl12020m_rtc_ops_read_time priv tm0)) = 0.
Proof.
  unfold Regmap.reliable. destruct priv as [[rg fs tr]]. cbn. intros ->.
  reflexivity.
Qed.

End TimeCodec.

(** ** The BETA and INT setters on their success path *)

Module ConfigFacts.
Import Kernel.

Ltac rmw_ok_with f :=
  let H := fresh "H" in
  let Hr := fresh "Hr" in
  let Hw := fresh "Hw" in
  intros H; unfold f in H;
  destruct (Regmap.regmap_read _ _) as [[?err ?val] ?m1] eqn:Hr;
  match type of Hr with
  | _ = (?e, _, _) =>
      destruct (Z.eqb_spec e 0) as [-> | ?];
      [ destruct (Regmap.regmap_write _ _ _) as [?err2 ?m2] eqn:Hw;
        match type of Hw with
        | _ = (?e2, _) =>
            destruct (Z.eqb_spec e2 0) as [-> | ?];
            [ injection H as <-;
              destruct (RegmapFacts.read_ok _ _ _ _ Hr) as [-> ?Hframe1];
              destruct (RegmapFacts.write_ok _ _ _ _ Hw) as [?Hnew ?Hframe2]
            | injection H as ? _; congruence ]
        end
      | injection H as ? _; congruence ]
  end.

Lemma isl12020_set_beta_ok (priv priv' : Isl12020.isl12020_data) (a b c : bool) :
  Isl12020.isl12020_set_beta priv a b c = (0, priv') ->
  let old := Regmap.peek (Isl12020.regmap priv) 13 in
  Regmap.peek (Isl12020.regmap priv') 13
  = u8 (flag_bit (flag_bit (flag_bit old (BIT 7) a) (BIT 6) b) (BIT 5) c)
  /\ (forall r, r <> 13 ->
      Regmap.peek (Isl12020.regmap priv') r = Regmap.peek (Isl12020.regmap priv) r)
  /\ Isl12020.config priv'
     = Isl12020.mk_config (Isl12020.freq_out_mode (Isl12020.config priv))
                          (Isl12020.freq_out_bat (Isl12020.config priv)) a b c
  /\ Isl12020.status priv' = Isl12020.status priv.
Proof.
  rmw_ok_with Isl12020.isl12020_set_beta.
  cbn. repeat split.
  - exact Hnew.
  - intros r Hr'. rewrite Hframe2 by assumption. apply Hframe1.
Qed.

Lemma isl12020m_beta_ok (priv priv' : Isl12020m.isl12020m_data) (a b c : bool) :
  Isl12020m.isl12020m_beta priv a b c = (0, priv') ->
  let old := Regmap.peek (Isl12020m.regmap priv) 13 in
  Regmap.peek (Isl12020m.regmap priv') 13
  = u8 (flag_bit (flag_bit (flag_bit old (BIT 7) a) (BIT 6) b) (BIT 5) c)
  /\ (forall r, r <> 13 ->
      Regmap.peek (Isl12020m.regmap priv') r = Regmap.peek (Isl12020m.regmap priv) r)
  /\ (Isl12020m.tse priv', Isl12020m.btse priv', Isl12020m.btsr priv') = (a, b, c)
  /\ (Isl12020m.freq_out_mode priv', Isl12020m.freq_out priv')
     = (Isl12020m.freq_out_mode priv, Isl12020m.freq_out priv)
  /\ (Isl12020m.oscf priv', Isl12020m.rtcf priv')
     = (Isl12020m.oscf priv, Isl12020m.rtcf priv).
Proof.
  rmw_ok_with Isl12020m.isl12020m_beta.
  cbn. repeat split.
  - exact Hnew.
  - intros r Hr'. rewrite Hframe2 by assumption. apply Hframe1.
Qed.

Lemma isl12020_set_freq_out_ok (priv priv' : Isl12020.isl12020_data) (mode : Z)
      (batmode : bool) :
  Isl12020.isl12020_set_freq_out priv mode batmode = (0, priv') ->
  let old := Regmap.peek (Isl12020.regmap priv) 8 in
  Regmap.peek (Isl12020.regmap priv') 8
  = u8 (mode_field (flag_bit old (BIT 4) (negb batmode)) mode)
  /\ (forall r, r <> 8 ->
      Regmap.peek (Isl12020.regmap priv') r = Regmap.peek (Isl12020.regmap priv) r)
  /\ Isl12020.config priv'
     = Isl12020.mk_config mode batmode (Isl12020.tse (Isl12020.config priv))
                          (Isl12020.btse (Isl12020.config priv))
                          (Isl12020.btsr (Isl12020.config priv))
  /\ Isl12020.status priv' = Isl12020.status priv.
Proof.
  rmw_ok_with Isl12020.isl12020_set_freq_out.
  cbn. repeat split.
  - refine (eq_trans Hnew _). destruct batmode; reflexivity.
  - intros r Hr'. rewrite Hframe2 by assumption. apply Hframe1.
Qed.

Lemma isl12020m_set_freq_out_ok (priv priv' : Isl12020m.isl12020m_data) (mode : Z)
      (enable : bool) :
  Isl12020m.isl12020m_set_freq_out priv mode enable = (0, priv') ->
  let old := Regmap.peek (Isl12020m.regmap priv) 8 in
  Regmap.peek (Isl12020m.regmap priv') 8
  = u8 (mode_field (flag_bit old (BIT 4) enable) mode)
  /\ (forall r, r <> 8 ->
      Regmap.peek (Isl12020m.regmap priv') r = Regmap.peek (Isl12020m.regmap priv) r)
  /\ (Isl12020m.freq_out_mode priv', Isl12020m.freq_out priv') = (mode, enable)
  /\ (Isl12020m.tse priv', Isl12020m.btse priv', Isl12020m.btsr priv')
     = (Isl12020m.tse priv, Isl12020m.btse priv, Isl12020m.btsr priv).
Proof.
  rmw_ok_with Isl12020m.isl12020m_set_freq_out.
  cbn. repeat split.
  - exact Hnew.
  - intros r Hr'. rewrite Hframe2 by assumption. apply Hframe1.
Qed.

(* the bits of the BETA byte after the three flags were merged in *)
Lemma beta_byte_bits (old : Z) (a b c : bool) (n : Z) :
  0 <= old < 256 ->
  Z.testbit (u8 (flag_bit (flag_bit (flag_bit old (BIT 7) a) (BIT 6) b) (BIT 5) c)) n
  = if n =? 7 then a else if n =? 6 then b else if n =? 5 then c else Z.testbit old n.
Proof.
  intros Hold. destruct (Z.neg_nonneg_cases n) as [Hneg | Hnn].
  - rewrite !Z.testbit_neg_r by assumption.
    repeat match goal with |- context [?x =? ?y] => destruct (Z.eqb_spec x y); [lia |] end.
    reflexivity.
  - rewrite Facts.testbit_u8. unfold flag_bit.
    rewrite !Facts.testbit_set_or_clear by lia.
    rewrite (Z.eqb_sym 5 n), (Z.eqb_sym 6 n), (Z.eqb_sym 7 n).
    destruct (Z.eqb_spec n 7) as [-> | H7]; [destruct a; reflexivity |].
    destruct (Z.eqb_spec n 6) as [-> | H6]; [destruct b; reflexivity |].
    destruct (Z.eqb_spec n 5) as [-> | H5]; [destruct c; reflexivity |].
    destruct (Z.ltb_spec n 8) as [Hlt | Hge]; [reflexivity |].
    cbn [andb]. symmetry. rewrite <- (Facts.u8_small old Hold), Facts.testbit_u8.
    destruct (Z.ltb_spec n 8); [lia | reflexivity].
Qed.

(* bit 4 of the INT byte is the flag, the low four bits are the mode *)
Lemma int_byte_bit4 (old mode : Z) (on : bool) :
  Z.testbit (u8 (mode_field (flag_bit old (BIT 4) on) mode)) 4 = on.
Proof.
  rewrite Facts.testbit_u8. unfold mode_field, flag_bit.
  rewrite Facts.testbit_mode_field, Facts.testbit_set_or_clear by lia.
  reflexivity.
Qed.

Lemma int_byte_mode (old mode : Z) (on : bool) :
  Z.land (u8 (mode_field (flag_bit old (BIT 4) on) mode)) (GENMASK 3 0) = mode mod 16.
Proof. unfold mode_field. apply Facts.land_mode_field. Qed.


(* on a channel without faults the read-modify-write of BETA succeeds *)
Lemma isl12020_set_beta_reliable (priv : Isl12020.isl12020_data) (a b c : bool) :
  Regmap.reliable (Isl12020.regmap priv) ->
  fst (Isl12020.isl12020_set_beta priv a b c) = 0.
Proof.
  destruct priv as [[rg fs tr] hw st cf]. unfold Regmap.reliable.
  cbn [Isl12020.regmap Regmap.faults]. intros ->. reflexivity.
Qed.

Lemma isl12020m_beta_reliable (priv : Isl12020m.isl12020m_data) (a b c : bool) :
  Regmap.reliable (Isl12020m.regmap priv) ->
  fst (Isl12020m.isl12020m_beta priv a b c) = 0.
Proof.
  destruct priv as [[rg fs tr] hw fm fo os rt t0 bt0 br0]. unfold Regmap.reliable.
  cbn [Isl12020m.regmap Regmap.faults]. intros ->. reflexivity.
Qed.

End ConfigFacts.

(** ** The temperature conversion *)

Module TempFacts.
Import Kernel.

Lemma le16_of_bulk_read (m m1 : Regmap.t) (reg : Z) (buf : list Z) :
  Regmap.regmap_bulk_read m reg 2 = (0, buf, m1) ->
  le16_to_cpu buf = Regmap.peek m reg + 256 * Regmap.peek m (reg + 1).
Proof.
  intros H.
  destruct (RegmapFacts.bulk_read_cases _ _ _ _ _ _ H) as [[_ ->] | [Hneg _]]; [| lia].
  unfold le16_to_cpu. cbn [seq map nth Z.of_nat].
  replace (reg + 0) with reg by lia. reflexivity.
Qed.

Lemma raw_range (m : Regmap.t) (reg : Z) :
  0 <= Regmap.peek m reg + 256 * Regmap.peek m (reg + 1) < 65536.
Proof.
  pose proof (Facts.u8_range (Regmap.regs m reg)).
  pose proof (Facts.u8_range (Regmap.regs m (reg + 1))).
  unfold Regmap.peek. lia.
Qed.

Lemma isl12020_read_temp_ok (priv priv' : Isl12020.isl12020_data) (val0 val : Z) :
  Isl12020.isl12020_read_temp priv val0 = (0, val, priv') ->
  Isl12020.tse (Isl12020.config priv) = true
  /\ val = (Regmap.peek (Isl12020.regmap priv) 40
            + 256 * Regmap.peek (Isl12020.regmap priv) 41) * 500 - 273000.
Proof.
  unfold Isl12020.isl12020_read_temp. intros H.
  destruct (Isl12020.tse (Isl12020.config priv)); [| discriminate].
  destruct (Regmap.regmap_bulk_read _ _ _) as [[err buf] m1] eqn:Hr.
  destruct (Z.eqb_spec err 0) as [-> | Hne].
  - injection H as <- _. split; [reflexivity |].
    rewrite (le16_of_bulk_read _ _ _ _ Hr). reflexivity.
  - injection H as He _ _. contradiction.
Qed.

Lemma isl12020m_read_temp_ok (priv priv' : Isl12020m.isl12020m_data) (val0 val : Z) :
  Isl12020m.isl12020m_read_temp priv val0 = (0, val, priv') ->
  Isl12020m.tse priv = true
  /\ val = (Regmap.peek (Isl12020m.regmap priv) 40
            + 256 * Regmap.peek (Isl12020m.regmap priv) 41) * 500 - 273000.
Proof.
  unfold Isl12020m.isl12020m_read_temp. intros H.
  destruct (Isl12020m.tse priv); [| discriminate].
  destruct (Regmap.regmap_bulk_read _ _ _) as [[err buf] m1] eqn:Hr.
  destruct (Z.eqb_spec err 0) as [-> | Hne].
  - injection H as <- _. split; [reflexivity |].
    rewrite (le16_of_bulk_read _ _ _ _ Hr). reflexivity.
  - injection H as He _ _. contradiction.
Qed.

(* with TSE set the read succeeds unless the next transaction is scripted
   to fail *)
Lemma isl12020_read_temp_succeeds (priv : Isl12020.isl12020_data) (val0 : Z) :
  Isl12020.tse (Isl12020.config priv) = true ->
  fault_at (Isl12020.regmap priv) 0 = false ->
  fst (fst (Isl12020.isl12020_read_temp priv val0)) = 0.
Proof.
  destruct priv as [[rg fs tr] hw st cf].
  unfold Isl12020.isl12020_read_temp, Regmap.regmap_bulk_read, Regmap.transfer, fault_at.
  cbn [Isl12020.regmap Isl12020.config Regmap.faults Regmap.regs Regmap.trace].
  intros -> Hf. destruct fs as [| [e |] fs]; [reflexivity | discriminate | reflexivity].
Qed.

Lemma isl12020m_read_temp_succeeds (priv : Isl12020m.isl12020m_data) (val0 : Z) :
  Isl12020m.tse priv = true ->
  fault_at (Isl12020m.regmap priv) 0 = false ->
  fst (fst (Isl12020m.isl12020m_read_temp priv val0)) = 0.
Proof.
  destruct priv as [[rg fs tr] hw fm fo os rt t0 bt br].
  unfold Isl12020m.isl12020m_read_temp, Regmap.regmap_bulk_read, Regmap.transfer, fault_at.
  cbn [Isl12020m.regmap Isl12020m.tse Regmap.faults Regmap.regs Regmap.trace].
  intros -> Hf. destruct fs as [| [e |] fs]; [reflexivity | discriminate | reflexivity].
Qed.

(* raw * 1000 / 2 is raw * 500: the product is even *)
Lemma half_of_thousandfold (raw : Z) : raw * 1000 / 2 = raw * 500.
Proof. replace (raw * 1000) with (raw * 500 * 2) by lia. apply Z.div_mul. lia. Qed.

End TempFacts.

(** ** The sysfs store callbacks of rtc-isl12020.c *)

Module StoreFacts.
Import Kernel.

Lemma isl12020_tse_store_forwards (priv : Isl12020.isl12020_data) (buf : string)
      (count : Z) (val : bool) :
  kstrtobool buf = (0, val) ->
  let r := Isl12020.isl12020_set_beta priv val (Isl12020.btse (Isl12020.config priv))
                                      (Isl12020.btsr (Isl12020.config priv)) in
  Isl12020.isl12020_tse_store priv buf count = (store_result (fst r) count, snd r).
Proof.
  intros Hp r. unfold Isl12020.isl12020_tse_store. rewrite Hp. cbn [Z.eqb].
  fold r. destruct r as [err p]. reflexivity.
Qed.

Lemma isl12020_btse_store_forwards (priv : Isl12020.isl12020_data) (buf : string)
      (count : Z) (val : bool) :
  kstrtobool buf = (0, val) ->
  let r := Isl12020.isl12020_set_beta priv (Isl12020.tse (Isl12020.config priv)) val
                                      (Isl12020.btsr (Isl12020.config priv)) in
  Isl12020.isl12020_btse_store priv buf count = (store_result (fst r) count, snd r).
Proof.
  intros Hp r. unfold Isl12020.isl12020_btse_store. rewrite Hp. cbn [Z.eqb].
  fold r. destruct r as [err p]. reflexivity.
Qed.

Lemma isl12020_btsr_store_forwards (priv : Isl12020.isl12020_data) (buf : string)
      (count : Z) (val : bool) :
  kstrtobool buf = (0, val) ->
  let r := Isl12020.isl12020_set_beta priv (Isl12020.tse (Isl12020.config priv))
                                      (Isl12020.btse (Isl12020.config priv)) val in
  Isl12020.isl12020_btsr_store priv buf count = (store_result (fst r) count, snd r).
Proof.
  intros Hp r. unfold Isl12020.isl12020_btsr_store. rewrite Hp. cbn [Z.eqb].
  fold r. destruct r as [err p]. reflexivity.
Qed.

Lemma isl12020_freq_out_store_forwards (priv : Isl12020.isl12020_data) (buf : string)
      (count val : Z) :
  kstrtou8 buf = (0, val) -> val <= Isl12020.FREQ_OUT_MODE_MAX ->
  let r := Isl12020.isl12020_set_freq_out priv val
             (Isl12020.freq_out_bat (Isl12020.config priv)) in
  Isl12020.isl12020_freq_out_store priv buf count = (store_result (fst r) count, snd r).
Proof.
  intros Hp Hle r. unfold Isl12020.isl12020_freq_out_store. rewrite Hp. cbn [Z.eqb].
  replace (val <=? Isl12020.FREQ_OUT_MODE_MAX) with true
    by (symmetry; apply Z.leb_le; exact Hle).
  fold r. destruct r as [err p]. reflexivity.
Qed.

(* the battery flag's store forwards an error, but answers a success with
   the parsed value instead of count *)
Lemma isl12020_bat_freq_out_store_result (priv : Isl12020.isl12020_data) (buf : string)
      (count : Z) (val : bool) :
  kstrtobool buf = (0, val) ->
  let r := Isl12020.isl12020_set_freq_out priv
             (Isl12020.freq_out_mode (Isl12020.config priv)) val in
  Isl12020.isl12020_bat_freq_out_store priv buf count
  = (store_result (fst r) (if val then 1 else 0), snd r).
Proof.
  intros Hp r. unfold Isl12020.isl12020_bat_freq_out_store. rewrite Hp. cbn [Z.eqb].
  fold r. destruct r as [err p]. reflexivity.
Qed.

(* a parse error reaches the caller before any channel access *)
Lemma isl12020_tse_store_parse_error (priv : Isl12020.isl12020_data) (buf : string)
      (count err : Z) (val : bool) :
  kstrtobool buf = (err, val) -> err <> 0 ->
  Isl12020.isl12020_tse_store priv buf count = (err, priv).
Proof.
  intros Hp Hne. apply Z.eqb_neq in Hne.
  unfold Isl12020.isl12020_tse_store. rewrite Hp. cbv beta iota zeta.
  rewrite Hne. cbv beta iota. rewrite Hne. reflexivity.
Qed.

(** X5: the stores of rtc-isl12020m.c answer count whatever
    isl12020m_beta returned. *)
Lemma isl12020m_stores_answer_count (priv : Isl12020m.isl12020m_data) (buf : string)
      (count val0 : Z) :
  fst (Isl12020m.isl12020m_tse_store priv buf count val0) = count
  /\ fst (Isl12020m.isl12020m_btse_store priv buf count val0) = count
  /\ fst (Isl12020m.isl12020m_btsr_store priv buf count val0) = count.
Proof. repeat split; reflexivity. Qed.

End StoreFacts.

(** ** The probe sequence without start-up properties *)

Module ProbeFacts.
Import Kernel.

Lemma absent_read_u32 (client : i2c_client) (name : string) (val : Z) :
  device_property_present client name = false ->
  device_property_read_u32 client name val = (- EINVAL, val).
Proof.
  unfold device_property_present, device_property_read_u32.
  destruct (property_lookup _ _) as [[v |] |]; [discriminate | discriminate | reflexivity].
Qed.

Lemma absent_read_u8 (client : i2c_client) (name : string) (val : Z) :
  device_property_present client name = false ->
  device_property_read_u8 client name val = (- EINVAL, val).
Proof.
  unfold device_property_present, device_property_read_u8.
  destruct (property_lookup _ _) as [[v |] |]; [discriminate | discriminate | reflexivity].
Qed.

(* set_freq_out either stores both of its arguments or leaves the driver
   data alone *)
Lemma isl12020_set_freq_out_config (priv : Isl12020.isl12020_data) (mode : Z)
      (batmode : bool) :
  let r := Isl12020.isl12020_set_freq_out priv mode batmode in
  (fst r = 0 /\ Isl12020.config (snd r)
                = Isl12020.mk_config mode batmode (Isl12020.tse (Isl12020.config priv))
                    (Isl12020.btse (Isl12020.config priv))
                    (Isl12020.btsr (Isl12020.config priv)))
  \/ (fst r < 0 /\ Isl12020.config (snd r) = Isl12020.config priv).
Proof.
  destruct priv as [[rg fs tr] hw st cf].
  unfold Isl12020.isl12020_set_freq_out, Regmap.regmap_read, Regmap.regmap_write,
    Regmap.transfer.
  cbn [Isl12020.regmap Regmap.faults Regmap.regs Regmap.trace].
  destruct fs as [| [e |] [| [e' |] fs']]; cbn;
    first [ left; split; reflexivity | right; split; [lia | reflexivity] ].
Qed.

(* isl12020m_set_freq_out likewise *)
Lemma isl12020m_set_freq_out_config (priv : Isl12020m.isl12020m_data) (mode : Z)
      (enable : bool) :
  let r := Isl12020m.isl12020m_set_freq_out priv mode enable in
  let ok := negb (fault_at (Isl12020m.regmap priv) 0 || fault_at (Isl12020m.regmap priv) 1) in
  (Isl12020m.freq_out_mode (snd r), Isl12020m.freq_out (snd r))
  = (if ok then (mode, enable)
     else (Isl12020m.freq_out_mode priv, Isl12020m.freq_out priv))
  /\ (Isl12020m.tse (snd r), Isl12020m.btse (snd r), Isl12020m.btsr (snd r))
     = (Isl12020m.tse priv, Isl12020m.btse priv, Isl12020m.btsr priv).
Proof.
  destruct priv as [[rg fs tr] hw fm fo os rt t0 bt0 br0].
  unfold Isl12020m.isl12020m_set_freq_out, Regmap.regmap_read, Regmap.regmap_write,
    Regmap.transfer, fault_at.
  cbn [Isl12020m.regmap Regmap.faults Regmap.regs Regmap.trace].
  destruct fs as [| [e |] [| [e' |] fs']]; cbn; split; reflexivity.
Qed.

(* the probe steps up to the status read; [k] continues with the driver
   data when all of them succeeded *)
Ltac probe_prefix H :=
  destruct (i2c_functionality _); cbn [negb] in H; [| discriminate H];
  destruct (kzalloc_ok _); cbn [negb] in H; [| discriminate H];
  destruct (regmap_init _) as [?e | ?m0] eqn:?Hinit; [discriminate H |];
  match type of H with
  | context [rtc_allocate_err ?c =? 0] =>
      destruct (Z.eqb_spec (rtc_allocate_err c) 0) as [_ | ?Hne]; cbn [negb] in H;
      [| injection H as ? _; contradiction];
      destruct (Z.eqb_spec (sysfs_create_err c) 0) as [_ | ?Hne]; cbn [negb] in H;
      [| injection H as ? _; contradiction]
  end;
  destruct (Regmap.regmap_read _ _) as [[?err ?initial_state] ?m1] eqn:?Hsr;
  match type of H with
  | context [negb (?e =? 0)] =>
      destruct (Z.eqb_spec e 0) as [-> | ?Hne]; cbn [negb] in H;
      [| injection H as ? _; contradiction]
  end.

Lemma isl12020_probe_config (client : i2c_client) (priv : Isl12020.isl12020_data) :
  isl12020_no_startup_config client = true ->
  Isl12020.isl12020_probe client = (0, Some priv) ->
  Isl12020.config priv = Isl12020.mk_config 0 false false false false.
Proof.
  unfold isl12020_no_startup_config. cbn [forallb].
  intros Habs H.
  repeat (apply andb_true_iff in Habs; destruct Habs as [?Hp Habs]).
  repeat match goal with Hp : negb _ = true |- _ => apply negb_true_iff in Hp end.
  unfold Isl12020.isl12020_probe in H.
  rewrite Hp, Hp0, Hp1, Hp2 in H. rewrite (absent_read_u32 _ _ _ Hp3) in H.
  probe_prefix H.
  cbn [snd] in H. change (u8 0) with 0 in H.
  match type of H with
  | context [Isl12020.isl12020_set_freq_out ?P 0 false] =>
      pose proof (isl12020_set_freq_out_config P 0 false) as Hcfg;
      assert (Isl12020.config P = Isl12020.mk_config 0 false false false false) as HP
        by (repeat match goal with |- context [if ?c then _ else _] => destruct c end;
            reflexivity);
      destruct (Isl12020.isl12020_set_freq_out P 0 false) as [e2 p2]
  end.
  cbn [fst snd] in Hcfg. injection H as _ <-.
  rewrite HP in Hcfg. destruct Hcfg as [[_ ->] | [_ ->]]; reflexivity.
Qed.

Lemma isl12020m_probe_fields (client : i2c_client) (priv : Isl12020m.isl12020m_data)
      (m0 : Regmap.t) :
  isl12020m_no_startup_config client = true ->
  regmap_init client = inr m0 ->
  Isl12020m.isl12020m_probe client = (0, Some priv) ->
  (Isl12020m.tse priv, Isl12020m.btse priv, Isl12020m.btsr priv) = (false, false, false)
  /\ Isl12020m.freq_out priv = false
  /\ Isl12020m.freq_out_mode priv
     = if fault_at m0 1 || fault_at m0 2 then 0 else 1.
Proof.
  unfold isl12020m_no_startup_config. cbn [forallb].
  intros Habs Hm0 H.
  repeat (apply andb_true_iff in Habs; destruct Habs as [?Hp Habs]).
  repeat match goal with Hp : negb _ = true |- _ => apply negb_true_iff in Hp end.
  unfold Isl12020m.isl12020m_probe in H.
  rewrite Hp, Hp0, Hp1, Hp2 in H. rewrite (absent_read_u8 _ _ _ Hp3) in H.
  probe_prefix H. injection Hm0 as ->.
  cbn [snd] in H.
  match type of Hsr with _ = (_, _, ?mm) => rename mm into mr end.
  match type of H with
  | context [Isl12020m.isl12020m_set_freq_out ?P 1 false] =>
      remember P as P0 eqn:HP0
  end.
  assert ((Isl12020m.regmap P0, Isl12020m.freq_out_mode P0, Isl12020m.freq_out P0,
           Isl12020m.tse P0, Isl12020m.btse P0, Isl12020m.btsr P0)
          = (mr, 0, false, false, false, false)) as HP
    by (subst P0;
        repeat match goal with |- context [if ?c then _ else _] => destruct c end;
        reflexivity).
  clear HP0. injection HP as Hrm Hfm Hfo Ht Hb Hs.
  pose proof (isl12020m_set_freq_out_config P0 1 false) as Hcfg.
  destruct (Isl12020m.isl12020m_set_freq_out P0 1 false) as [e2 p2].
  cbn [fst snd] in Hcfg. injection H as _ <-.
  rewrite Hrm, Hfm, Hfo, Ht, Hb, Hs in Hcfg. destruct Hcfg as [Hfreq Hflags].
  pose proof (RegmapFacts.read_faults m0 Isl12020m.ISL_REG_CSR_SR) as Hfs.
  cbn [Isl12020m.regmap] in Hsr. rewrite Hsr in Hfs. cbn [snd] in Hfs.
  rewrite !(RegmapFacts.fault_at_tail _ _ _ Hfs) in Hfreq.
  repeat split.
  - exact Hflags.
  - destruct (negb _); injection Hfreq as _ ->; reflexivity.
  - destruct (fault_at m0 1 || fault_at m0 2); injection Hfreq as -> _; reflexivity.
Qed.

End ProbeFacts.

(** ** The register channel: update_bits and the bulk transfers *)

Module ChannelFacts.
Import Kernel Regmap.

(* regmap_update_bits either leaves the merged byte in the register and
   every other register alone, or fails without changing a register *)
Lemma update_bits_cases (m : t) (reg mask val : Z) :
  let r := regmap_update_bits m reg mask val in
  (fst r = 0
   /\ peek (snd r) reg
      = u8 (Z.lor (Z.land (peek m reg) (Z.lnot mask)) (Z.land val mask))
   /\ forall r', r' <> reg -> peek (snd r) r' = peek m r')
  \/ (fst r < 0
      /\ regs (snd r) = regs m
      /\ (trace (snd r) = RegRead reg :: trace m
          \/ exists v, trace (snd r) = RegWrite reg v :: RegRead reg :: trace m)).
Proof.
  destruct m as [rg fs tr].
  unfold regmap_update_bits, regmap_read, regmap_write, transfer.
  destruct fs as [| [e |] [| [e' |] fs]];
    cbn -[peek poke Z.lor Z.land Z.lnot u8];
    try (right; split; [lia | split; [reflexivity | left; reflexivity]]);
    match goal with |- context [if ?c then _ else _] => destruct c eqn:Hc end;
    cbn -[peek poke Z.lor Z.land Z.lnot u8];
    try (right; split; [lia | split; [reflexivity | right; eexists; reflexivity]]);
    left; repeat split;
    try (rewrite RegmapFacts.peek_poke_same; reflexivity);
    try (intros r' Hr; rewrite RegmapFacts.peek_poke_other by exact Hr; reflexivity);
    apply Z.eqb_eq in Hc; unfold peek in *; cbn [regs] in *; rewrite Hc;
    symmetry; apply Facts.u8_idem.
Qed.

(* a bulk write is always recorded; it stores the block or fails without
   changing a register *)
Lemma bulk_write_cases (m : t) (reg : Z) (vals : list Z) :
  let r := regmap_bulk_write m reg vals in
  trace (snd r) = BulkWrite reg vals :: trace m
  /\ ((fst r = 0
       /\ (forall i, (i < List.length vals)%nat ->
           peek (snd r) (reg + Z.of_nat i) = u8 (nth i vals 0))
       /\ (forall r', r' < reg \/ reg + Z.of_nat (List.length vals) <= r' ->
           peek (snd r) r' = peek m r'))
      \/ (fst r < 0 /\ regs (snd r) = regs m)).
Proof.
  destruct m as [rg fs tr].
  unfold regmap_bulk_write, transfer. cbn [faults regs trace].
  assert (forall m0, trace (poke_all m0 reg vals) = trace m0) as Htr.
  { revert reg. induction vals as [| v rest IH]; intros reg m0; cbn [poke_all].
    - reflexivity.
    - rewrite IH. reflexivity. }
  destruct fs as [| [e |] fs]; cbn [Z.eqb fst snd].
  - split; [rewrite Htr; reflexivity |]. left. repeat split.
    + intros i Hi. apply RegmapFacts.peek_poke_all_nth. exact Hi.
    + intros r' Hr. rewrite RegmapFacts.peek_poke_all_outside by exact Hr. reflexivity.
  - split; [reflexivity |]. right. cbn. split; [lia | reflexivity].
  - split; [rewrite Htr; reflexivity |]. left. repeat split.
    + intros i Hi. apply RegmapFacts.peek_poke_all_nth. exact Hi.
    + intros r' Hr. rewrite RegmapFacts.peek_poke_all_outside by exact Hr. reflexivity.
Qed.

(* a bulk read never changes a register *)
Lemma bulk_read_regs (m : t) (reg : Z) (count : nat) :
  regs (snd (regmap_bulk_read m reg count)) = regs m.
Proof.
  unfold regmap_bulk_read, transfer. destruct (faults m) as [| [e |] fs]; reflexivity.
Qed.

End ChannelFacts.

(** ** The time codec: the write enable bit and the decoded ranges *)

Module TimeFacts.
Import Kernel.

Lemma wrtc_bit_set (o : Z) :
  Z.testbit (u8 (Z.lor (Z.land o (Z.lnot (BIT 6))) (Z.land (BIT 6) (BIT 6)))) 6 = true.
Proof.
  rewrite Facts.testbit_u8, Z.lor_spec, !Z.land_spec, Z.lnot_spec, !Facts.testbit_BIT by lia.
  cbn. apply orb_true_r.
Qed.

Lemma wrtc_other_bits (o n : Z) :
  n <> 6 ->
  Z.testbit (u8 (Z.lor (Z.land (u8 o) (Z.lnot (BIT 6))) (Z.land (BIT 6) (BIT 6)))) n
  = Z.testbit (u8 o) n.
Proof.
  intros Hn. destruct (Z.neg_nonneg_cases n) as [Hneg | Hnn].
  - rewrite !Z.testbit_neg_r by assumption. reflexivity.
  - rewrite !Facts.testbit_u8, Z.lor_spec, !Z.land_spec, Z.lnot_spec, !Facts.testbit_BIT,
      Facts.testbit_u8 by lia.
    destruct (Z.eqb_spec 6 n) as [Heq | _]; [congruence |].
    cbn [negb andb]. rewrite andb_true_r, orb_false_r.
    destruct (n <? 8); reflexivity.
Qed.

(* the bytes the masks let through, converted from packed decimal *)
Lemma decoded_bounds (b : Z) :
  0 <= b < 256 ->
  0 <= bcd2bin (Z.land b (GENMASK 6 0)) <= 85
  /\ 0 <= bcd2bin (Z.land b (GENMASK 5 0)) <= 45
  /\ -1 <= bcd2bin (Z.land b (GENMASK 4 0)) - 1 <= 24
  /\ 100 <= bcd2bin b + 100 <= 265
  /\ 0 <= Z.land b (GENMASK 2 0) <= 7.
Proof.
  intros Hb.
  pose proof (Facts.all_below_spec 256
    (fun z => (0 <=? bcd2bin (Z.land z (GENMASK 6 0)))
              && (bcd2bin (Z.land z (GENMASK 6 0)) <=? 85)
              && (0 <=? bcd2bin (Z.land z (GENMASK 5 0)))
              && (bcd2bin (Z.land z (GENMASK 5 0)) <=? 45)
              && (-1 <=? bcd2bin (Z.land z (GENMASK 4 0)) - 1)
              && (bcd2bin (Z.land z (GENMASK 4 0)) - 1 <=? 24)
              && (100 <=? bcd2bin z + 100) && (bcd2bin z + 100 <=? 265)
              && (0 <=? Z.land z (GENMASK 2 0)) && (Z.land z (GENMASK 2 0) <=? 7))
    ltac:(vm_compute; reflexivity) b ltac:(lia)) as H.
  cbv beta in H. repeat (apply andb_true_iff in H; destruct H as [H ?]).
  repeat match goal with Hx : (_ <=? _) = true |- _ => apply Z.leb_le in Hx end.
  repeat split; assumption.
Qed.

End TimeFacts.

(** ** The sysfs attributes: what is shown, what is taken back *)

Module ShowFacts.
Import Kernel.

Lemma kstrtobool_emit_flag (flag : bool) : kstrtobool (emit_flag flag) = (0, flag).
Proof. destruct flag; reflexivity. Qed.

Lemma sscanf_hhu_emit_flag (flag : bool) :
  sscanf_hhu (emit_flag flag) = Some (if flag then 1 else 0).
Proof. destruct flag; reflexivity. Qed.

(* both parsers fail with a negative errno *)
Lemma kstrtobool_errors (s : string) :
  fst (kstrtobool s) = 0 \/ fst (kstrtobool s) = - EINVAL.
Proof.
  unfold kstrtobool. destruct s as [| c rest]; [right; reflexivity |].
  repeat match goal with
         | |- context [if ?b then _ else _] => destruct b
         | |- context [match ?r with EmptyString => _ | String _ _ => _ end] => destruct r
         end; cbn [fst]; auto.
Qed.

Lemma digit_val_nonneg (c : ascii) : is_digit c = true -> 0 <= digit_val c.
Proof.
  unfold is_digit, digit_val. intros H. apply andb_true_iff in H.
  destruct H as [H _]. apply Z.leb_le in H. lia.
Qed.

Lemma parse_digits_nonneg (s : string) :
  forall acc len, 0 <= acc -> 0 <= fst (fst (parse_digits s acc len)).
Proof.
  induction s as [| c rest IH]; intros acc len Hacc; cbn [parse_digits].
  - exact Hacc.
  - destruct (is_digit c) eqn:Hd; [| exact Hacc].
    apply IH. pose proof (digit_val_nonneg c Hd). lia.
Qed.

Lemma kstrtou8_cases (s : string) :
  (fst (kstrtou8 s) = 0 /\ 0 <= snd (kstrtou8 s) <= 255)
  \/ fst (kstrtou8 s) = - EINVAL \/ fst (kstrtou8 s) = - ERANGE.
Proof.
  unfold kstrtou8.
  pose proof (parse_digits_nonneg (strip_plus s) 0 0 ltac:(lia)) as Hnn.
  destruct (parse_digits (strip_plus s) 0 0) as [[v len] rest]. cbn [fst] in Hnn.
  destruct (ULLONG_MAX <? v); [right; right; reflexivity |].
  destruct len as [| len]; [right; left; reflexivity |].
  destruct (negb _); [right; left; reflexivity |].
  destruct (Z.ltb_spec 255 v); [right; right; reflexivity |].
  left. cbn [fst snd]. lia.
Qed.

(* set_beta either stores its three arguments or leaves the driver data
   alone; its result is never positive *)
Lemma isl12020_set_beta_config (priv : Isl12020.isl12020_data) (a b c : bool) :
  let r := Isl12020.isl12020_set_beta priv a b c in
  (fst r = 0 /\ Isl12020.config (snd r)
                = Isl12020.mk_config (Isl12020.freq_out_mode (Isl12020.config priv))
                    (Isl12020.freq_out_bat (Isl12020.config priv)) a b c)
  \/ (fst r < 0 /\ Isl12020.config (snd r) = Isl12020.config priv).
Proof.
  destruct priv as [[rg fs tr] hw st cf].
  unfold Isl12020.isl12020_set_beta, Regmap.regmap_read, Regmap.regmap_write,
    Regmap.transfer.
  cbn [Isl12020.regmap Regmap.faults Regmap.regs Regmap.trace].
  destruct fs as [| [e |] [| [e' |] fs']]; cbn;
    first [ left; split; reflexivity | right; split; [lia | reflexivity] ].
Qed.

Lemma isl12020m_beta_fields (priv : Isl12020m.isl12020m_data) (a b c : bool) :
  let r := Isl12020m.isl12020m_beta priv a b c in
  ((Isl12020m.tse (snd r), Isl12020m.btse (snd r), Isl12020m.btsr (snd r)) = (a, b, c)
   \/ (Isl12020m.tse (snd r), Isl12020m.btse (snd r), Isl12020m.btsr (snd r))
      = (Isl12020m.tse priv, Isl12020m.btse priv, Isl12020m.btsr priv))
  /\ (Isl12020m.freq_out_mode (snd r), Isl12020m.freq_out (snd r))
     = (Isl12020m.freq_out_mode priv, Isl12020m.freq_out priv).
Proof.
  destruct priv as [[rg fs tr] hw fm fo os rt t0 bt0 br0].
  unfold Isl12020m.isl12020m_beta, Regmap.regmap_read, Regmap.regmap_write,
    Regmap.transfer.
  cbn [Isl12020m.regmap Regmap.faults Regmap.regs Regmap.trace].
  destruct fs as [| [e |] [| [e' |] fs']]; cbn; split;
    first [ reflexivity | left; reflexivity | right; reflexivity ].
Qed.

Lemma config_eta (cf : Isl12020.isl12020_config) :
  Isl12020.mk_config (Isl12020.freq_out_mode cf) (Isl12020.freq_out_bat cf)
                     (Isl12020.tse cf) (Isl12020.btse cf) (Isl12020.btsr cf) = cf.
Proof. destruct cf; reflexivity. Qed.

(* the three flag bits of the BETA byte after the flags were merged in *)
Lemma beta_flag_bits (old : Z) (a b c : bool) :
  let v := u8 (flag_bit (flag_bit (flag_bit old (BIT 7) a) (BIT 6) b) (BIT 5) c) in
  Z.testbit v 7 = a /\ Z.testbit v 6 = b /\ Z.testbit v 5 = c.
Proof.
  cbv zeta. rewrite !Facts.testbit_u8. unfold flag_bit.
  rewrite !Facts.testbit_set_or_clear by lia. cbn. repeat split; reflexivity.
Qed.

(* the text of frequency_output for a mode of the table is no number *)
Lemma shown_mode_is_no_number :
  all_below 16
    (fun mode =>
       match Isl12020.isl12020_freq_out_show
               (Isl12020.mk_data (sample_bus 0 0 []) false
                  (Isl12020.mk_status false false false false false false)
                  (Isl12020.mk_config mode false false false false)) with
       | Some text => fst (kstrtou8 text) =? - EINVAL
       | None => false
       end) = true.
Proof. vm_compute. reflexivity. Qed.

(* the order of the checks of kstrtou8: an overflow of unsigned long long
   is reported before text after the number, the u8 range after it *)
Example kstrtou8_error_order :
  kstrtou8 "18446744073709551616x" = (- ERANGE, 0)
  /\ kstrtou8 "18446744073709551615x" = (- EINVAL, 0)
  /\ kstrtou8 "300x" = (- EINVAL, 0)
  /\ kstrtou8 "300" = (- ERANGE, 0)
  /\ kstrtou8 "+15" = (0, 15)
  /\ kstrtou8 "" = (- EINVAL, 0).
Proof. repeat split; reflexivity. Qed.

(* sscanf skips the no-break space like any other white space *)
Example sscanf_skips_no_break_space :
  sscanf_hhu (String (ascii_of_nat 160) "1") = Some 1
  /\ sscanf_hhu (String (ascii_of_nat 9) " 7x") = Some 7
  /\ sscanf_hhu "x" = None.
Proof. repeat split; reflexivity. Qed.

End ShowFacts.

(** ** The probe sequence, step by step *)

Module ProbeSteps.
Import Kernel.

(* what neither setter touches *)
Lemma isl12020_set_beta_keeps (priv : Isl12020.isl12020_data) (a b c : bool) :
  let p := snd (Isl12020.isl12020_set_beta priv a b c) in
  Isl12020.status p = Isl12020.status priv
  /\ Isl12020.hwmon_dev p = Isl12020.hwmon_dev priv
  /\ forall r, r <> 13 ->
       Regmap.peek (Isl12020.regmap p) r = Regmap.peek (Isl12020.regmap priv) r.
Proof.
  destruct priv as [[rg fs tr] hw st cf].
  unfold Isl12020.isl12020_set_beta, Regmap.regmap_read, Regmap.regmap_write,
    Regmap.transfer.
  cbn [Isl12020.regmap Regmap.faults Regmap.regs Regmap.trace].
  destruct fs as [| [e |] [| [e' |] fs']];
    cbn -[Regmap.peek Regmap.poke Z.lor Z.land Z.lnot]; repeat split;
    intros r Hr; try reflexivity;
    rewrite RegmapFacts.peek_poke_other by exact Hr; reflexivity.
Qed.

Lemma isl12020_set_freq_out_keeps (priv : Isl12020.isl12020_data) (mode : Z) (bat : bool) :
  let p := snd (Isl12020.isl12020_set_freq_out priv mode bat) in
  Isl12020.status p = Isl12020.status priv
  /\ Isl12020.hwmon_dev p = Isl12020.hwmon_dev priv
  /\ forall r, r <> 8 ->
       Regmap.peek (Isl12020.regmap p) r = Regmap.peek (Isl12020.regmap priv) r.
Proof.
  destruct priv as [[rg fs tr] hw st cf].
  unfold Isl12020.isl12020_set_freq_out, Regmap.regmap_read, Regmap.regmap_write,
    Regmap.transfer.
  cbn [Isl12020.regmap Regmap.faults Regmap.regs Regmap.trace].
  destruct fs as [| [e |] [| [e' |] fs']];
    cbn -[Regmap.peek Regmap.poke Z.lor Z.land Z.lnot]; repeat split;
    intros r Hr; try reflexivity;
    rewrite RegmapFacts.peek_poke_other by exact Hr; reflexivity.
Qed.

(* on a channel without faults the setter succeeds and leaves such a
   channel *)
Lemma isl12020_set_freq_out_reliable (priv : Isl12020.isl12020_data) (mode : Z)
      (bat : bool) :
  Regmap.reliable (Isl12020.regmap priv) ->
  let r := Isl12020.isl12020_set_freq_out priv mode bat in
  fst r = 0 /\ Regmap.reliable (Isl12020.regmap (snd r))
  /\ Isl12020.config (snd r)
     = Isl12020.mk_config mode bat (Isl12020.tse (Isl12020.config priv))
                          (Isl12020.btse (Isl12020.config priv))
                          (Isl12020.btsr (Isl12020.config priv)).
Proof.
  destruct priv as [[rg fs tr] hw st cf]. unfold Regmap.reliable.
  cbn [Isl12020.regmap Regmap.faults]. intros ->.
  repeat split.
Qed.

(* a status flag of the SR byte, as the probe tests it *)
Lemma sr_flag_tests :
  all_below 256
    (fun x => Bool.eqb (negb (Z.land x (BIT 7) =? 0)) (Z.testbit x 7)
              && Bool.eqb (negb (Z.land x (BIT 0) =? 0)) (Z.testbit x 0)) = true.
Proof. vm_compute. reflexivity. Qed.

Lemma sr_flags (m : Regmap.t) (reg : Z) :
  negb (Z.land (Regmap.peek m reg) (BIT 7) =? 0) = Z.testbit (Regmap.peek m reg) 7
  /\ negb (Z.land (Regmap.peek m reg) (BIT 0) =? 0) = Z.testbit (Regmap.peek m reg) 0.
Proof.
  pose proof (Facts.all_below_spec 256 _ sr_flag_tests (Regmap.peek m reg)
                (Facts.u8_range _)) as H.
  cbv beta in H. apply andb_true_iff in H. destruct H as [H7 H0].
  split; apply Bool.eqb_prop; assumption.
Qed.

End ProbeSteps.

(* what the optional steps of the probes leave alone *)
Module ProbeRewrites.

Lemma opt_set_beta_status (on : bool) (priv : Isl12020.isl12020_data) (a b c : bool) :
  Isl12020.status (if on then snd (Isl12020.isl12020_set_beta priv a b c) else priv)
  = Isl12020.status priv.
Proof.
  destruct on; [| reflexivity].
  exact (proj1 (ProbeSteps.isl12020_set_beta_keeps priv a b c)).
Qed.

Lemma opt_set_beta_hwmon (on : bool) (priv : Isl12020.isl12020_data) (a b c : bool) :
  Isl12020.hwmon_dev (if on then snd (Isl12020.isl12020_set_beta priv a b c) else priv)
  = Isl12020.hwmon_dev priv.
Proof.
  destruct on; [| reflexivity].
  exact (proj1 (proj2 (ProbeSteps.isl12020_set_beta_keeps priv a b c))).
Qed.

Lemma opt_set_beta_peek (on : bool) (priv : Isl12020.isl12020_data) (a b c : bool) (r : Z) :
  r <> 13 ->
  Regmap.peek
    (Isl12020.regmap (if on then snd (Isl12020.isl12020_set_beta priv a b c) else priv)) r
  = Regmap.peek (Isl12020.regmap priv) r.
Proof.
  destruct on; [| reflexivity].
  exact (proj2 (proj2 (ProbeSteps.isl12020_set_beta_keeps priv a b c)) r).
Qed.

Lemma read_without_fault (m : Regmap.t) (reg : Z) :
  match Regmap.faults m with Some _ :: _ => False | _ => True end ->
  Regmap.regmap_read m reg
  = (0, Regmap.peek m reg, snd (Regmap.transfer (Regmap.RegRead reg) m)).
Proof.
  intros Hok. destruct m as [rg fs tr]. unfold Regmap.regmap_read, Regmap.transfer.
  cbn [Regmap.faults] in *.
  destruct fs as [| [e |] fs]; [reflexivity | contradiction | reflexivity].
Qed.

End ProbeRewrites.

(** ** The probe sequence of rtc-isl12020m.c *)

Module ProbeStepsM.
Import Kernel.

(* unfold the outermost let of the goal, and only that one *)
Ltac zeta_outer :=
  match goal with
  | |- context G [let x := ?v in @?b x] =>
      let g := context G [b v] in change g; cbv beta
  end.

Lemma isl12020m_beta_keeps (priv : Isl12020m.isl12020m_data) (a b c : bool) :
  let p := snd (Isl12020m.isl12020m_beta priv a b c) in
  (Isl12020m.oscf p, Isl12020m.rtcf p, Isl12020m.hwmon_dev p)
  = (Isl12020m.oscf priv, Isl12020m.rtcf priv, Isl12020m.hwmon_dev priv)
  /\ forall r, r <> 13 ->
       Regmap.peek (Isl12020m.regmap p) r = Regmap.peek (Isl12020m.regmap priv) r.
Proof.
  destruct priv as [[rg fs tr] hw fm fo os rt t0 bt0 br0].
  unfold Isl12020m.isl12020m_beta, Regmap.regmap_read, Regmap.regmap_write,
    Regmap.transfer.
  cbn [Isl12020m.regmap Regmap.faults Regmap.regs Regmap.trace].
  destruct fs as [| [e |] [| [e' |] fs']];
    cbn -[Regmap.peek Regmap.poke Z.lor Z.land Z.lnot]; repeat split;
    intros r Hr; try reflexivity;
    rewrite RegmapFacts.peek_poke_other by exact Hr; reflexivity.
Qed.

Lemma isl12020m_set_freq_out_keeps (priv : Isl12020m.isl12020m_data) (mode : Z)
      (enable : bool) :
  let p := snd (Isl12020m.isl12020m_set_freq_out priv mode enable) in
  (Isl12020m.oscf p, Isl12020m.rtcf p, Isl12020m.hwmon_dev p)
  = (Isl12020m.oscf priv, Isl12020m.rtcf priv, Isl12020m.hwmon_dev priv)
  /\ forall r, r <> 8 ->
       Regmap.peek (Isl12020m.regmap p) r = Regmap.peek (Isl12020m.regmap priv) r.
Proof.
  destruct priv as [[rg fs tr] hw fm fo os rt t0 bt0 br0].
  unfold Isl12020m.isl12020m_set_freq_out, Regmap.regmap_read, Regmap.regmap_write,
    Regmap.transfer.
  cbn [Isl12020m.regmap Regmap.faults Regmap.regs Regmap.trace].
  destruct fs as [| [e |] [| [e' |] fs']];
    cbn -[Regmap.peek Regmap.poke Z.lor Z.land Z.lnot]; repeat split;
    intros r Hr; try reflexivity;
    rewrite RegmapFacts.peek_poke_other by exact Hr; reflexivity.
Qed.

Lemma opt_beta_oscf (on : bool) (priv : Isl12020m.isl12020m_data) (a b c : bool) :
  Isl12020m.oscf (if on then snd (Isl12020m.isl12020m_beta priv a b c) else priv)
  = Isl12020m.oscf priv.
Proof.
  destruct on; [| reflexivity].
  pose proof (proj1 (isl12020m_beta_keeps priv a b c)) as H. congruence.
Qed.

Lemma opt_beta_rtcf (on : bool) (priv : Isl12020m.isl12020m_data) (a b c : bool) :
  Isl12020m.rtcf (if on then snd (Isl12020m.isl12020m_beta priv a b c) else priv)
  = Isl12020m.rtcf priv.
Proof.
  destruct on; [| reflexivity].
  pose proof (proj1 (isl12020m_beta_keeps priv a b c)) as H. congruence.
Qed.

Lemma opt_beta_hwmon (on : bool) (priv : Isl12020m.isl12020m_data) (a b c : bool) :
  Isl12020m.hwmon_dev (if on then snd (Isl12020m.isl12020m_beta priv a b c) else priv)
  = Isl12020m.hwmon_dev priv.
Proof.
  destruct on; [| reflexivity].
  pose proof (proj1 (isl12020m_beta_keeps priv a b c)) as H. congruence.
Qed.

Lemma opt_beta_peek (on : bool) (priv : Isl12020m.isl12020m_data) (a b c : bool) (r : Z) :
  r <> 13 ->
  Regmap.peek
    (Isl12020m.regmap (if on then snd (Isl12020m.isl12020m_beta priv a b c) else priv)) r
  = Regmap.peek (Isl12020m.regmap priv) r.
Proof.
  destruct on; [| reflexivity].
  exact (proj2 (isl12020m_beta_keeps priv a b c) r).
Qed.

Lemma isl12020m_set_freq_out_reliable (priv : Isl12020m.isl12020m_data) (mode : Z)
      (enable : bool) :
  Regmap.reliable (Isl12020m.regmap priv) ->
  let r := Isl12020m.isl12020m_set_freq_out priv mode enable in
  fst r = 0 /\ Regmap.reliable (Isl12020m.regmap (snd r)).
Proof.
  destruct priv as [[rg fs tr] hw fm fo os rt t0 bt0 br0]. unfold Regmap.reliable.
  cbn [Isl12020m.regmap Regmap.faults]. intros ->.
  repeat split.
Qed.

(* the optional steps of isl12020m_probe on a channel without faults *)
Lemma config_steps (p : Isl12020m.isl12020m_data) (c1 c2 c3 : bool) (mode : Z)
      (enable : bool) :
  Regmap.reliable (Isl12020m.regmap p) ->
  (Isl12020m.tse p, Isl12020m.btse p, Isl12020m.btsr p) = (false, false, false) ->
  let p1 := if c1 then snd (Isl12020m.isl12020m_beta p true (Isl12020m.btse p)
                                                     (Isl12020m.btsr p)) else p in
  let p2 := if c2 then snd (Isl12020m.isl12020m_beta p1 (Isl12020m.tse p1) true
                                                     (Isl12020m.btsr p1)) else p1 in
  let p3 := if c3 then snd (Isl12020m.isl12020m_beta p2 (Isl12020m.tse p2)
                                                     (Isl12020m.btse p2) true) else p2 in
  let r := Isl12020m.isl12020m_set_freq_out p3 mode enable in
  fst r = 0
  /\ (Isl12020m.tse (snd r), Isl12020m.btse (snd r), Isl12020m.btsr (snd r)) = (c1, c2, c3)
  /\ (Isl12020m.freq_out_mode (snd r), Isl12020m.freq_out (snd r)) = (mode, enable)
  /\ Z.land (Regmap.peek (Isl12020m.regmap (snd r)) 8) (GENMASK 3 0) = mode mod 16
  /\ Z.testbit (Regmap.peek (Isl12020m.regmap (snd r)) 8) 4 = enable
  /\ Regmap.reliable (Isl12020m.regmap (snd r)).
Proof.
  destruct p as [[rg fs tr] hw fm fo os rt t0 b0 r0].
  intros Hrel Hfl p1 p2 p3 r. unfold Regmap.reliable in *.
  cbn [Isl12020m.regmap Regmap.faults Isl12020m.tse Isl12020m.btse Isl12020m.btsr]
    in Hrel, Hfl.
  injection Hfl as Ht Hb Hr. subst fs t0 b0 r0.
  assert (Regmap.faults (Isl12020m.regmap p3) = []
          /\ (Isl12020m.tse p3, Isl12020m.btse p3, Isl12020m.btsr p3) = (c1, c2, c3))
    as [Hrel3 Hfl3]
    by (subst p1 p2 p3; destruct c1, c2, c3; split; reflexivity).
  clearbody p3. clear p1 p2.
  destruct (isl12020m_set_freq_out_reliable p3 mode enable Hrel3) as (Hok & Hrel').
  fold r in Hok, Hrel'. destruct r as [e2 q] eqn:Hset. cbn [fst snd] in *. subst e2.
  destruct (ConfigFacts.isl12020m_set_freq_out_ok _ _ _ _ Hset) as (Hnew & _ & Hfm & Hkeep).
  rewrite Hnew, Hkeep, Hfl3, Hfm. repeat split.
  - apply ConfigFacts.int_byte_mode.
  - apply ConfigFacts.int_byte_bit4.
  - exact Hrel'.
Qed.

End ProbeStepsM.

(** ** The revision with one compensation flag (src/unnamed/part_003) *)

Module TseFacts.
Import Kernel.

Lemma isl12020m_tse_ok (priv priv' : Isl12020mTse.isl12020m_data) (enable : bool) :
  Isl12020mTse.isl12020m_tse priv enable = (0, priv') ->
  let old := Regmap.peek (Isl12020mTse.regmap priv) 13 in
  Regmap.peek (Isl12020mTse.regmap priv') 13 = u8 (flag_bit old (BIT 7) enable)
  /\ (forall r, r <> 13 ->
      Regmap.peek (Isl12020mTse.regmap priv') r = Regmap.peek (Isl12020mTse.regmap priv) r)
  /\ Isl12020mTse.tse priv' = enable.
Proof.
  ConfigFacts.rmw_ok_with Isl12020mTse.isl12020m_tse.
  cbn. repeat split.
  - exact Hnew.
  - intros r Hr'. rewrite Hframe2 by assumption. apply Hframe1.
Qed.

(* the result and the trace of the read-modify-write, by fault script *)
Lemma isl12020m_tse_cases (priv : Isl12020mTse.isl12020m_data) (enable : bool) :
  let r := Isl12020mTse.isl12020m_tse priv enable in
  (fst r = 0 /\ Isl12020mTse.hwmon_dev (snd r) = Isl12020mTse.hwmon_dev priv)
  \/ (fst r < 0 /\ Isl12020mTse.tse (snd r) = Isl12020mTse.tse priv
      /\ Isl12020mTse.hwmon_dev (snd r) = Isl12020mTse.hwmon_dev priv
      /\ Regmap.regs (Isl12020mTse.regmap (snd r)) = Regmap.regs (Isl12020mTse.regmap priv)).
Proof.
  destruct priv as [[rg fs tr] hw t0].
  unfold Isl12020mTse.isl12020m_tse, Regmap.regmap_read, Regmap.regmap_write,
    Regmap.transfer.
  cbn [Isl12020mTse.regmap Regmap.faults Regmap.regs Regmap.trace].
  destruct fs as [| [e |] [| [e' |] fs']]; cbn;
    first [ left; split; reflexivity | right; repeat split; lia ].
Qed.

(* with the two other flags taken from the register, the three-flag
   byte is the one-flag byte *)
Lemma one_flag_byte_tests :
  all_below 256
    (fun old =>
       forallb
         (fun a =>
            u8 (flag_bit (flag_bit (flag_bit old (BIT 7) a) (BIT 6) (Z.testbit old 6))
                         (BIT 5) (Z.testbit old 5))
            =? u8 (flag_bit old (BIT 7) a))
         [true; false]) = true.
Proof. vm_compute. reflexivity. Qed.

Lemma one_flag_byte (m : Regmap.t) (a : bool) :
  let old := Regmap.peek m 13 in
  u8 (flag_bit (flag_bit (flag_bit old (BIT 7) a) (BIT 6) (Z.testbit old 6))
               (BIT 5) (Z.testbit old 5))
  = u8 (flag_bit old (BIT 7) a).
Proof.
  intros old.
  pose proof (Facts.all_below_spec 256 _ one_flag_byte_tests old (Facts.u8_range _)) as H.
  cbv beta in H. cbn [forallb] in H.
  apply andb_true_iff in H. destruct H as [Ht H].
  apply andb_true_iff in H. destruct H as [Hf _].
  destruct a; apply Z.eqb_eq; assumption.
Qed.

(* isl12020m_beta of the later driver, given the register's own BTSE and
   BTSR, does what isl12020m_tse does *)
Lemma isl12020m_tse_as_beta (priv : Isl12020mTse.isl12020m_data)
      (privm : Isl12020m.isl12020m_data) (enable : bool) :
  Isl12020m.regmap privm = Isl12020mTse.regmap priv ->
  let old := Regmap.peek (Isl12020mTse.regmap priv) 13 in
  let r := Isl12020mTse.isl12020m_tse priv enable in
  let rm := Isl12020m.isl12020m_beta privm enable (Z.testbit old 6) (Z.testbit old 5) in
  fst rm = fst r
  /\ (forall reg, Regmap.peek (Isl12020m.regmap (snd rm)) reg
                  = Regmap.peek (Isl12020mTse.regmap (snd r)) reg)
  /\ (Isl12020m.tse privm = Isl12020mTse.tse priv ->
      Isl12020m.tse (snd rm) = Isl12020mTse.tse (snd r)).
Proof.
  intros Hm old r rm. subst rm r.
  pose proof (one_flag_byte (Isl12020mTse.regmap priv) enable) as Hbyte.
  cbv zeta in Hbyte. fold old in Hbyte.
  destruct (Isl12020mTse.isl12020m_tse priv enable) as [e p] eqn:Hr.
  destruct (Isl12020m.isl12020m_beta _ enable _ _) as [em pm] eqn:Hb.
  cbn [fst snd].
  revert Hr Hb Hbyte. subst old.
  destruct priv as [[rg fs tr] hw t0]. destruct privm as [mm hwm fm fo os rt tm bm rm].
  cbn [Isl12020m.regmap Isl12020mTse.regmap] in Hm. subst mm.
  unfold Isl12020mTse.isl12020m_tse, Isl12020m.isl12020m_beta, Regmap.regmap_read,
    Regmap.regmap_write, Regmap.transfer.
  cbn [Isl12020mTse.regmap Isl12020m.regmap Isl12020m.with_regmap Isl12020mTse.with_regmap
       Regmap.faults Regmap.regs Regmap.trace].
  destruct fs as [| [e1 |] [| [e2 |] fs']];
    cbn -[Regmap.peek Regmap.poke Z.lor Z.land Z.lnot Z.testbit u8 BIT];
    intros Hr Hb Hbyte; injection Hr as <- <-; injection Hb as <- <-;
    (split; [reflexivity |]);
    (split; [| cbn [Isl12020m.tse Isl12020mTse.tse]; intros Ht; first [reflexivity | exact Ht]]);
    intros reg;
    cbn -[Regmap.peek Regmap.poke Z.lor Z.land Z.lnot Z.testbit u8 BIT];
    try reflexivity;
    (destruct (Z.eq_dec reg 13) as [-> | Hne];
     [ rewrite !RegmapFacts.peek_poke_same; exact Hbyte
     | rewrite !RegmapFacts.peek_poke_other by exact Hne; reflexivity ]).
Qed.

(* the stored flag after isl12020m_tse: the argument, or the old one *)
Lemma isl12020m_tse_flag (priv : Isl12020mTse.isl12020m_data) (enable : bool) :
  Isl12020mTse.tse (snd (Isl12020mTse.isl12020m_tse priv enable)) = enable
  \/ Isl12020mTse.tse (snd (Isl12020mTse.isl12020m_tse priv enable))
     = Isl12020mTse.tse priv.
Proof.
  destruct (isl12020m_tse_cases priv enable) as [[Hok _] | (_ & Ht & _)];
    [left | right; exact Ht].
  destruct (Isl12020mTse.isl12020m_tse priv enable) as [e p] eqn:Hr.
  cbn [fst snd] in *. subst e.
  exact (proj2 (proj2 (isl12020m_tse_ok _ _ _ Hr))).
Qed.

End TseFacts.

(** ** Theorems *)

(** C1: for every calendar time t with seconds 0-59, minutes 0-59, hours
    0-23, day 1-31, month 0-11, year 2000-2099 (tm_year 100-199) and
    weekday 0-6, reading the time registers back after set_time stored t
    yields t again: whenever set_time and the following read_time return
    0, the seven calendar fields of the result are those of t (tm_yday
    and tm_isdst, which the driver never writes, stay as the caller's
    buffer had them); and on a channel without faults both calls do
    return 0, for every buffer the caller hands in. *)
Theorem rtc_time_round_trip (priv : Isl12020.isl12020_data) (t tm0 : rtc_time) :
  valid_time t ->
  (forall (priv1 priv2 : Isl12020.isl12020_data) (tm : rtc_time),
     Isl12020.isl12020_rtc_ops_set_time priv t = (0, priv1) ->
     Isl12020.isl12020_rtc_ops_read_time priv1 tm0 = (0, tm, priv2) ->
     tm = calendar_of t tm0)
  /\ (Regmap.reliable (Isl12020.regmap priv) ->
      exists priv1 priv2 : Isl12020.isl12020_data,
        Isl12020.isl12020_rtc_ops_set_time priv t = (0, priv1)
        /\ Isl12020.isl12020_rtc_ops_read_time priv1 tm0 = (0, calendar_of t tm0, priv2)).
Proof.
  intros (Hs & Hm & Hh & Hd & Hmo & Hy & Hw).
  assert (forall (priv1 priv2 : Isl12020.isl12020_data) (tm : rtc_time),
             Isl12020.isl12020_rtc_ops_set_time priv t = (0, priv1) ->
             Isl12020.isl12020_rtc_ops_read_time priv1 tm0 = (0, tm, priv2) ->
             tm = calendar_of t tm0) as Hdecode.
  { intros priv1 priv2 tm Hset Hread.
    rewrite (TimeCodec.isl12020_read_time_decodes _ _ _ _ Hread). cbv zeta.
    pose proof (TimeCodec.isl12020_set_time_stores _ _ _ Hset) as Hreg.
    assert (Regmap.peek (Isl12020.regmap priv1) 0 = Kernel.u8 (Kernel.bin2bcd (tm_sec t)))
      as -> by exact (Hreg 0%nat ltac:(lia)).
    assert (Regmap.peek (Isl12020.regmap priv1) 1 = Kernel.u8 (Kernel.bin2bcd (tm_min t)))
      as -> by exact (Hreg 1%nat ltac:(lia)).
    assert (Regmap.peek (Isl12020.regmap priv1) 2
            = Kernel.u8 (Kernel.u8 (Z.lor (Kernel.bin2bcd (tm_hour t)) (Kernel.BIT 7))))
      as -> by exact (Hreg 2%nat ltac:(lia)).
    assert (Regmap.peek (Isl12020.regmap priv1) 3 = Kernel.u8 (Kernel.bin2bcd (tm_mday t)))
      as -> by exact (Hreg 3%nat ltac:(lia)).
    assert (Regmap.peek (Isl12020.regmap priv1) 4
            = Kernel.u8 (Kernel.bin2bcd (tm_mon t + 1)))
      as -> by exact (Hreg 4%nat ltac:(lia)).
    assert (Regmap.peek (Isl12020.regmap priv1) 5
            = Kernel.u8 (Kernel.bin2bcd (Z.rem (tm_year t) 100)))
      as -> by exact (Hreg 5%nat ltac:(lia)).
    assert (Regmap.peek (Isl12020.regmap priv1) 6
            = Kernel.u8 (Kernel.u8 (Z.land (tm_wday t) (Kernel.GENMASK 2 0))))
      as -> by exact (Hreg 6%nat ltac:(lia)).
    unfold calendar_of. f_equal.
    - apply CodecFacts.seconds_field. exact Hs.
    - apply CodecFacts.seconds_field. exact Hm.
    - apply CodecFacts.hours_field. exact Hh.
    - apply CodecFacts.day_field. exact Hd.
    - apply CodecFacts.month_field. exact Hmo.
    - apply CodecFacts.year_field_in_century. exact Hy.
    - apply CodecFacts.weekday_field. exact Hw.
  }
  split; [exact Hdecode |].
  intros Hrel.
  destruct (TimeCodec.isl12020_set_time_reliable priv t Hrel) as [Hok Hrel1].
  destruct (Isl12020.isl12020_rtc_ops_set_time priv t) as [e priv1] eqn:Hset.
  cbn [fst snd] in Hok, Hrel1. subst e.
  pose proof (TimeCodec.isl12020_read_time_reliable priv1 tm0 Hrel1) as Hok2.
  destruct (Isl12020.isl12020_rtc_ops_read_time priv1 tm0) as [[e tm] priv2] eqn:Hread.
  cbn [fst] in Hok2. subst e.
  exists priv1, priv2. split; [reflexivity |].
  rewrite Hread, (Hdecode priv1 priv2 tm eq_refl Hread). reflexivity.
Qed.

Lemma rtc_time_round_trip_witness :
  valid_time sample_time
  /\ fst (Isl12020.isl12020_rtc_ops_set_time (sample_priv 0 0 [] false) sample_time) = 0
  /\ fst (Isl12020.isl12020_rtc_ops_read_time
            (snd (Isl12020.isl12020_rtc_ops_set_time (sample_priv 0 0 [] false)
                                                      sample_time))
            (mk_rtc_time 0 0 0 1 0 100 0 7 1))
     = (0, mk_rtc_time 59 30 23 31 11 199 6 7 1).
Proof.
  assert (valid_time sample_time) as Hv by (unfold valid_time, sample_time; cbn; lia).
  split; [exact Hv |].
  destruct (proj2 (rtc_time_round_trip (sample_priv 0 0 [] false) sample_time
                     (mk_rtc_time 0 0 0 1 0 100 0 7 1) Hv) eq_refl)
    as (priv1 & priv2 & Hset & Hread).
  rewrite Hset. cbn [fst snd]. rewrite Hread. split; reflexivity.
Defined.

(** X1: for every tm_year from 0 on, the year is stored modulo 100 and
    read back relative to 2000. *)
Lemma year_interpreted_modulo_century (priv priv1 priv2 : Isl12020.isl12020_data)
      (t tm0 tm : rtc_time) :
  0 <= tm_year t ->
  Isl12020.isl12020_rtc_ops_set_time priv t = (0, priv1) ->
  Isl12020.isl12020_rtc_ops_read_time priv1 tm0 = (0, tm, priv2) ->
  tm_year tm = 100 + tm_year t mod 100.
Proof.
  intros Hy Hset Hread.
  rewrite (TimeCodec.isl12020_read_time_decodes _ _ _ _ Hread). cbn [tm_year].
  assert (Regmap.peek (Isl12020.regmap priv1) 5
          = Kernel.u8 (Kernel.bin2bcd (Z.rem (tm_year t) 100))) as ->
    by exact (TimeCodec.isl12020_set_time_stores _ _ _ Hset 5%nat ltac:(lia)).
  apply CodecFacts.year_field. exact Hy.
Qed.

Lemma year_interpreted_modulo_century_witness :
  tm_year (snd (fst (Isl12020.isl12020_rtc_ops_read_time
                       (snd (Isl12020.isl12020_rtc_ops_set_time
                               (sample_priv 0 0 [] false)
                               (mk_rtc_time 0 0 0 1 0 200 5 0 0)))
                       sample_time)))
  = 100 + 200 mod 100.
Proof.
  exact (year_interpreted_modulo_century
           (sample_priv 0 0 [] false)
           (snd (Isl12020.isl12020_rtc_ops_set_time (sample_priv 0 0 [] false)
                                                     (mk_rtc_time 0 0 0 1 0 200 5 0 0)))
           (snd (Isl12020.isl12020_rtc_ops_read_time
                   (snd (Isl12020.isl12020_rtc_ops_set_time
                           (sample_priv 0 0 [] false)
                           (mk_rtc_time 0 0 0 1 0 200 5 0 0)))
                   sample_time))
           (mk_rtc_time 0 0 0 1 0 200 5 0 0) sample_time
           (snd (fst (Isl12020.isl12020_rtc_ops_read_time
                        (snd (Isl12020.isl12020_rtc_ops_set_time
                                (sample_priv 0 0 [] false)
                                (mk_rtc_time 0 0 0 1 0 200 5 0 0)))
                        sample_time)))
           ltac:(cbn; lia) eq_refl eq_refl).
Defined.

(* a tm_year below 100 (a year before 2000) does not come back: 1999 is
   read as 2099 *)
Example year_1999_reads_as_2099 :
  tm_year (snd (fst (Isl12020.isl12020_rtc_ops_read_time
                       (snd (Isl12020.isl12020_rtc_ops_set_time
                               (sample_priv 0 0 [] false)
                               (mk_rtc_time 0 0 0 1 0 99 5 0 0)))
                       sample_time)))
  = 199.
Proof. vm_compute. reflexivity. Qed.

(** X2: the RTC-only driver at the head of rtc-isl12020m.c, whose
    weekday mask is WEEK_LEN (7), round-trips every valid calendar time
    too: whenever its set_time and the following read_time return 0 the
    seven calendar fields read are those stored, and on a channel
    without faults both calls do return 0, for every buffer the caller
    hands in. *)
Theorem isl12020m_rtc_round_trip (priv : Isl12020mRtc.isl12020m_data) (t tm0 : rtc_time) :
  valid_time t ->
  (forall (priv1 priv2 : Isl12020mRtc.isl12020m_data) (tm : rtc_time),
     Isl12020mRtc.isl12020m_rtc_ops_set_time priv t = (0, priv1) ->
     Isl12020mRtc.isl12020m_rtc_ops_read_time priv1 tm0 = (0, tm, priv2) ->
     tm = calendar_of t tm0)
  /\ (Regmap.reliable (Isl12020mRtc.regmap priv) ->
      exists priv1 priv2 : Isl12020mRtc.isl12020m_data,
        Isl12020mRtc.isl12020m_rtc_ops_set_time priv t = (0, priv1)
        /\ Isl12020mRtc.isl12020m_rtc_ops_read_time priv1 tm0
           = (0, calendar_of t tm0, priv2)).
Proof.
  intros Hv. split.
  - intros priv1 priv2 tm Hset Hread.
    exact (TimeCodec.isl12020m_rtc_set_then_read priv priv1 priv2 t tm0 tm Hv Hset Hread).
  - intros Hrel.
    destruct (TimeCodec.isl12020m_rtc_set_time_reliable priv t Hrel) as [Hok Hrel1].
    destruct (Isl12020mRtc.isl12020m_rtc_ops_set_time priv t) as [e priv1] eqn:Hset.
    cbn [fst snd] in Hok, Hrel1. subst e.
    pose proof (TimeCodec.isl12020m_rtc_read_time_reliable priv1 tm0 Hrel1) as Hok2.
    destruct (Isl12020mRtc.isl12020m_rtc_ops_read_time priv1 tm0) as [[e tm] priv2]
      eqn:Hread.
    cbn [fst] in Hok2. subst e.
    exists priv1, priv2. split; [reflexivity |].
    rewrite Hread,
      (TimeCodec.isl12020m_rtc_set_then_read priv priv1 priv2 t tm0 tm Hv Hset Hread).
    reflexivity.
Qed.

Lemma isl12020m_rtc_round_trip_witness :
  valid_time sample_time
  /\ fst (Isl12020mRtc.isl12020m_rtc_ops_set_time
            (Isl12020mRtc.mk_data (sample_bus 0 0 [])) sample_time) = 0
  /\ fst (Isl12020mRtc.isl12020m_rtc_ops_read_time
            (snd (Isl12020mRtc.isl12020m_rtc_ops_set_time
                    (Isl12020mRtc.mk_data (sample_bus 0 0 [])) sample_time))
            (mk_rtc_time 0 0 0 1 0 100 0 7 1))
     = (0, mk_rtc_time 59 30 23 31 11 199 6 7 1).
Proof.
  assert (valid_time sample_time) as Hv by (unfold valid_time, sample_time; cbn; lia).
  split; [exact Hv |].
  destruct (proj2 (isl12020m_rtc_round_trip (Isl12020mRtc.mk_data (sample_bus 0 0 []))
                     sample_time (mk_rtc_time 0 0 0 1 0 100 0 7 1) Hv) eq_refl)
    as (priv1 & priv2 & Hset & Hread).
  rewrite Hset. cbn [fst snd]. rewrite Hread. split; reflexivity.
Defined.

Example year_2100_reads_as_2000 :
  tm_year (snd (fst (Isl12020.isl12020_rtc_ops_read_time
                       (snd (Isl12020.isl12020_rtc_ops_set_time
                               (sample_priv 0 0 [] false)
                               (mk_rtc_time 0 0 0 1 0 200 5 0 0)))
                       sample_time)))
  = 100.
Proof. vm_compute. reflexivity. Qed.

(** C2 (the code diverges): evaluated on a device whose INT register
    holds 0, isl12020m_set_freq_out with the flag true succeeds and
    leaves the FOBATB bit (bit 4) set, not cleared; the stored flag is
    true. *)
Theorem isl12020m_freq_out_flag_not_inverted :
  fst (Isl12020m.isl12020m_set_freq_out (sample_priv_m 0 0 [] false) 0 true) = 0
  /\ Regmap.peek (Isl12020m.regmap
                    (snd (Isl12020m.isl12020m_set_freq_out (sample_priv_m 0 0 [] false)
                                                           0 true)))
                 Isl12020m.ISL_REG_CSR_INT = 16
  /\ Z.testbit (Regmap.peek (Isl12020m.regmap
                               (snd (Isl12020m.isl12020m_set_freq_out
                                       (sample_priv_m 0 0 [] false) 0 true)))
                            Isl12020m.ISL_REG_CSR_INT) 4 = true
  /\ Isl12020m.freq_out
       (snd (Isl12020m.isl12020m_set_freq_out (sample_priv_m 0 0 [] false) 0 true))
     = true.
Proof. repeat split; reflexivity. Qed.


(** C3 (as amended): every temperature read that succeeds had TSE set and
    returns raw * 1000 / 2 - 273000 milli-degrees, where raw is the 16 bit
    little-endian value of the TKOL/TKOM register pair; both drivers
    subtract 273000, and no bit of raw is masked off. *)
Theorem read_temp_formula :
  (forall (priv priv' : Isl12020.isl12020_data) (val0 val : Z),
     Isl12020.isl12020_read_temp priv val0 = (0, val, priv') ->
     let raw := Regmap.peek (Isl12020.regmap priv) Isl12020.ISL_REG_TEMP_TKOL
                + 256 * Regmap.peek (Isl12020.regmap priv) Isl12020.ISL_REG_TEMP_TKOM in
     Isl12020.tse (Isl12020.config priv) = true
     /\ 0 <= raw < 65536
     /\ val = raw * 1000 / 2 - 273000)
  /\
  (forall (priv priv' : Isl12020m.isl12020m_data) (val0 val : Z),
     Isl12020m.isl12020m_read_temp priv val0 = (0, val, priv') ->
     let raw := Regmap.peek (Isl12020m.regmap priv) Isl12020m.ISL_REG_TEMP_TKOL
                + 256 * Regmap.peek (Isl12020m.regmap priv) Isl12020m.ISL_REG_TEMP_TKOM in
     Isl12020m.tse priv = true
     /\ 0 <= raw < 65536
     /\ val = raw * 1000 / 2 - 273000).
Proof.
  split; intros priv priv' val0 val H raw.
  - destruct (TempFacts.isl12020_read_temp_ok _ _ _ _ H) as [Htse Hval].
    rewrite TempFacts.half_of_thousandfold. repeat split.
    + exact Htse.
    + apply (TempFacts.raw_range (Isl12020.regmap priv) 40).
    + apply (TempFacts.raw_range (Isl12020.regmap priv) 40).
    + exact Hval.
  - destruct (TempFacts.isl12020m_read_temp_ok _ _ _ _ H) as [Htse Hval].
    rewrite TempFacts.half_of_thousandfold. repeat split.
    + exact Htse.
    + apply (TempFacts.raw_range (Isl12020m.regmap priv) 40).
    + apply (TempFacts.raw_range (Isl12020m.regmap priv) 40).
    + exact Hval.
Qed.

Lemma read_temp_formula_witness :
  snd (fst (Isl12020.isl12020_read_temp (sample_priv 0 0 [] true) 0))
  = (0 + 256 * 0) * 1000 / 2 - 273000
  /\ snd (fst (Isl12020m.isl12020m_read_temp (sample_priv_m 546 0 [] true) 0))
     = (34 + 256 * 2) * 1000 / 2 - 273000.
Proof.
  split.
  - exact (proj2 (proj2 (proj1 read_temp_formula
                           (sample_priv 0 0 [] true)
                           (snd (Isl12020.isl12020_read_temp (sample_priv 0 0 [] true) 0))
                           0 (-273000) eq_refl))).
  - exact (proj2 (proj2 (proj2 read_temp_formula
                           (sample_priv_m 546 0 [] true)
                           (snd (Isl12020m.isl12020m_read_temp
                                   (sample_priv_m 546 0 [] true) 0))
                           0 0 eq_refl))).
Defined.

(* C3 as stated fails: at raw code 746 both drivers return 100000, not
   the 4000 the offset 369000 would give; CELCIUS0 of rtc-isl12020.c
   (369000) is used by no function *)
Lemma read_temp_raw_746 :
  Isl12020.isl12020_read_temp (sample_priv 746 0 [] true) 0
  = (0, 100000,
     Isl12020.with_regmap (sample_priv 746 0 [] true)
       (Regmap.mk (sample_regs 746 0) [] [Regmap.BulkRead 40 2]))
  /\ snd (fst (Isl12020m.isl12020m_read_temp (sample_priv_m 746 0 [] true) 0)) = 100000
  /\ snd (fst (Isl12020.isl12020_read_temp (sample_priv 746 0 [] true) 0)) <> 4000
  /\ 746 * 1000 / 2 - Isl12020.CELCIUS0 = 4000.
Proof. repeat split; try reflexivity. vm_compute. discriminate. Qed.

(** C4: set_beta is atomic with respect to failure, in both drivers.
    When the register read fails, the error is returned, no write is
    attempted (the trace gains the read only) and registers and driver
    data are unchanged; when the write fails, the error is returned and
    the driver data keep their prior values; otherwise 0 is returned and
    the three stored flags are the three arguments, all other driver
    data unchanged. *)
Theorem set_compensation_failure_atomic :
  (forall (priv : Isl12020.isl12020_data) (tse btse btsr : bool),
     let m := Isl12020.regmap priv in
     let r := Isl12020.isl12020_set_beta priv tse btse btsr in
     match Regmap.faults m with
     | Some e :: fs =>
         r = (Z.neg e,
              Isl12020.with_regmap priv
                (Regmap.mk (Regmap.regs m) fs
                   (Regmap.RegRead Isl12020.ISL_REG_CSR_BETA :: Regmap.trace m)))
     | None :: Some e :: fs =>
         exists v,
         r = (Z.neg e,
              Isl12020.with_regmap priv
                (Regmap.mk (Regmap.regs m) fs
                   (Regmap.RegWrite Isl12020.ISL_REG_CSR_BETA v
                    :: Regmap.RegRead Isl12020.ISL_REG_CSR_BETA :: Regmap.trace m)))
     | _ =>
         fst r = 0
         /\ Isl12020.config (snd r)
            = Isl12020.mk_config (Isl12020.freq_out_mode (Isl12020.config priv))
                                 (Isl12020.freq_out_bat (Isl12020.config priv))
                                 tse btse btsr
         /\ Isl12020.status (snd r) = Isl12020.status priv
     end)
  /\
  (forall (priv : Isl12020m.isl12020m_data) (tse btse btsr : bool),
     let m := Isl12020m.regmap priv in
     let r := Isl12020m.isl12020m_beta priv tse btse btsr in
     match Regmap.faults m with
     | Some e :: fs =>
         r = (Z.neg e,
              Isl12020m.with_regmap priv
                (Regmap.mk (Regmap.regs m) fs
                   (Regmap.RegRead Isl12020m.ISL_REG_CSR_BETA :: Regmap.trace m)))
     | None :: Some e :: fs =>
         exists v,
         r = (Z.neg e,
              Isl12020m.with_regmap priv
                (Regmap.mk (Regmap.regs m) fs
                   (Regmap.RegWrite Isl12020m.ISL_REG_CSR_BETA v
                    :: Regmap.RegRead Isl12020m.ISL_REG_CSR_BETA :: Regmap.trace m)))
     | _ =>
         fst r = 0
         /\ (Isl12020m.tse (snd r), Isl12020m.btse (snd r), Isl12020m.btsr (snd r))
            = (tse, btse, btsr)
         /\ (Isl12020m.freq_out_mode (snd r), Isl12020m.freq_out (snd r),
             Isl12020m.oscf (snd r), Isl12020m.rtcf (snd r))
            = (Isl12020m.freq_out_mode priv, Isl12020m.freq_out priv,
               Isl12020m.oscf priv, Isl12020m.rtcf priv)
     end).
Proof.
  split.
  - intros [[rg fs tr] hw st cf] a b c.
    unfold Isl12020.isl12020_set_beta, Regmap.regmap_read, Regmap.regmap_write,
      Regmap.transfer.
    cbn [Isl12020.regmap Regmap.faults Regmap.regs Regmap.trace].
    destruct fs as [| [e |] [| [e' |] fs']]; cbn;
      try (eexists; reflexivity); repeat split; reflexivity.
  - intros [[rg fs tr] hw fm fo os rt t0 bt0 br0] a b c.
    unfold Isl12020m.isl12020m_beta, Regmap.regmap_read, Regmap.regmap_write,
      Regmap.transfer.
    cbn [Isl12020m.regmap Regmap.faults Regmap.regs Regmap.trace].
    destruct fs as [| [e |] [| [e' |] fs']]; cbn;
      try (eexists; reflexivity); repeat split; reflexivity.
Qed.

Example set_beta_read_fault :
  Isl12020.isl12020_set_beta (sample_priv 0 95 [Some 5%positive] false) true true true
  = (-5, Isl12020.with_regmap (sample_priv 0 95 [] false)
           (Regmap.mk (sample_regs 0 95) [] [Regmap.RegRead 13])).
Proof. reflexivity. Qed.

Example set_beta_write_fault :
  Isl12020.isl12020_set_beta (sample_priv 0 95 [None; Some 5%positive] false)
                             true true true
  = (-5, Isl12020.with_regmap (sample_priv 0 95 [] false)
           (Regmap.mk (sample_regs 0 95) [] [Regmap.RegWrite 13 255; Regmap.RegRead 13])).
Proof. reflexivity. Qed.

Example set_beta_success :
  let r := Isl12020.isl12020_set_beta (sample_priv 0 95 [] false) true false true in
  fst r = 0
  /\ Isl12020.config (snd r) = Isl12020.mk_config 0 false true false true
  /\ Regmap.peek (Isl12020.regmap (snd r)) 13 = 191
  /\ Regmap.trace (Isl12020.regmap (snd r)) = [Regmap.RegWrite 13 191; Regmap.RegRead 13].
Proof. repeat split; reflexivity. Qed.

(** C5: for every prior value of the BETA register and every choice of
    the three booleans, a successful set_beta (in both drivers) leaves
    bit 7 (TSE), bit 6 (BTSE) and bit 5 (BTSR) of the register equal to
    the requested states and every other bit of that byte as it was;
    the other registers keep their values too. On a channel without
    faults the call is successful (it returns 0), in both drivers, so
    the register then does hold the requested bits. *)
Theorem set_compensation_register_frame :
  (forall (priv priv' : Isl12020.isl12020_data) (tse btse btsr : bool),
     Isl12020.isl12020_set_beta priv tse btse btsr = (0, priv') ->
     let old := Regmap.peek (Isl12020.regmap priv) Isl12020.ISL_REG_CSR_BETA in
     let new := Regmap.peek (Isl12020.regmap priv') Isl12020.ISL_REG_CSR_BETA in
     Z.testbit new 7 = tse /\ Z.testbit new 6 = btse /\ Z.testbit new 5 = btsr
     /\ (forall n, n <> 7 -> n <> 6 -> n <> 5 -> Z.testbit new n = Z.testbit old n)
     /\ (forall r, r <> Isl12020.ISL_REG_CSR_BETA ->
         Regmap.peek (Isl12020.regmap priv') r = Regmap.peek (Isl12020.regmap priv) r))
  /\
  (forall (priv priv' : Isl12020m.isl12020m_data) (tse btse btsr : bool),
     Isl12020m.isl12020m_beta priv tse btse btsr = (0, priv') ->
     let old := Regmap.peek (Isl12020m.regmap priv) Isl12020m.ISL_REG_CSR_BETA in
     let new := Regmap.peek (Isl12020m.regmap priv') Isl12020m.ISL_REG_CSR_BETA in
     Z.testbit new 7 = tse /\ Z.testbit new 6 = btse /\ Z.testbit new 5 = btsr
     /\ (forall n, n <> 7 -> n <> 6 -> n <> 5 -> Z.testbit new n = Z.testbit old n)
     /\ (forall r, r <> Isl12020m.ISL_REG_CSR_BETA ->
         Regmap.peek (Isl12020m.regmap priv') r = Regmap.peek (Isl12020m.regmap priv) r))
  /\
  (forall (priv : Isl12020.isl12020_data) (tse btse btsr : bool),
     Regmap.reliable (Isl12020.regmap priv) ->
     fst (Isl12020.isl12020_set_beta priv tse btse btsr) = 0)
  /\
  (forall (priv : Isl12020m.isl12020m_data) (tse btse btsr : bool),
     Regmap.reliable (Isl12020m.regmap priv) ->
     fst (Isl12020m.isl12020m_beta priv tse btse btsr) = 0).
Proof.
  split; [| split; [| split]];
    [ intros priv priv' a b c H old new | intros priv priv' a b c H old new
    | exact ConfigFacts.isl12020_set_beta_reliable
    | exact ConfigFacts.isl12020m_beta_reliable ].
  - destruct (ConfigFacts.isl12020_set_beta_ok _ _ _ _ _ H) as (Hnew & Hframe & _).
    pose proof (ConfigFacts.beta_byte_bits old a b c) as Hbits.
    assert (0 <= old < 256) as Hold by apply Facts.u8_range.
    subst new. change Isl12020.ISL_REG_CSR_BETA with 13. rewrite Hnew.
    fold old. repeat split.
    + rewrite Hbits by assumption. reflexivity.
    + rewrite Hbits by assumption. reflexivity.
    + rewrite Hbits by assumption. reflexivity.
    + intros n H7 H6 H5. rewrite Hbits by assumption.
      destruct (Z.eqb_spec n 7); [contradiction |].
      destruct (Z.eqb_spec n 6); [contradiction |].
      destruct (Z.eqb_spec n 5); [contradiction | reflexivity].
    + exact Hframe.
  - destruct (ConfigFacts.isl12020m_beta_ok _ _ _ _ _ H) as (Hnew & Hframe & _).
    pose proof (ConfigFacts.beta_byte_bits old a b c) as Hbits.
    assert (0 <= old < 256) as Hold by apply Facts.u8_range.
    subst new. change Isl12020m.ISL_REG_CSR_BETA with 13. rewrite Hnew.
    fold old. repeat split.
    + rewrite Hbits by assumption. reflexivity.
    + rewrite Hbits by assumption. reflexivity.
    + rewrite Hbits by assumption. reflexivity.
    + intros n H7 H6 H5. rewrite Hbits by assumption.
      destruct (Z.eqb_spec n 7); [contradiction |].
      destruct (Z.eqb_spec n 6); [contradiction |].
      destruct (Z.eqb_spec n 5); [contradiction | reflexivity].
    + exact Hframe.
Qed.

Lemma set_compensation_register_frame_witness :
  (let r := Isl12020.isl12020_set_beta (sample_priv 0 95 [] false) true false true in
   let new := Regmap.peek (Isl12020.regmap (snd r)) Isl12020.ISL_REG_CSR_BETA in
   fst r = 0
   /\ (Z.testbit new 7, Z.testbit new 6, Z.testbit new 5) = (true, false, true)
   /\ Z.testbit new 4 = true)
  /\
  (let r := Isl12020m.isl12020m_beta (sample_priv_m 0 95 [] false) true false true in
   let new := Regmap.peek (Isl12020m.regmap (snd r)) Isl12020m.ISL_REG_CSR_BETA in
   fst r = 0
   /\ (Z.testbit new 7, Z.testbit new 6, Z.testbit new 5) = (true, false, true)
   /\ Z.testbit new 4 = true).
Proof.
  destruct set_compensation_register_frame as (Hframe & Hframe_m & Hok & Hok_m).
  split.
  - specialize (Hok (sample_priv 0 95 [] false) true false true eq_refl).
    destruct (Isl12020.isl12020_set_beta (sample_priv 0 95 [] false) true false true)
      as [e p] eqn:Hcall.
    cbn [fst snd] in *. subst e.
    destruct (Hframe _ _ _ _ _ Hcall) as (H7 & H6 & H5 & Hrest & _).
    rewrite H7, H6, H5, (Hrest 4) by lia. repeat split.
  - specialize (Hok_m (sample_priv_m 0 95 [] false) true false true eq_refl).
    destruct (Isl12020m.isl12020m_beta (sample_priv_m 0 95 [] false) true false true)
      as [e p] eqn:Hcall.
    cbn [fst snd] in *. subst e.
    destruct (Hframe_m _ _ _ _ _ Hcall) as (H7 & H6 & H5 & Hrest & _).
    rewrite H7, H6, H5, (Hrest 4) by lia. repeat split.
Defined.

(** C6 (the code diverges): the range check is missing from the
    controller function. Evaluated on a device without faults,
    isl12020_set_freq_out called with mode 16 reads the INT register,
    writes 0x10 (the mode masked to four bits) and returns 0 instead of
    -ERANGE, and stores mode 16; isl12020_probe calls it so for a
    firmware node with frequency-output-mode = 16, after which
    isl12020_freq_out_show indexes past the 16 entries of
    freq_out_modes. The sibling path isl12020_freq_out_store rejects
    the same mode with -ERANGE before any channel access.
    isl12020m_set_freq_out accepts mode 32 in the same way. *)
Theorem set_freq_out_mode_unchecked :
  Isl12020.isl12020_set_freq_out (sample_priv 0 0 [] false) 16 false
  = (0,
     Isl12020.mk_data
       (Regmap.poke
          (Regmap.mk (sample_regs 0 0) [] [Regmap.RegWrite 8 16; Regmap.RegRead 8]) 8 16)
       true (Isl12020.mk_status false false false false false false)
       (Isl12020.mk_config 16 false false false false))
  /\ fst (Isl12020.isl12020_set_freq_out (sample_priv 0 0 [] false) 16 false)
     <> - Kernel.ERANGE
  /\ match Isl12020.isl12020_probe
             (sample_client 0 [("frequency-output-mode"%string, Some 16)]) with
     | (err, Some priv) =>
         err = 0
         /\ Regmap.trace (Isl12020.regmap priv)
            = [Regmap.RegWrite 8 16; Regmap.RegRead 8; Regmap.RegRead 7]
         /\ Regmap.peek (Isl12020.regmap priv) Isl12020.ISL_REG_CSR_INT = 16
         /\ Isl12020.freq_out_mode (Isl12020.config priv) = 16
         /\ nth_error Isl12020.freq_out_modes 16 = None
         /\ Isl12020.isl12020_freq_out_show priv = None
     | _ => False
     end
  /\ Isl12020.isl12020_freq_out_store (sample_priv 0 0 [] false) (line "16") 3
     = (- Kernel.ERANGE, sample_priv 0 0 [] false)
  /\ fst (Isl12020m.isl12020m_set_freq_out (sample_priv_m 0 0 [] false) 32 false) = 0
  /\ Regmap.trace (Isl12020m.regmap
                     (snd (Isl12020m.isl12020m_set_freq_out (sample_priv_m 0 0 [] false)
                                                            32 false)))
     = [Regmap.RegWrite 8 0; Regmap.RegRead 8]
  /\ Isl12020m.freq_out_mode
       (snd (Isl12020m.isl12020m_set_freq_out (sample_priv_m 0 0 [] false) 32 false))
     = 32.
Proof.
  split; [reflexivity |]. split; [vm_compute; discriminate |].
  split; [vm_compute; repeat split |]. repeat split.
Qed.

(** X27: where the range check is made, it holds for every input: for
    every text written to the frequency_output attribute of
    rtc-isl12020.c that parses to a mode above FREQ_OUT_MODE_MAX (15),
    isl12020_freq_out_store returns -ERANGE and leaves the driver data
    and the channel untouched (no register read or write). *)
Theorem freq_out_store_rejects_out_of_range (priv : Isl12020.isl12020_data)
        (buf : string) (count val : Z) :
  Kernel.kstrtou8 buf = (0, val) ->
  Isl12020.FREQ_OUT_MODE_MAX < val ->
  Isl12020.isl12020_freq_out_store priv buf count = (- Kernel.ERANGE, priv).
Proof.
  intros Hparse Hgt. unfold Isl12020.isl12020_freq_out_store.
  rewrite Hparse. cbn [Z.eqb].
  replace (val <=? Isl12020.FREQ_OUT_MODE_MAX) with false
    by (symmetry; apply Z.leb_gt; exact Hgt).
  reflexivity.
Qed.

Lemma freq_out_store_rejects_out_of_range_witness :
  Isl12020.isl12020_freq_out_store (sample_priv 0 0 [] false) (line "16") 3
  = (-34, sample_priv 0 0 [] false).
Proof.
  exact (freq_out_store_rejects_out_of_range (sample_priv 0 0 [] false) (line "16") 3 16
           eq_refl eq_refl).
Defined.

(** C7: with TSE false, read_temp (in both drivers) returns -EOPNOTSUPP
    and leaves the result buffer, the driver data and the channel
    untouched (no transaction is added to the trace); with TSE true it
    performs exactly one transaction, the two byte bulk read at TKOL. *)
Theorem read_temp_gated_by_tse :
  (forall (priv : Isl12020.isl12020_data) (val : Z),
     let r := Isl12020.isl12020_read_temp priv val in
     if Isl12020.tse (Isl12020.config priv)
     then Regmap.trace (Isl12020.regmap (snd r))
          = Regmap.BulkRead Isl12020.ISL_REG_TEMP_TKOL 2
            :: Regmap.trace (Isl12020.regmap priv)
     else r = (- Kernel.EOPNOTSUPP, val, priv))
  /\
  (forall (priv : Isl12020m.isl12020m_data) (val : Z),
     let r := Isl12020m.isl12020m_read_temp priv val in
     if Isl12020m.tse priv
     then Regmap.trace (Isl12020m.regmap (snd r))
          = Regmap.BulkRead Isl12020m.ISL_REG_TEMP_TKOL 2
            :: Regmap.trace (Isl12020m.regmap priv)
     else r = (- Kernel.EOPNOTSUPP, val, priv)).
Proof.
  split.
  - intros [[rg fs tr] hw st [fm fb t0 bt br]] val.
    unfold Isl12020.isl12020_read_temp, Regmap.regmap_bulk_read, Regmap.transfer.
    cbn [Isl12020.tse Isl12020.config Isl12020.regmap Regmap.faults Regmap.regs
         Regmap.trace].
    destruct t0; [| reflexivity].
    destruct fs as [| [e |] fs]; reflexivity.
  - intros [[rg fs tr] hw fm fo os rt t0 bt br] val.
    unfold Isl12020m.isl12020m_read_temp, Regmap.regmap_bulk_read, Regmap.transfer.
    cbn [Isl12020m.tse Isl12020m.regmap Regmap.faults Regmap.regs Regmap.trace].
    destruct t0; [| reflexivity].
    destruct fs as [| [e |] fs]; reflexivity.
Qed.

Example read_temp_without_tse :
  Isl12020.isl12020_read_temp (sample_priv 746 0 [] false) 7
  = (-95, 7, sample_priv 746 0 [] false).
Proof. reflexivity. Qed.

(** C8 (the code diverges): evaluated on a device without faults,
    isl12020_bat_freq_out_store answers a successful write of "1" and a
    newline (count 2) with 1 and of "0" with 0 instead of count; and with
    a channel whose next read fails with -EIO, isl12020m_tse_store answers
    count although isl12020m_beta returned -5 and stored nothing. *)
Theorem store_results_at_failing_inputs :
  Isl12020.isl12020_bat_freq_out_store (sample_priv 0 0 [] false) (line "1") 2
  = (1, snd (Isl12020.isl12020_set_freq_out (sample_priv 0 0 [] false) 0 true))
  /\ fst (Isl12020.isl12020_set_freq_out (sample_priv 0 0 [] false) 0 true) = 0
  /\ fst (Isl12020.isl12020_bat_freq_out_store (sample_priv 0 0 [] false) (line "0") 2)
     = 0
  /\ fst (Isl12020m.isl12020m_beta (sample_priv_m 0 0 [Some 5%positive] false)
                                   true false false) = -5
  /\ Isl12020m.isl12020m_tse_store (sample_priv_m 0 0 [Some 5%positive] false)
                                   (line "1") 2 0
     = (2, Isl12020m.with_regmap (sample_priv_m 0 0 [] false)
             (Regmap.mk (sample_regs 0 0) [] [Regmap.RegRead 13])).
Proof. repeat split; reflexivity. Qed.

(** X4: the compensation setters of rtc-isl12020.c forward the result of
    isl12020_set_beta: a controller error is the result, a success answers
    count. *)
Lemma isl12020_stores_forward (priv : Isl12020.isl12020_data) (buf : string)
      (count : Z) (val : bool) :
  Kernel.kstrtobool buf = (0, val) ->
  fst (Isl12020.isl12020_tse_store priv buf count)
  = store_result (fst (Isl12020.isl12020_set_beta priv val
                         (Isl12020.btse (Isl12020.config priv))
                         (Isl12020.btsr (Isl12020.config priv)))) count
  /\ fst (Isl12020.isl12020_btse_store priv buf count)
     = store_result (fst (Isl12020.isl12020_set_beta priv
                            (Isl12020.tse (Isl12020.config priv)) val
                            (Isl12020.btsr (Isl12020.config priv)))) count
  /\ fst (Isl12020.isl12020_btsr_store priv buf count)
     = store_result (fst (Isl12020.isl12020_set_beta priv
                            (Isl12020.tse (Isl12020.config priv))
                            (Isl12020.btse (Isl12020.config priv)) val)) count.
Proof.
  intros Hp. repeat split.
  - rewrite (StoreFacts.isl12020_tse_store_forwards _ _ _ _ Hp). reflexivity.
  - rewrite (StoreFacts.isl12020_btse_store_forwards _ _ _ _ Hp). reflexivity.
  - rewrite (StoreFacts.isl12020_btsr_store_forwards _ _ _ _ Hp). reflexivity.
Qed.

Lemma isl12020_stores_forward_witness :
  fst (Isl12020.isl12020_tse_store (sample_priv 0 0 [Some 5%positive] false) (line "1") 2)
  = store_result (-5) 2.
Proof.
  exact (proj1 (isl12020_stores_forward (sample_priv 0 0 [Some 5%positive] false)
                  (line "1") 2 true eq_refl)).
Defined.

(** C9 (the code diverges): isl12020m_probe, bound without any start-up
    property on a channel without faults, leaves the stored
    frequency-output mode at 1 (32768 Hz), not 0 (off), and has written
    mode 1 into the INT register; the compensation flags and the
    frequency output flag are false. *)
Theorem isl12020m_probe_default_mode :
  isl12020m_no_startup_config (sample_client 0 []) = true
  /\ Isl12020m.isl12020m_probe (sample_client 0 [])
     = (0, Some (Isl12020m.mk_data
                   (Regmap.poke
                      (Regmap.mk (sample_regs 0 0) []
                         [Regmap.RegWrite 8 1; Regmap.RegRead 8; Regmap.RegRead 7]) 8 1)
                   true 1 false false false false false false))
  /\ option_map Isl12020m.freq_out_mode (snd (Isl12020m.isl12020m_probe (sample_client 0 [])))
     <> Some 0.
Proof. repeat split; try (vm_compute; reflexivity). vm_compute. discriminate. Qed.

(** X6: when the device is bound (probe returns 0) and none of the
    start-up properties is present, all three compensation flags and the
    battery (frequency output) flag are false and a temperature read
    fails with -EOPNOTSUPP; the stored frequency-output mode is 0 in
    rtc-isl12020.c, whereas rtc-isl12020m.c requests mode 1 and stores 1
    unless the read or the write of the INT register failed (then 0). *)
Theorem bind_without_startup_config :
  (forall (client : i2c_client) (priv : Isl12020.isl12020_data),
     isl12020_no_startup_config client = true ->
     Isl12020.isl12020_probe client = (0, Some priv) ->
     Isl12020.config priv = Isl12020.mk_config 0 false false false false
     /\ forall val, Isl12020.isl12020_read_temp priv val = (- Kernel.EOPNOTSUPP, val, priv))
  /\
  (forall (client : i2c_client) (priv : Isl12020m.isl12020m_data) (m0 : Regmap.t),
     isl12020m_no_startup_config client = true ->
     regmap_init client = inr m0 ->
     Isl12020m.isl12020m_probe client = (0, Some priv) ->
     (Isl12020m.tse priv, Isl12020m.btse priv, Isl12020m.btsr priv) = (false, false, false)
     /\ Isl12020m.freq_out priv = false
     /\ Isl12020m.freq_out_mode priv = (if fault_at m0 1 || fault_at m0 2 then 0 else 1)
     /\ forall val,
        Isl12020m.isl12020m_read_temp priv val = (- Kernel.EOPNOTSUPP, val, priv)).
Proof.
  split.
  - intros client priv Habs H.
    pose proof (ProbeFacts.isl12020_probe_config client priv Habs H) as Hcfg.
    split; [exact Hcfg |]. intros val.
    unfold Isl12020.isl12020_read_temp. rewrite Hcfg. reflexivity.
  - intros client priv m0 Habs Hm0 H.
    destruct (ProbeFacts.isl12020m_probe_fields client priv m0 Habs Hm0 H)
      as (Hflags & Hfo & Hmode).
    repeat split; try assumption. intros val.
    unfold Isl12020m.isl12020m_read_temp. injection Hflags as -> _ _. reflexivity.
Qed.

Lemma bind_without_startup_config_witness :
  Isl12020.config
    (Isl12020.mk_data
       (Regmap.poke
          (Regmap.mk (sample_regs 0 0) []
             [Regmap.RegWrite 8 16; Regmap.RegRead 8; Regmap.RegRead 7]) 8 16)
       true (Isl12020.mk_status false false false false false false)
       (Isl12020.mk_config 0 false false false false))
  = Isl12020.mk_config 0 false false false false
  /\ Isl12020m.freq_out_mode
       (Isl12020m.mk_data
          (Regmap.poke
             (Regmap.mk (sample_regs 0 0) []
                [Regmap.RegWrite 8 1; Regmap.RegRead 8; Regmap.RegRead 7]) 8 1)
          true 1 false false false false false false)
     = 1.
Proof.
  split.
  - refine (proj1 (proj1 bind_without_startup_config (sample_client 0 []) _ _ _));
      vm_compute; reflexivity.
  - refine (proj1 (proj2 (proj2 (proj2 bind_without_startup_config (sample_client 0 []) _
                                   (sample_bus 0 0 []) _ _ _))));
      vm_compute; reflexivity.
Defined.



(** ** Further properties of the drivers *)

(** X7: isl12020_rtc_ops_set_time writes the time block only after the
    write-enable step: either the bulk write of the seven encoded bytes
    is the last transaction and the WRTC bit (bit 6) of the INT register
    is set, or the enable step failed, its error is returned, no register
    has changed and only the read (or the read and the failed write) of
    the INT register was issued. The driver data are never changed. *)
Theorem set_time_enable_then_block (priv : Isl12020.isl12020_data) (t : rtc_time) :
  let r := Isl12020.isl12020_rtc_ops_set_time priv t in
  let m := Isl12020.regmap priv in
  let m' := Isl12020.regmap (snd r) in
  Isl12020.config (snd r) = Isl12020.config priv
  /\ Isl12020.status (snd r) = Isl12020.status priv
  /\ ((exists older,
         Regmap.trace m' = Regmap.BulkWrite 0 (Isl12020.time_regs t) :: older)
      /\ Z.testbit (Regmap.peek m' Isl12020.ISL_REG_CSR_INT) 6 = true
      \/
      (fst r < 0
       /\ Regmap.regs m' = Regmap.regs m
       /\ (Regmap.trace m' = Regmap.RegRead 8 :: Regmap.trace m
           \/ exists v,
              Regmap.trace m' = Regmap.RegWrite 8 v :: Regmap.RegRead 8 :: Regmap.trace m))).
Proof.
  intros r m m'. subst r m'. unfold Isl12020.isl12020_rtc_ops_set_time.
  pose proof (ChannelFacts.update_bits_cases m Isl12020.ISL_REG_CSR_INT
                Isl12020.ISL_BIT_CSR_INT_WRTC Isl12020.ISL_BIT_CSR_INT_WRTC) as Hu.
  fold m. destruct (Regmap.regmap_update_bits m _ _ _) as [err m1].
  cbn [fst snd] in Hu.
  destruct Hu as [(-> & Hnew & _) | (Hneg & Hregs & Htr)].
  - cbn [Z.ltb Z.compare].
    pose proof (ChannelFacts.bulk_write_cases m1 Isl12020.ISL_REG_RTC_SC
                  (Isl12020.time_regs t)) as Hb.
    cbn [Isl12020.regmap Isl12020.with_regmap].
    destruct (Regmap.regmap_bulk_write m1 _ _) as [err2 m2]. cbn [fst snd] in *.
    destruct Hb as [Htrace Hb]. repeat split. left. split.
    + eexists. exact Htrace.
    + change Isl12020.ISL_REG_CSR_INT with 8 in *.
      cbn [Isl12020.regmap Isl12020.with_regmap].
      assert (Regmap.peek m2 8 = Regmap.peek m1 8) as ->.
      { destruct Hb as [(_ & _ & Hout) | (_ & Hsame)].
        - assert (forall r', r' < 0 \/ 7 <= r' -> Regmap.peek m2 r' = Regmap.peek m1 r')
            as Hout' by exact Hout.
          apply Hout'. lia.
        - unfold Regmap.peek. rewrite Hsame. reflexivity. }
      rewrite Hnew.
      apply TimeFacts.wrtc_bit_set.
  - apply Z.ltb_lt in Hneg. rewrite Hneg. apply Z.ltb_lt in Hneg.
    cbn [fst snd Isl12020.regmap Isl12020.with_regmap Isl12020.config Isl12020.status].
    repeat split. right. repeat split; assumption.
Qed.

(** X8: a successful isl12020_rtc_ops_set_time changes nothing but the
    seven time registers and the WRTC bit: every register other than
    0..6 and INT keeps its value, every bit of INT other than bit 6 keeps
    its value (so the frequency-output field and FOBATB survive), bit 6
    of INT is set, and the hour register carries the 24-hour bit (bit
    7). *)
Theorem set_time_frame (priv priv1 : Isl12020.isl12020_data) (t : rtc_time) :
  Isl12020.isl12020_rtc_ops_set_time priv t = (0, priv1) ->
  (forall r, (r < 0 \/ 7 <= r) -> r <> 8 ->
   Regmap.peek (Isl12020.regmap priv1) r = Regmap.peek (Isl12020.regmap priv) r)
  /\ (forall n, n <> 6 ->
      Z.testbit (Regmap.peek (Isl12020.regmap priv1) Isl12020.ISL_REG_CSR_INT) n
      = Z.testbit (Regmap.peek (Isl12020.regmap priv) Isl12020.ISL_REG_CSR_INT) n)
  /\ Z.testbit (Regmap.peek (Isl12020.regmap priv1) Isl12020.ISL_REG_CSR_INT) 6 = true
  /\ Z.testbit (Regmap.peek (Isl12020.regmap priv1) Isl12020.ISL_REG_RTC_HR) 7 = true.
Proof.
  unfold Isl12020.isl12020_rtc_ops_set_time. intros H.
  pose proof (ChannelFacts.update_bits_cases (Isl12020.regmap priv)
                Isl12020.ISL_REG_CSR_INT
                Isl12020.ISL_BIT_CSR_INT_WRTC Isl12020.ISL_BIT_CSR_INT_WRTC) as Hu.
  destruct (Regmap.regmap_update_bits _ _ _ _) as [err m1]. cbn [fst snd] in Hu.
  destruct Hu as [(-> & Hnew & Hframe) | (Hneg & _)].
  - cbn [Z.ltb Z.compare] in H.
    pose proof (ChannelFacts.bulk_write_cases m1 Isl12020.ISL_REG_RTC_SC
                  (Isl12020.time_regs t)) as Hb.
    cbn [Isl12020.regmap Isl12020.with_regmap] in H.
    destruct (Regmap.regmap_bulk_write m1 _ _) as [err2 m2]. cbn [fst snd] in Hb.
    injection H as -> <-. cbn [Isl12020.regmap Isl12020.with_regmap].
    destruct Hb as [_ [(_ & Hin & Hout) | (Hneg & _)]]; [| lia].
    assert (forall r', r' < 0 \/ 7 <= r' -> Regmap.peek m2 r' = Regmap.peek m1 r')
      as Hout' by exact Hout.
    assert (Regmap.peek m2 8 = Regmap.peek m1 8) as H8 by (apply Hout'; lia).
    change Isl12020.ISL_REG_CSR_INT with 8 in *. rewrite H8, Hnew. repeat split.
    + intros r Hr Hr8. rewrite Hout' by exact Hr. apply Hframe. exact Hr8.
    + intros n Hn. apply TimeFacts.wrtc_other_bits. exact Hn.
    + apply TimeFacts.wrtc_bit_set.
    + assert (Regmap.peek m2 Isl12020.ISL_REG_RTC_HR
              = Kernel.u8 (Kernel.u8 (Z.lor (Kernel.bin2bcd (tm_hour t)) (Kernel.BIT 7))))
        as -> by exact (Hin 2%nat ltac:(cbn; lia)).
      rewrite !Facts.testbit_u8, Z.lor_spec, Facts.testbit_BIT by lia.
      cbn. apply orb_true_r.
  - apply Z.ltb_lt in Hneg. rewrite Hneg in H. apply Z.ltb_lt in Hneg.
    injection H as -> _. lia.
Qed.

Lemma set_time_frame_witness :
  Z.testbit (Regmap.peek (Isl12020.regmap
                            (snd (Isl12020.isl12020_rtc_ops_set_time
                                    (sample_priv 0 31 [] false) sample_time)))
                         Isl12020.ISL_REG_CSR_INT) 6 = true.
Proof.
  exact (proj1 (proj2 (proj2 (set_time_frame
                                (sample_priv 0 31 [] false)
                                (snd (Isl12020.isl12020_rtc_ops_set_time
                                        (sample_priv 0 31 [] false) sample_time))
                                sample_time eq_refl)))).
Defined.

(** X9: isl12020_rtc_ops_read_time never changes a register or the driver
    data and does not validate what it decodes: when the bulk read
    succeeds the fields lie within what the masks let through (seconds
    and minutes 0..85, hours and day 0..45, month -1..24, tm_year
    100..265, weekday 0..7) whatever the registers hold, and tm_yday and
    tm_isdst are the caller's; when the read fails the negative error is
    returned and the caller's buffer is untouched. *)
Theorem read_time_decodes_without_validation (priv : Isl12020.isl12020_data)
        (tm0 : rtc_time) :
  let r := Isl12020.isl12020_rtc_ops_read_time priv tm0 in
  let tm := snd (fst r) in
  Regmap.regs (Isl12020.regmap (snd r)) = Regmap.regs (Isl12020.regmap priv)
  /\ Isl12020.config (snd r) = Isl12020.config priv
  /\ ((fst (fst r) = 0
       /\ 0 <= tm_sec tm <= 85 /\ 0 <= tm_min tm <= 85
       /\ 0 <= tm_hour tm <= 45 /\ 0 <= tm_mday tm <= 45
       /\ -1 <= tm_mon tm <= 24 /\ 100 <= tm_year tm <= 265
       /\ 0 <= tm_wday tm <= 7
       /\ tm_yday tm = tm_yday tm0 /\ tm_isdst tm = tm_isdst tm0)
      \/ (fst (fst r) < 0 /\ tm = tm0)).
Proof.
  intros r tm. subst tm r.
  destruct (Isl12020.isl12020_rtc_ops_read_time priv tm0) as [[err tm] p2] eqn:H.
  cbn [fst snd].
  assert (Regmap.regs (Isl12020.regmap p2) = Regmap.regs (Isl12020.regmap priv)
          /\ Isl12020.config p2 = Isl12020.config priv
          /\ (err = 0 \/ (err < 0 /\ tm = tm0))) as (Hregs & Hcfg & Herr).
  { unfold Isl12020.isl12020_rtc_ops_read_time in H.
    pose proof (ChannelFacts.bulk_read_regs (Isl12020.regmap priv) Isl12020.ISL_REG_RTC_SC
                  (Z.to_nat (Isl12020.ISL_REG_CSR_INT + 1))) as Hr.
    destruct (Regmap.regmap_bulk_read _ _ _) as [[e buf] m1] eqn:Hb. cbn [snd] in Hr.
    destruct (RegmapFacts.bulk_read_cases _ _ _ _ _ _ Hb) as [[-> _] | [Hneg _]].
    - cbn [Z.ltb Z.compare] in H. injection H as <- _ <-.
      repeat split; [exact Hr | left; reflexivity].
    - apply Z.ltb_lt in Hneg. rewrite Hneg in H. apply Z.ltb_lt in Hneg.
      injection H as <- <- <-. repeat split; [exact Hr | right; split; [exact Hneg | reflexivity]]. }
  repeat split; try assumption.
  destruct Herr as [-> | Hfail]; [left | right; exact Hfail].
  rewrite (TimeCodec.isl12020_read_time_decodes _ _ _ _ H). cbv zeta. cbn [tm_sec tm_min tm_hour tm_mday tm_mon tm_year tm_wday tm_yday tm_isdst].
  pose proof (fun k => TimeFacts.decoded_bounds (Regmap.peek (Isl12020.regmap priv) k)
                         (Facts.u8_range _)) as Hb.
  destruct (Hb 0) as (? & _). destruct (Hb 1) as (? & _).
  destruct (Hb 2) as (_ & ? & _). destruct (Hb 3) as (_ & ? & _).
  destruct (Hb 4) as (_ & _ & ? & _). destruct (Hb 5) as (_ & _ & _ & ? & _).
  destruct (Hb 6) as (_ & _ & _ & _ & ?).
  repeat split; lia.
Qed.

(* a month register that reads 0 decodes to month -1 *)
Example read_time_month_minus_one :
  tm_mon (snd (fst (Isl12020.isl12020_rtc_ops_read_time (sample_priv 0 0 [] false)
                                                        sample_time)))
  = -1.
Proof. vm_compute. reflexivity. Qed.

(** X10: the hwmon thresholds are static: in both drivers reading
    temp1_lcrit, temp1_min, temp1_max and temp1_crit succeeds whatever
    the TSE flag and the channel state are, touches neither the channel
    nor the driver data, and yields -50000 < -40000 < 85000 < 90000; the
    five temperature attributes are visible (0444) on channel 0 only, and
    a read of any other sensor type fails with -EOPNOTSUPP. *)
Theorem hwmon_thresholds_static :
  (forall (priv : Isl12020.isl12020_data) (channel val : Z),
     Isl12020.isl12020_hwmon_ops_read priv Kernel.hwmon_temp Kernel.hwmon_temp_lcrit
                                      channel val = (0, -50000, priv)
     /\ Isl12020.isl12020_hwmon_ops_read priv Kernel.hwmon_temp Kernel.hwmon_temp_min
                                         channel val = (0, -40000, priv)
     /\ Isl12020.isl12020_hwmon_ops_read priv Kernel.hwmon_temp Kernel.hwmon_temp_max
                                         channel val = (0, 85000, priv)
     /\ Isl12020.isl12020_hwmon_ops_read priv Kernel.hwmon_temp Kernel.hwmon_temp_crit
                                         channel val = (0, 90000, priv)
     /\ (forall attr,
         In attr [Kernel.hwmon_temp_input; Kernel.hwmon_temp_lcrit; Kernel.hwmon_temp_min;
                  Kernel.hwmon_temp_max; Kernel.hwmon_temp_crit] ->
         Isl12020.isl12020_hwmon_ops_is_visible priv Kernel.hwmon_temp attr channel
         = if 0 <? channel then 0 else 292)
     /\ (forall type attr, type <> Kernel.hwmon_temp ->
         Isl12020.isl12020_hwmon_ops_read priv type attr channel val
         = (- Kernel.EOPNOTSUPP, val, priv)
         /\ Isl12020.isl12020_hwmon_ops_is_visible priv type attr channel = 0))
  /\
  (forall (priv : Isl12020m.isl12020m_data) (channel val : Z),
     Isl12020m.isl12020m_hwmon_ops_read priv Kernel.hwmon_temp Kernel.hwmon_temp_lcrit
                                        channel val = (0, -50000, priv)
     /\ Isl12020m.isl12020m_hwmon_ops_read priv Kernel.hwmon_temp Kernel.hwmon_temp_min
                                           channel val = (0, -40000, priv)
     /\ Isl12020m.isl12020m_hwmon_ops_read priv Kernel.hwmon_temp Kernel.hwmon_temp_max
                                           channel val = (0, 85000, priv)
     /\ Isl12020m.isl12020m_hwmon_ops_read priv Kernel.hwmon_temp Kernel.hwmon_temp_crit
                                           channel val = (0, 90000, priv)
     /\ (forall attr,
         In attr [Kernel.hwmon_temp_input; Kernel.hwmon_temp_lcrit; Kernel.hwmon_temp_min;
                  Kernel.hwmon_temp_max; Kernel.hwmon_temp_crit] ->
         Isl12020m.isl12020m_hwmon_ops_is_visible priv Kernel.hwmon_temp attr channel
         = if 0 <? channel then 0 else 292)
     /\ (forall type attr, type <> Kernel.hwmon_temp ->
         Isl12020m.isl12020m_hwmon_ops_read priv type attr channel val
         = (- Kernel.EOPNOTSUPP, val, priv)
         /\ Isl12020m.isl12020m_hwmon_ops_is_visible priv type attr channel = 0)).
Proof.
  split; intros priv channel val; repeat split; try reflexivity.
  - intros attr Hin. cbn [In] in Hin.
    destruct Hin as [<- | [<- | [<- | [<- | [<- | []]]]]]; reflexivity.
  - destruct type; try reflexivity; contradiction.
  - destruct type; try reflexivity; contradiction.
  - intros attr Hin. cbn [In] in Hin.
    destruct Hin as [<- | [<- | [<- | [<- | [<- | []]]]]]; reflexivity.
  - destruct type; try reflexivity; contradiction.
  - destruct type; try reflexivity; contradiction.
Qed.

(** X11: a temperature read through the hwmon interface (temp1_input)
    that succeeds lies within the critical thresholds [-50000, 90000]
    exactly when the raw code is within 446..726 (the range the source
    comment gives), within [temp1_min, temp1_max] exactly when it is
    within 466..716, and a 10 bit code never yields more than 238500; in
    both drivers. *)
Theorem hwmon_input_against_thresholds :
  (forall (priv priv' : Isl12020.isl12020_data) (channel val0 val : Z),
     Isl12020.isl12020_hwmon_ops_read priv Kernel.hwmon_temp Kernel.hwmon_temp_input
                                      channel val0 = (0, val, priv') ->
     let raw := Regmap.peek (Isl12020.regmap priv) Isl12020.ISL_REG_TEMP_TKOL
                + 256 * Regmap.peek (Isl12020.regmap priv) Isl12020.ISL_REG_TEMP_TKOM in
     (Isl12020.TEMP_LCRIT_M <= val <= Isl12020.TEMP_CRIT_M <-> 446 <= raw <= 726)
     /\ (Isl12020.TEMP_MIN_M <= val <= Isl12020.TEMP_MAX_M <-> 466 <= raw <= 716)
     /\ (raw < 1024 -> -273000 <= val <= 238500))
  /\
  (forall (priv priv' : Isl12020m.isl12020m_data) (channel val0 val : Z),
     Isl12020m.isl12020m_hwmon_ops_read priv Kernel.hwmon_temp Kernel.hwmon_temp_input
                                        channel val0 = (0, val, priv') ->
     let raw := Regmap.peek (Isl12020m.regmap priv) Isl12020m.ISL_REG_TEMP_TKOL
                + 256 * Regmap.peek (Isl12020m.regmap priv) Isl12020m.ISL_REG_TEMP_TKOM in
     (Isl12020m.TEMP_LCRIT <= val <= Isl12020m.TEMP_CRIT <-> 446 <= raw <= 726)
     /\ (Isl12020m.TEMP_MIN <= val <= Isl12020m.TEMP_MAX <-> 466 <= raw <= 716)
     /\ (raw < 1024 -> -273000 <= val <= 238500)).
Proof.
  split; intros priv priv' channel val0 val H raw.
  - change (Isl12020.isl12020_read_temp priv val0 = (0, val, priv')) in H.
    destruct (TempFacts.isl12020_read_temp_ok _ _ _ _ H) as [_ Hval].
    pose proof (TempFacts.raw_range (Isl12020.regmap priv) 40) as Hraw.
    change Isl12020.TEMP_LCRIT_M with (-50000). change Isl12020.TEMP_CRIT_M with 90000.
    change Isl12020.TEMP_MIN_M with (-40000). change Isl12020.TEMP_MAX_M with 85000.
    change (40 + 1) with 41 in Hraw. fold raw in Hval, Hraw.
    change Isl12020.ISL_REG_TEMP_TKOL with 40 in raw.
    change Isl12020.ISL_REG_TEMP_TKOM with 41 in raw.
    repeat split; intros; lia.
  - change (Isl12020m.isl12020m_read_temp priv val0 = (0, val, priv')) in H.
    destruct (TempFacts.isl12020m_read_temp_ok _ _ _ _ H) as [_ Hval].
    pose proof (TempFacts.raw_range (Isl12020m.regmap priv) 40) as Hraw.
    change Isl12020m.TEMP_LCRIT with (-50000). change Isl12020m.TEMP_CRIT with 90000.
    change Isl12020m.TEMP_MIN with (-40000). change Isl12020m.TEMP_MAX with 85000.
    change (40 + 1) with 41 in Hraw. fold raw in Hval, Hraw.
    change Isl12020m.ISL_REG_TEMP_TKOL with 40 in raw.
    change Isl12020m.ISL_REG_TEMP_TKOM with 41 in raw.
    repeat split; intros; lia.
Qed.

Lemma hwmon_input_against_thresholds_witness :
  (Isl12020.TEMP_LCRIT_M <= 0 <= Isl12020.TEMP_CRIT_M <-> 446 <= 34 + 256 * 2 <= 726).
Proof.
  exact (proj1 (proj1 hwmon_input_against_thresholds
                  (sample_priv 546 0 [] true)
                  (snd (Isl12020.isl12020_hwmon_ops_read (sample_priv 546 0 [] true)
                          Kernel.hwmon_temp Kernel.hwmon_temp_input 0 0))
                  0 0 0 eq_refl)).
Defined.

(** X12: writing back what a flag attribute shows changes no stored
    setting: for temperature_sensor_enabled,
    battery_temperature_sensor_enabled, high_sensing_frequency and
    battery_frequency_output_enabled of rtc-isl12020.c the stored
    configuration after store(show()) is the one before, whatever the
    channel does; likewise for the three flags of rtc-isl12020m.c. *)
Theorem show_then_store_keeps_config :
  (forall (priv : Isl12020.isl12020_data) (count : Z),
     Isl12020.config (snd (Isl12020.isl12020_tse_store priv
                             (Isl12020.isl12020_tse_show priv) count))
     = Isl12020.config priv
     /\ Isl12020.config (snd (Isl12020.isl12020_btse_store priv
                                (Isl12020.isl12020_btse_show priv) count))
        = Isl12020.config priv
     /\ Isl12020.config (snd (Isl12020.isl12020_btsr_store priv
                                (Isl12020.isl12020_btsr_show priv) count))
        = Isl12020.config priv
     /\ Isl12020.config (snd (Isl12020.isl12020_bat_freq_out_store priv
                                (Isl12020.isl12020_bat_freq_out_show priv) count))
        = Isl12020.config priv)
  /\
  (forall (priv : Isl12020m.isl12020m_data) (count val0 : Z),
     let flags p := (Isl12020m.tse p, Isl12020m.btse p, Isl12020m.btsr p,
                     Isl12020m.freq_out_mode p, Isl12020m.freq_out p) in
     flags (snd (Isl12020m.isl12020m_tse_store priv
                   (Isl12020m.isl12020m_tse_show priv) count val0)) = flags priv
     /\ flags (snd (Isl12020m.isl12020m_btse_store priv
                      (Isl12020m.isl12020m_btse_show priv) count val0)) = flags priv
     /\ flags (snd (Isl12020m.isl12020m_btsr_store priv
                      (Isl12020m.isl12020m_btsr_show priv) count val0)) = flags priv).
Proof.
  split.
  - intros priv count. repeat split.
    + unfold Isl12020.isl12020_tse_show.
      rewrite (StoreFacts.isl12020_tse_store_forwards _ _ _ _
                 (ShowFacts.kstrtobool_emit_flag _)). cbn [snd].
      destruct (ShowFacts.isl12020_set_beta_config priv
                  (Isl12020.tse (Isl12020.config priv))
                  (Isl12020.btse (Isl12020.config priv))
                  (Isl12020.btsr (Isl12020.config priv))) as [[_ H] | [_ H]];
        rewrite H; [apply ShowFacts.config_eta | reflexivity].
    + unfold Isl12020.isl12020_btse_show.
      rewrite (StoreFacts.isl12020_btse_store_forwards _ _ _ _
                 (ShowFacts.kstrtobool_emit_flag _)). cbn [snd].
      destruct (ShowFacts.isl12020_set_beta_config priv
                  (Isl12020.tse (Isl12020.config priv))
                  (Isl12020.btse (Isl12020.config priv))
                  (Isl12020.btsr (Isl12020.config priv))) as [[_ H] | [_ H]];
        rewrite H; [apply ShowFacts.config_eta | reflexivity].
    + unfold Isl12020.isl12020_btsr_show.
      rewrite (StoreFacts.isl12020_btsr_store_forwards _ _ _ _
                 (ShowFacts.kstrtobool_emit_flag _)). cbn [snd].
      destruct (ShowFacts.isl12020_set_beta_config priv
                  (Isl12020.tse (Isl12020.config priv))
                  (Isl12020.btse (Isl12020.config priv))
                  (Isl12020.btsr (Isl12020.config priv))) as [[_ H] | [_ H]];
        rewrite H; [apply ShowFacts.config_eta | reflexivity].
    + unfold Isl12020.isl12020_bat_freq_out_show.
      rewrite (StoreFacts.isl12020_bat_freq_out_store_result _ _ _ _
                 (ShowFacts.kstrtobool_emit_flag _)). cbn [snd].
      destruct (ProbeFacts.isl12020_set_freq_out_config priv
                  (Isl12020.freq_out_mode (Isl12020.config priv))
                  (Isl12020.freq_out_bat (Isl12020.config priv))) as [[_ H] | [_ H]];
        rewrite H; [apply ShowFacts.config_eta | reflexivity].
  - intros priv count val0 flags.
    assert (forall a b c,
               (a, b, c) = (Isl12020m.tse priv, Isl12020m.btse priv, Isl12020m.btsr priv) ->
               flags (snd (Isl12020m.isl12020m_beta priv a b c)) = flags priv) as Hsame.
    { intros a b c Habc.
      destruct (ShowFacts.isl12020m_beta_fields priv a b c) as [Hf Ho].
      unfold flags.
      assert ((Isl12020m.tse (snd (Isl12020m.isl12020m_beta priv a b c)),
               Isl12020m.btse (snd (Isl12020m.isl12020m_beta priv a b c)),
               Isl12020m.btsr (snd (Isl12020m.isl12020m_beta priv a b c)))
              = (Isl12020m.tse priv, Isl12020m.btse priv, Isl12020m.btsr priv)) as Hf'
          by (destruct Hf as [Hf | Hf]; congruence).
      congruence. }
    repeat split.
    + unfold Isl12020m.isl12020m_tse_store, Isl12020m.isl12020m_tse_show.
      rewrite ShowFacts.sscanf_hhu_emit_flag. cbn [snd].
      destruct (Isl12020m.tse priv) eqn:Hb; cbn [Z.eqb negb];
        apply Hsame; first [reflexivity | rewrite Hb; reflexivity].
    + unfold Isl12020m.isl12020m_btse_store, Isl12020m.isl12020m_btse_show.
      rewrite ShowFacts.sscanf_hhu_emit_flag. cbn [snd].
      destruct (Isl12020m.btse priv) eqn:Hb; cbn [Z.eqb negb];
        apply Hsame; first [reflexivity | rewrite Hb; reflexivity].
    + unfold Isl12020m.isl12020m_btsr_store, Isl12020m.isl12020m_btsr_show.
      rewrite ShowFacts.sscanf_hhu_emit_flag. cbn [snd].
      destruct (Isl12020m.btsr priv) eqn:Hb; cbn [Z.eqb negb];
        apply Hsame; first [reflexivity | rewrite Hb; reflexivity].
Qed.

(** X13: frequency_output cannot be written back as shown. For a stored
    mode within the table (0..15) isl12020_freq_out_show gives a text
    (the number, the name and a unit) which isl12020_freq_out_store
    rejects with -EINVAL before any channel access; for a stored mode
    from 16 on the index is past the end of freq_out_modes and the model
    has no text to give. *)
Theorem freq_out_show_not_storable (priv : Isl12020.isl12020_data) (count : Z) :
  0 <= Isl12020.freq_out_mode (Isl12020.config priv) ->
  match Isl12020.isl12020_freq_out_show priv with
  | Some text =>
      Isl12020.freq_out_mode (Isl12020.config priv) <= Isl12020.FREQ_OUT_MODE_MAX
      /\ Isl12020.isl12020_freq_out_store priv text count = (- Kernel.EINVAL, priv)
  | None => Isl12020.FREQ_OUT_MODE_MAX < Isl12020.freq_out_mode (Isl12020.config priv)
  end.
Proof.
  intros Hnn. change Isl12020.FREQ_OUT_MODE_MAX with 15.
  destruct (Z.le_gt_cases (Isl12020.freq_out_mode (Isl12020.config priv)) 15) as [Hle | Hgt].
  - pose proof (Facts.all_below_spec 16 _ ShowFacts.shown_mode_is_no_number
                  (Isl12020.freq_out_mode (Isl12020.config priv)) ltac:(lia)) as Hc.
    cbv beta in Hc.
    change (Isl12020.isl12020_freq_out_show
              (Isl12020.mk_data (sample_bus 0 0 []) false
                 (Isl12020.mk_status false false false false false false)
                 (Isl12020.mk_config (Isl12020.freq_out_mode (Isl12020.config priv))
                    false false false false)))
      with (Isl12020.isl12020_freq_out_show priv) in Hc.
    destruct (Isl12020.isl12020_freq_out_show priv) as [text |]; [| discriminate].
    split; [exact Hle |]. apply Z.eqb_eq in Hc.
    unfold Isl12020.isl12020_freq_out_store.
    destruct (Kernel.kstrtou8 text) as [e v]. cbn [fst] in Hc. subst e. reflexivity.
  - unfold Isl12020.isl12020_freq_out_show.
    assert (nth_error Isl12020.freq_out_modes
              (Z.to_nat (Isl12020.freq_out_mode (Isl12020.config priv))) = None) as ->.
    { apply nth_error_None. change (List.length Isl12020.freq_out_modes) with 16%nat. lia. }
    exact Hgt.
Qed.

Lemma freq_out_show_not_storable_witness :
  Isl12020.isl12020_freq_out_show (sample_priv 0 0 [] false) = Some (line "0 (off)")
  /\ Isl12020.isl12020_freq_out_store (sample_priv 0 0 [] false) (line "0 (off)") 8
     = (- Kernel.EINVAL, sample_priv 0 0 [] false).
Proof.
  assert (Isl12020.isl12020_freq_out_show (sample_priv 0 0 [] false)
          = Some (line "0 (off)")) as Hshow by reflexivity.
  split; [exact Hshow |].
  pose proof (freq_out_show_not_storable (sample_priv 0 0 [] false) 8 ltac:(cbn; lia))
    as H.
  rewrite Hshow in H. exact (proj2 H).
Defined.

(** X14: input that does not parse never reaches the channel. The bool
    parser fails with -EINVAL only and the u8 parser with -EINVAL or
    -ERANGE only; whenever the parser fails, each store of
    rtc-isl12020.c returns that error and leaves driver data and channel
    (registers, fault script, trace) as they were. *)
Theorem stores_reject_unparsed (priv : Isl12020.isl12020_data) (buf : string) (count : Z) :
  (fst (Kernel.kstrtobool buf) = 0
   \/ (fst (Kernel.kstrtobool buf) = - Kernel.EINVAL
       /\ Isl12020.isl12020_tse_store priv buf count = (- Kernel.EINVAL, priv)
       /\ Isl12020.isl12020_btse_store priv buf count = (- Kernel.EINVAL, priv)
       /\ Isl12020.isl12020_btsr_store priv buf count = (- Kernel.EINVAL, priv)
       /\ Isl12020.isl12020_bat_freq_out_store priv buf count = (- Kernel.EINVAL, priv)))
  /\ (fst (Kernel.kstrtou8 buf) = 0
      \/ ((fst (Kernel.kstrtou8 buf) = - Kernel.EINVAL
           \/ fst (Kernel.kstrtou8 buf) = - Kernel.ERANGE)
          /\ Isl12020.isl12020_freq_out_store priv buf count
             = (fst (Kernel.kstrtou8 buf), priv))).
Proof.
  split.
  - destruct (ShowFacts.kstrtobool_errors buf) as [H | H]; [left; exact H | right].
    split; [exact H |].
    unfold Isl12020.isl12020_tse_store, Isl12020.isl12020_btse_store,
      Isl12020.isl12020_btsr_store, Isl12020.isl12020_bat_freq_out_store.
    destruct (Kernel.kstrtobool buf) as [e v]. cbn [fst] in H. subst e.
    repeat split; reflexivity.
  - destruct (ShowFacts.kstrtou8_cases buf) as [[H _] | H]; [left; exact H | right].
    split; [exact H |].
    unfold Isl12020.isl12020_freq_out_store.
    destruct (Kernel.kstrtou8 buf) as [e v]. cbn [fst] in *.
    destruct H as [-> | ->]; reflexivity.
Qed.

Example stores_reject_examples :
  Isl12020.isl12020_tse_store (sample_priv 0 0 [] false) (line "2") 2
  = (- Kernel.EINVAL, sample_priv 0 0 [] false)
  /\ Isl12020.isl12020_tse_store (sample_priv 0 0 [] false) "" 0
     = (- Kernel.EINVAL, sample_priv 0 0 [] false)
  /\ Isl12020.isl12020_freq_out_store (sample_priv 0 0 [] false) (line "256") 4
     = (- Kernel.ERANGE, sample_priv 0 0 [] false)
  /\ Isl12020.isl12020_freq_out_store (sample_priv 0 0 [] false) (line "-1") 3
     = (- Kernel.EINVAL, sample_priv 0 0 [] false)
  /\ Isl12020.isl12020_freq_out_store (sample_priv 0 0 [] false) (line "0x3") 4
     = (- Kernel.EINVAL, sample_priv 0 0 [] false).
Proof. repeat split; reflexivity. Qed.

(** X15: no store of rtc-isl12020.c takes the stored frequency-output
    mode out of the table: when it is within 0..15 before a store of any
    of the five writable attributes, with any input and any channel
    behaviour, it is within 0..15 afterwards (so isl12020_freq_out_show
    keeps indexing inside freq_out_modes). *)
Theorem stores_keep_mode_in_table (priv : Isl12020.isl12020_data) (buf : string)
        (count : Z) :
  0 <= Isl12020.freq_out_mode (Isl12020.config priv) <= Isl12020.FREQ_OUT_MODE_MAX ->
  let ok p := 0 <= Isl12020.freq_out_mode (Isl12020.config p) <= Isl12020.FREQ_OUT_MODE_MAX in
  ok (snd (Isl12020.isl12020_tse_store priv buf count))
  /\ ok (snd (Isl12020.isl12020_btse_store priv buf count))
  /\ ok (snd (Isl12020.isl12020_btsr_store priv buf count))
  /\ ok (snd (Isl12020.isl12020_bat_freq_out_store priv buf count))
  /\ ok (snd (Isl12020.isl12020_freq_out_store priv buf count)).
Proof.
  intros H ok.
  assert (forall a b c, ok (snd (Isl12020.isl12020_set_beta priv a b c))) as Hbeta.
  { intros a b c. unfold ok.
    destruct (ShowFacts.isl12020_set_beta_config priv a b c) as [[_ Hc] | [_ Hc]];
      rewrite Hc; [cbn | ]; exact H. }
  assert (forall mode bat, 0 <= mode <= Isl12020.FREQ_OUT_MODE_MAX ->
             ok (snd (Isl12020.isl12020_set_freq_out priv mode bat))) as Hfo.
  { intros mode bat Hm. unfold ok.
    destruct (ProbeFacts.isl12020_set_freq_out_config priv mode bat) as [[_ Hc] | [_ Hc]];
      rewrite Hc; [cbn; exact Hm | exact H]. }
  split; [| split; [| split; [| split]]].
  - unfold Isl12020.isl12020_tse_store. destruct (Kernel.kstrtobool buf) as [e v].
    destruct (e =? 0); [| exact H].
    specialize (Hbeta v (Isl12020.btse (Isl12020.config priv))
                        (Isl12020.btsr (Isl12020.config priv))).
    destruct (Isl12020.isl12020_set_beta _ _ _ _) as [e' p']. exact Hbeta.
  - unfold Isl12020.isl12020_btse_store. destruct (Kernel.kstrtobool buf) as [e v].
    destruct (e =? 0); [| exact H].
    specialize (Hbeta (Isl12020.tse (Isl12020.config priv)) v
                      (Isl12020.btsr (Isl12020.config priv))).
    destruct (Isl12020.isl12020_set_beta _ _ _ _) as [e' p']. exact Hbeta.
  - unfold Isl12020.isl12020_btsr_store. destruct (Kernel.kstrtobool buf) as [e v].
    destruct (e =? 0); [| exact H].
    specialize (Hbeta (Isl12020.tse (Isl12020.config priv))
                      (Isl12020.btse (Isl12020.config priv)) v).
    destruct (Isl12020.isl12020_set_beta _ _ _ _) as [e' p']. exact Hbeta.
  - unfold Isl12020.isl12020_bat_freq_out_store. destruct (Kernel.kstrtobool buf) as [e v].
    destruct (e =? 0); [| exact H].
    specialize (Hfo (Isl12020.freq_out_mode (Isl12020.config priv)) v H).
    destruct (Isl12020.isl12020_set_freq_out _ _ _) as [e' p']. exact Hfo.
  - unfold Isl12020.isl12020_freq_out_store.
    pose proof (ShowFacts.kstrtou8_cases buf) as Hk.
    destruct (Kernel.kstrtou8 buf) as [e v]. cbn [fst snd] in Hk.
    destruct (Z.eqb_spec e 0) as [-> | Hne]; [| exact H].
    destruct (Z.leb_spec v Isl12020.FREQ_OUT_MODE_MAX) as [Hle | Hgt]; [| exact H].
    assert (0 <= v) as Hv
        by (destruct Hk as [[_ Hk] | [Hk | Hk]]; [lia | discriminate | discriminate]).
    specialize (Hfo v (Isl12020.freq_out_bat (Isl12020.config priv)) (conj Hv Hle)).
    destruct (Isl12020.isl12020_set_freq_out _ _ _) as [e' p']. exact Hfo.
Qed.

Lemma stores_keep_mode_in_table_witness :
  0 <= Isl12020.freq_out_mode
         (Isl12020.config
            (snd (Isl12020.isl12020_freq_out_store (sample_priv 0 0 [] false) (line "15") 3)))
    <= Isl12020.FREQ_OUT_MODE_MAX.
Proof.
  exact (proj2 (proj2 (proj2 (proj2
           (stores_keep_mode_in_table (sample_priv 0 0 [] false) (line "15") 3
              ltac:(cbn; lia)))))).
Defined.

(** X16: a store of one compensation flag rewrites all three in the
    device from the stored copy. When temperature_sensor_enabled,
    battery_temperature_sensor_enabled or high_sensing_frequency of
    rtc-isl12020.c is written with a count from 0 on and the store
    answers count, then bits 7, 6 and 5 of the BETA register equal the
    stored tse, btse and btsr afterwards, the written flag is the parsed
    value and the two other stored flags are the ones from before,
    whatever the register held for them. *)
Theorem store_writes_stored_flags (priv priv' : Isl12020.isl12020_data) (buf : string)
        (count : Z) :
  0 <= count ->
  let bits p := (Z.testbit (Regmap.peek (Isl12020.regmap p) Isl12020.ISL_REG_CSR_BETA) 7,
                 Z.testbit (Regmap.peek (Isl12020.regmap p) Isl12020.ISL_REG_CSR_BETA) 6,
                 Z.testbit (Regmap.peek (Isl12020.regmap p) Isl12020.ISL_REG_CSR_BETA) 5) in
  let flags p := (Isl12020.tse (Isl12020.config p), Isl12020.btse (Isl12020.config p),
                  Isl12020.btsr (Isl12020.config p)) in
  (Isl12020.isl12020_tse_store priv buf count = (count, priv') ->
   bits priv' = flags priv'
   /\ flags priv' = (snd (Kernel.kstrtobool buf), Isl12020.btse (Isl12020.config priv),
                     Isl12020.btsr (Isl12020.config priv)))
  /\ (Isl12020.isl12020_btse_store priv buf count = (count, priv') ->
      bits priv' = flags priv'
      /\ flags priv' = (Isl12020.tse (Isl12020.config priv), snd (Kernel.kstrtobool buf),
                        Isl12020.btsr (Isl12020.config priv)))
  /\ (Isl12020.isl12020_btsr_store priv buf count = (count, priv') ->
      bits priv' = flags priv'
      /\ flags priv' = (Isl12020.tse (Isl12020.config priv),
                        Isl12020.btse (Isl12020.config priv), snd (Kernel.kstrtobool buf))).
Proof.
  intros Hcount bits flags.
  assert (forall a b c e, Isl12020.isl12020_set_beta priv a b c = (e, priv') ->
             store_result e count = count ->
             bits priv' = flags priv' /\ flags priv' = (a, b, c)) as Hcore.
  { intros a b c e Hs Hres.
    pose proof (ShowFacts.isl12020_set_beta_config priv a b c) as Hc.
    rewrite Hs in Hc. cbn [fst snd] in Hc.
    assert (e = 0) as ->.
    { destruct Hc as [[Hc _] | [Hc _]]; [exact Hc |].
      unfold store_result in Hres. destruct (Z.eqb_spec e 0); lia. }
    destruct (ConfigFacts.isl12020_set_beta_ok _ _ _ _ _ Hs) as (Hnew & _ & Hcfg & _).
    destruct (ShowFacts.beta_flag_bits
                (Regmap.peek (Isl12020.regmap priv) 13) a b c) as (H7 & H6 & H5).
    unfold bits, flags. change Isl12020.ISL_REG_CSR_BETA with 13.
    rewrite Hnew, H7, H6, H5, Hcfg. split; reflexivity. }
  assert (forall e, e = 0 \/ e = - Kernel.EINVAL -> e <> 0 -> e <> count) as Hperr.
  { intros e [-> | ->] Hne; [congruence | cbn; lia]. }
  split; [| split].
  - intros H. pose proof (ShowFacts.kstrtobool_errors buf) as Hk.
    unfold Isl12020.isl12020_tse_store in H.
    destruct (Kernel.kstrtobool buf) as [e v]. cbn [fst snd] in *.
    destruct (Z.eqb_spec e 0) as [-> | Hne].
    + destruct (Isl12020.isl12020_set_beta priv v _ _) as [e' p'] eqn:Hs.
      injection H as Hres ->. exact (Hcore _ _ _ _ Hs Hres).
    + apply Z.eqb_neq in Hne. rewrite Hne in H. injection H as Hres _.
      apply Z.eqb_neq in Hne. exfalso. exact (Hperr e Hk Hne Hres).
  - intros H. pose proof (ShowFacts.kstrtobool_errors buf) as Hk.
    unfold Isl12020.isl12020_btse_store in H.
    destruct (Kernel.kstrtobool buf) as [e v]. cbn [fst snd] in *.
    destruct (Z.eqb_spec e 0) as [-> | Hne].
    + destruct (Isl12020.isl12020_set_beta priv _ v _) as [e' p'] eqn:Hs.
      injection H as Hres ->. exact (Hcore _ _ _ _ Hs Hres).
    + apply Z.eqb_neq in Hne. rewrite Hne in H. injection H as Hres _.
      apply Z.eqb_neq in Hne. exfalso. exact (Hperr e Hk Hne Hres).
  - intros H. pose proof (ShowFacts.kstrtobool_errors buf) as Hk.
    unfold Isl12020.isl12020_btsr_store in H.
    destruct (Kernel.kstrtobool buf) as [e v]. cbn [fst snd] in *.
    destruct (Z.eqb_spec e 0) as [-> | Hne].
    + destruct (Isl12020.isl12020_set_beta priv _ _ v) as [e' p'] eqn:Hs.
      injection H as Hres ->. exact (Hcore _ _ _ _ Hs Hres).
    + apply Z.eqb_neq in Hne. rewrite Hne in H. injection H as Hres _.
      apply Z.eqb_neq in Hne. exfalso. exact (Hperr e Hk Hne Hres).
Qed.

Lemma store_writes_stored_flags_witness :
  (Z.testbit (Regmap.peek (sample_bus 0 255 []) Isl12020.ISL_REG_CSR_BETA) 6 = true)
  /\ (let p := snd (Isl12020.isl12020_tse_store (sample_priv 0 255 [] false) (line "1") 2) in
      (Z.testbit (Regmap.peek (Isl12020.regmap p) Isl12020.ISL_REG_CSR_BETA) 7,
       Z.testbit (Regmap.peek (Isl12020.regmap p) Isl12020.ISL_REG_CSR_BETA) 6,
       Z.testbit (Regmap.peek (Isl12020.regmap p) Isl12020.ISL_REG_CSR_BETA) 5)
      = (true, false, false)).
Proof.
  split; [reflexivity |].
  refine (eq_trans
            (proj1 (proj1 (store_writes_stored_flags (sample_priv 0 255 [] false) _
                             (line "1") 2 ltac:(lia)) _)) _);
    vm_compute; reflexivity.
Defined.

(** X17: the three copies of the time callbacks are one function of the
    channel: given the same register channel, set_time of rtc-isl12020.c
    and of both drivers of rtc-isl12020m.c return the same result and
    leave the same channel, and read_time returns the same result, the
    same time and the same channel (the weekday mask WEEK_LEN of the
    first driver and MASK3BITS of the others are both 7). *)
Theorem time_callbacks_agree (m : Regmap.t) (t tm0 : rtc_time)
        (priv : Isl12020.isl12020_data) (privm : Isl12020m.isl12020m_data) :
  let s := Isl12020.isl12020_rtc_ops_set_time (Isl12020.with_regmap priv m) t in
  let sm := Isl12020m.isl12020m_rtc_ops_set_time (Isl12020m.with_regmap privm m) t in
  let sr := Isl12020mRtc.isl12020m_rtc_ops_set_time (Isl12020mRtc.mk_data m) t in
  let r := Isl12020.isl12020_rtc_ops_read_time (Isl12020.with_regmap priv m) tm0 in
  let rm := Isl12020m.isl12020m_rtc_ops_read_time (Isl12020m.with_regmap privm m) tm0 in
  let rr := Isl12020mRtc.isl12020m_rtc_ops_read_time (Isl12020mRtc.mk_data m) tm0 in
  (fst s, Isl12020.regmap (snd s)) = (fst sr, Isl12020mRtc.regmap (snd sr))
  /\ (fst sm, Isl12020m.regmap (snd sm)) = (fst sr, Isl12020mRtc.regmap (snd sr))
  /\ (fst r, Isl12020.regmap (snd r)) = (fst rr, Isl12020mRtc.regmap (snd rr))
  /\ (fst rm, Isl12020m.regmap (snd rm)) = (fst rr, Isl12020mRtc.regmap (snd rr))
  /\ snd s = Isl12020.with_regmap priv (Isl12020.regmap (snd s))
  /\ snd sm = Isl12020m.with_regmap privm (Isl12020m.regmap (snd sm)).
Proof.
  cbv zeta.
  unfold Isl12020.isl12020_rtc_ops_set_time, Isl12020m.isl12020m_rtc_ops_set_time,
    Isl12020mRtc.isl12020m_rtc_ops_set_time, Isl12020.isl12020_rtc_ops_read_time,
    Isl12020m.isl12020m_rtc_ops_read_time, Isl12020mRtc.isl12020m_rtc_ops_read_time.
  cbn [Isl12020.regmap Isl12020.with_regmap Isl12020m.regmap Isl12020m.with_regmap
       Isl12020mRtc.regmap].
  change Isl12020m.ISL_REG_CSR_INT with 8. change Isl12020.ISL_REG_CSR_INT with 8.
  change Isl12020mRtc.ISL_REG_CSR_INT with 8.
  change Isl12020m.ISL_BIT_CSR_INT_WRTC with 64. change Isl12020.ISL_BIT_CSR_INT_WRTC with 64.
  change Isl12020mRtc.ISL_BIT_CSR_INT_WRTC with 64.
  change Isl12020m.ISL_REG_RTC_SC with 0. change Isl12020.ISL_REG_RTC_SC with 0.
  change Isl12020mRtc.ISL_REG_RTC_SC with 0.
  change (Isl12020m.time_regs t) with (Isl12020mRtc.time_regs t).
  change (Isl12020.time_regs t) with (Isl12020mRtc.time_regs t).
  destruct (Regmap.regmap_update_bits m 8 64 64) as [e m1].
  destruct (Regmap.regmap_bulk_read m 0 (Z.to_nat (8 + 1))) as [[e' buf] m'].
  destruct (e <? 0); destruct (e' <? 0);
    cbn [Isl12020.regmap Isl12020.with_regmap Isl12020m.regmap Isl12020m.with_regmap
         Isl12020mRtc.regmap];
    destruct (Regmap.regmap_bulk_write m1 0 (Isl12020mRtc.time_regs t)) as [e2 m2];
    repeat split; reflexivity.
Qed.

(** X18: a read through the hwmon interface never writes: for every
    sensor type, attribute and channel, in both drivers, the registers
    and the driver's stored settings are unchanged afterwards, and the
    channel was either not used at all or used for one bulk read of the
    two temperature registers, the latter only for temp1_input with TSE
    set. *)
Theorem hwmon_read_is_read_only :
  (forall (priv : Isl12020.isl12020_data) (type : Kernel.hwmon_sensor_types)
          (attr channel val : Z),
     let p := snd (Isl12020.isl12020_hwmon_ops_read priv type attr channel val) in
     Regmap.regs (Isl12020.regmap p) = Regmap.regs (Isl12020.regmap priv)
     /\ Isl12020.config p = Isl12020.config priv
     /\ Isl12020.status p = Isl12020.status priv
     /\ (p = priv
         \/ (type = Kernel.hwmon_temp /\ attr = Kernel.hwmon_temp_input
             /\ Isl12020.tse (Isl12020.config priv) = true
             /\ Regmap.trace (Isl12020.regmap p)
                = Regmap.BulkRead Isl12020.ISL_REG_TEMP_TKOL 2
                  :: Regmap.trace (Isl12020.regmap priv))))
  /\
  (forall (priv : Isl12020m.isl12020m_data) (type : Kernel.hwmon_sensor_types)
          (attr channel val : Z),
     let p := snd (Isl12020m.isl12020m_hwmon_ops_read priv type attr channel val) in
     Regmap.regs (Isl12020m.regmap p) = Regmap.regs (Isl12020m.regmap priv)
     /\ Isl12020m.with_regmap p (Isl12020m.regmap priv) = priv
     /\ (p = priv
         \/ (type = Kernel.hwmon_temp /\ attr = Kernel.hwmon_temp_input
             /\ Isl12020m.tse priv = true
             /\ Regmap.trace (Isl12020m.regmap p)
                = Regmap.BulkRead Isl12020m.ISL_REG_TEMP_TKOL 2
                  :: Regmap.trace (Isl12020m.regmap priv)))).
Proof.
  split; intros priv type attr channel val p; subst p.
  - destruct type; try (cbn; repeat split; left; reflexivity).
    unfold Isl12020.isl12020_hwmon_ops_read, Isl12020.isl12020_hwmon_temp_read.
    destruct (Z.eqb_spec attr Kernel.hwmon_temp_input) as [-> | _].
    + unfold Isl12020.isl12020_read_temp.
      destruct (Isl12020.tse (Isl12020.config priv)) eqn:Htse;
        [| cbn; repeat split; left; reflexivity].
      destruct priv as [[rg fs tr] hw st cf].
      unfold Regmap.regmap_bulk_read, Regmap.transfer.
      cbn [Isl12020.regmap Regmap.faults Regmap.regs Regmap.trace].
      destruct fs as [| [e |] fs]; cbn; repeat split; right; repeat split;
        exact Htse.
    + repeat match goal with |- context [if ?c then _ else _] => destruct c end;
        cbn; repeat split; left; reflexivity.
  - destruct type; try (cbn; destruct priv; repeat split; left; reflexivity).
    unfold Isl12020m.isl12020m_hwmon_ops_read, Isl12020m.isl12020m_hwmon_temp_read.
    destruct (Z.eqb_spec attr Kernel.hwmon_temp_input) as [-> | _].
    + unfold Isl12020m.isl12020m_read_temp.
      destruct (Isl12020m.tse priv) eqn:Htse;
        [| cbn; destruct priv; repeat split; left; reflexivity].
      destruct priv as [[rg fs tr] hw fm fo os rt t0 bt0 br0].
      unfold Regmap.regmap_bulk_read, Regmap.transfer.
      cbn [Isl12020m.regmap Regmap.faults Regmap.regs Regmap.trace].
      destruct fs as [| [e |] fs]; cbn; repeat split; right; repeat split;
        exact Htse.
    + repeat match goal with |- context [if ?c then _ else _] => destruct c end;
        cbn; destruct priv; repeat split; left; reflexivity.
Qed.

(** X19: set_freq_out touches only the low five bits of the INT
    register: after a success, in both drivers, bits 5 and above of the
    INT register (WRTC among them) are as before, every other register
    is unchanged, and so are the stored compensation flags. *)
Theorem set_freq_out_register_frame :
  (forall (priv priv' : Isl12020.isl12020_data) (mode : Z) (batmode : bool),
     Isl12020.isl12020_set_freq_out priv mode batmode = (0, priv') ->
     (forall n, 5 <= n ->
        Z.testbit (Regmap.peek (Isl12020.regmap priv') Isl12020.ISL_REG_CSR_INT) n
        = Z.testbit (Regmap.peek (Isl12020.regmap priv) Isl12020.ISL_REG_CSR_INT) n)
     /\ (forall r, r <> Isl12020.ISL_REG_CSR_INT ->
           Regmap.peek (Isl12020.regmap priv') r = Regmap.peek (Isl12020.regmap priv) r)
     /\ (Isl12020.tse (Isl12020.config priv'), Isl12020.btse (Isl12020.config priv'),
         Isl12020.btsr (Isl12020.config priv'))
        = (Isl12020.tse (Isl12020.config priv), Isl12020.btse (Isl12020.config priv),
           Isl12020.btsr (Isl12020.config priv)))
  /\
  (forall (priv priv' : Isl12020m.isl12020m_data) (mode : Z) (enable : bool),
     Isl12020m.isl12020m_set_freq_out priv mode enable = (0, priv') ->
     (forall n, 5 <= n ->
        Z.testbit (Regmap.peek (Isl12020m.regmap priv') Isl12020m.ISL_REG_CSR_INT) n
        = Z.testbit (Regmap.peek (Isl12020m.regmap priv) Isl12020m.ISL_REG_CSR_INT) n)
     /\ (forall r, r <> Isl12020m.ISL_REG_CSR_INT ->
           Regmap.peek (Isl12020m.regmap priv') r = Regmap.peek (Isl12020m.regmap priv) r)
     /\ (Isl12020m.tse priv', Isl12020m.btse priv', Isl12020m.btsr priv')
        = (Isl12020m.tse priv, Isl12020m.btse priv, Isl12020m.btsr priv)).
Proof.
  assert (forall old mode on n, 5 <= n ->
             Z.testbit (Kernel.u8 (mode_field (flag_bit (Kernel.u8 old) (Kernel.BIT 4) on) mode)) n
             = Z.testbit (Kernel.u8 old) n) as Hbits.
  { intros old mode on n Hn. rewrite !Facts.testbit_u8. unfold mode_field, flag_bit.
    rewrite Facts.testbit_mode_field, Facts.testbit_set_or_clear by lia.
    rewrite Facts.testbit_u8.
    destruct (Z.ltb_spec n 4); [lia |]. destruct (Z.eqb_spec 4 n); [lia |].
    destruct (n <? 8); reflexivity. }
  split.
  - intros priv priv' mode batmode H.
    destruct (ConfigFacts.isl12020_set_freq_out_ok _ _ _ _ H) as (Hnew & Hframe & Hcfg & _).
    change Isl12020.ISL_REG_CSR_INT with 8. repeat split.
    + intros n Hn. rewrite Hnew. apply Hbits. exact Hn.
    + exact Hframe.
    + rewrite Hcfg. reflexivity.
  - intros priv priv' mode enable H.
    destruct (ConfigFacts.isl12020m_set_freq_out_ok _ _ _ _ H) as (Hnew & Hframe & _ & Hfl).
    change Isl12020m.ISL_REG_CSR_INT with 8. repeat split.
    + intros n Hn. rewrite Hnew. apply Hbits. exact Hn.
    + exact Hframe.
    + exact Hfl.
Qed.

Lemma set_freq_out_register_frame_witness :
  Z.testbit
    (Regmap.peek
       (Isl12020.regmap (snd (Isl12020.isl12020_set_freq_out (sample_priv 0 255 [] false)
                                3 true)))
       Isl12020.ISL_REG_CSR_INT) 6 = true.
Proof.
  assert (Isl12020.isl12020_set_freq_out (sample_priv 0 255 [] false) 3 true
          = (0, snd (Isl12020.isl12020_set_freq_out (sample_priv 0 255 [] false) 3 true)))
    as H by (vm_compute; reflexivity).
  rewrite (proj1 (proj1 set_freq_out_register_frame _ _ _ _ H) 6 ltac:(lia)).
  reflexivity.
Defined.

(** X20: of all the channel accesses of isl12020_probe only the status
    read is critical. Once the allocations succeeded: when the read of
    the SR register fails, probe returns that error after this single
    access, with no flag set; otherwise probe returns what the RTC
    registration returns, whatever happens to the later accesses, the
    stored oscf and rtcf are bits 7 and 0 of the SR register as read
    (and this is what the attributes oscillator_failed and rtc_failed
    show), the other status flags are false, and the SR
    register itself is never written. *)
Theorem probe_only_status_read_is_critical (client : i2c_client) (m0 : Regmap.t) :
  i2c_functionality client = true ->
  kzalloc_ok client = true ->
  regmap_init client = inr m0 ->
  rtc_allocate_err client = 0 ->
  sysfs_create_err client = 0 ->
  match Regmap.faults m0 with
  | Some e :: fs =>
      Isl12020.isl12020_probe client
      = (Z.neg e,
         Some (Isl12020.mk_data
                 (Regmap.mk (Regmap.regs m0) fs
                    (Regmap.RegRead Isl12020.ISL_REG_CSR_SR :: Regmap.trace m0))
                 false (Isl12020.mk_status false false false false false false)
                 (Isl12020.mk_config 0 false false false false)))
  | _ =>
      fst (Isl12020.isl12020_probe client) = rtc_register_err client
      /\ exists priv,
           snd (Isl12020.isl12020_probe client) = Some priv
           /\ Isl12020.status priv
              = Isl12020.mk_status
                  (Z.testbit (Regmap.peek m0 Isl12020.ISL_REG_CSR_SR) 7)
                  (Z.testbit (Regmap.peek m0 Isl12020.ISL_REG_CSR_SR) 0)
                  false false false false
           /\ Isl12020.hwmon_dev priv = hwmon_register_ok client
           /\ Regmap.peek (Isl12020.regmap priv) Isl12020.ISL_REG_CSR_SR
              = Regmap.peek m0 Isl12020.ISL_REG_CSR_SR
           /\ Isl12020.isl12020_oscf_show priv
              = Kernel.emit_flag (Z.testbit (Regmap.peek m0 Isl12020.ISL_REG_CSR_SR) 7)
           /\ Isl12020.isl12020_rtcf_show priv
              = Kernel.emit_flag (Z.testbit (Regmap.peek m0 Isl12020.ISL_REG_CSR_SR) 0)
  end.
Proof.
  intros Hf Hk Hinit Hrtc Hsys.
  pose proof (ProbeRewrites.read_without_fault m0 7) as Hread.
  destruct (ProbeSteps.sr_flags m0 7) as [H7 H0].
  unfold Isl12020.isl12020_oscf_show, Isl12020.isl12020_rtcf_show.
  unfold Isl12020.isl12020_probe. rewrite Hf, Hk, Hinit, Hrtc, Hsys.
  cbn [negb Z.eqb Isl12020.regmap].
  change Isl12020.ISL_REG_CSR_SR with 7.
  change Isl12020.ISL_BIT_CSR_SR_OSCF with (Kernel.BIT 7).
  change Isl12020.ISL_BIT_CSR_SR_RTCF with (Kernel.BIT 0).
  destruct (Regmap.faults m0) as [| [e |] fs] eqn:Hfs.
  1, 3:
    rewrite (Hread I); cbn [Z.eqb negb];
    match goal with
    | |- context [Isl12020.isl12020_set_freq_out ?P ?md ?b] =>
        pose proof (ProbeSteps.isl12020_set_freq_out_keeps P md b) as Hkeep;
        destruct (Isl12020.isl12020_set_freq_out P md b) as [e2 p2]
    end;
    cbn [fst snd] in Hkeep |- *; destruct Hkeep as (Hst & Hhw & Hpk);
    (split; [reflexivity |]); exists p2; (split; [reflexivity |]);
    rewrite Hst, Hhw, (Hpk 7 ltac:(lia)); clear Hst Hhw Hpk;
    rewrite !ProbeRewrites.opt_set_beta_status, !ProbeRewrites.opt_set_beta_hwmon,
      !ProbeRewrites.opt_set_beta_peek by lia;
    rewrite H7, H0;
    destruct (Z.testbit (Regmap.peek m0 7) 7);
    destruct (Z.testbit (Regmap.peek m0 7) 0);
    cbn -[Regmap.peek Regmap.transfer];
    (repeat split; apply RegmapFacts.peek_transfer).
  destruct m0 as [rg fs0 tr]. cbn [Regmap.faults] in Hfs. subst fs0.
  reflexivity.
Qed.

Lemma probe_only_status_read_is_critical_witness :
  fst (Isl12020.isl12020_probe (sample_client 129 [])) = 0
  /\ exists priv,
       snd (Isl12020.isl12020_probe (sample_client 129 [])) = Some priv
       /\ Isl12020.status priv = Isl12020.mk_status true true false false false false
       /\ Isl12020.hwmon_dev priv = true
       /\ Regmap.peek (Isl12020.regmap priv) Isl12020.ISL_REG_CSR_SR = 129
       /\ Isl12020.isl12020_oscf_show priv = line "1"
       /\ Isl12020.isl12020_rtcf_show priv = line "1".
Proof.
  exact (probe_only_status_read_is_critical (sample_client 129 []) (sample_bus 0 129 [])
           eq_refl eq_refl eq_refl eq_refl eq_refl).
Defined.

Example probe_status_read_fails :
  Isl12020.isl12020_probe
    (mk_i2c_client true true (inr (sample_bus 0 129 [Some 5%positive])) 0 0 true
       [("temperature-sensor-enable"%string, None)] 0)
  = (-5, Some (Isl12020.mk_data (Regmap.mk (sample_regs 0 129) [] [Regmap.RegRead 7]) false
                 (Isl12020.mk_status false false false false false false)
                 (Isl12020.mk_config 0 false false false false))).
Proof. vm_compute. reflexivity. Qed.

(** X21: the same holds for isl12020m_probe of rtc-isl12020m.c: once the
    allocations succeeded, a failing read of the SR register ends the
    probe with that error after this single access; otherwise the
    result is that of the RTC registration whatever the later accesses
    do, the stored oscf and rtcf are bits 7 and 0 of the SR register as
    read (and this is what the two status attributes show), and the SR
    register is never written. *)
Theorem isl12020m_probe_only_status_read_is_critical (client : i2c_client) (m0 : Regmap.t) :
  i2c_functionality client = true ->
  kzalloc_ok client = true ->
  regmap_init client = inr m0 ->
  rtc_allocate_err client = 0 ->
  sysfs_create_err client = 0 ->
  match Regmap.faults m0 with
  | Some e :: fs =>
      Isl12020m.isl12020m_probe client
      = (Z.neg e,
         Some (Isl12020m.mk_data
                 (Regmap.mk (Regmap.regs m0) fs
                    (Regmap.RegRead Isl12020m.ISL_REG_CSR_SR :: Regmap.trace m0))
                 false 0 false false false false false false))
  | _ =>
      fst (Isl12020m.isl12020m_probe client) = rtc_register_err client
      /\ exists priv,
           snd (Isl12020m.isl12020m_probe client) = Some priv
           /\ Isl12020m.oscf priv = Z.testbit (Regmap.peek m0 Isl12020m.ISL_REG_CSR_SR) 7
           /\ Isl12020m.rtcf priv = Z.testbit (Regmap.peek m0 Isl12020m.ISL_REG_CSR_SR) 0
           /\ Isl12020m.hwmon_dev priv = hwmon_register_ok client
           /\ Regmap.peek (Isl12020m.regmap priv) Isl12020m.ISL_REG_CSR_SR
              = Regmap.peek m0 Isl12020m.ISL_REG_CSR_SR
           /\ Isl12020m.isl12020m_oscf_show priv
              = Kernel.emit_flag (Z.testbit (Regmap.peek m0 Isl12020m.ISL_REG_CSR_SR) 7)
           /\ Isl12020m.isl12020m_rtcf_show priv
              = Kernel.emit_flag (Z.testbit (Regmap.peek m0 Isl12020m.ISL_REG_CSR_SR) 0)
  end.
Proof.
  intros Hf Hk Hinit Hrtc Hsys.
  pose proof (ProbeRewrites.read_without_fault m0 7) as Hread.
  destruct (ProbeSteps.sr_flags m0 7) as [H7 H0].
  unfold Isl12020m.isl12020m_oscf_show, Isl12020m.isl12020m_rtcf_show.
  destruct (Regmap.faults m0) as [| [e |] fs] eqn:Hfs.
  1, 3:
    cbv beta delta [Isl12020m.isl12020m_probe];
    rewrite Hf, Hk, Hinit, Hrtc, Hsys;
    change (negb true) with false; change (negb (0 =? 0)) with false;
    cbv beta iota;
    do 6 ProbeStepsM.zeta_outer;
    change (Isl12020m.regmap
              (Isl12020m.mk_data m0 false 0 false false false false false false)) with m0;
    change Isl12020m.ISL_REG_CSR_SR with 7;
    change Isl12020m.ISL_BIT_CSR_SR_OSCF with (Kernel.BIT 7);
    change Isl12020m.ISL_BIT_CSR_SR_RTCF with (Kernel.BIT 0);
    rewrite (Hread I); change (negb (0 =? 0)) with false; cbv beta iota;
    rewrite H7, H0;
    destruct (Z.testbit (Regmap.peek m0 7) 7);
    destruct (Z.testbit (Regmap.peek m0 7) 0);
    cbv beta iota zeta;
    cbn [Isl12020m.regmap Isl12020m.hwmon_dev Isl12020m.freq_out_mode Isl12020m.freq_out
         Isl12020m.oscf Isl12020m.rtcf Isl12020m.tse Isl12020m.btse Isl12020m.btsr
         Isl12020m.with_regmap];
    match goal with
    | |- context [Isl12020m.isl12020m_set_freq_out ?P ?md ?b] =>
        pose proof (ProbeStepsM.isl12020m_set_freq_out_keeps P md b) as Hkeep;
        destruct (Isl12020m.isl12020m_set_freq_out P md b) as [e2 p2]
    end;
    cbn [fst snd] in Hkeep |- *; destruct Hkeep as (Hst & Hpk);
    injection Hst as Hos Hrt Hhw;
    (split; [reflexivity |]); exists p2; (split; [reflexivity |]);
    rewrite Hos, Hrt, Hhw, (Hpk 7 ltac:(lia)); clear Hos Hrt Hhw Hpk;
    rewrite !ProbeStepsM.opt_beta_oscf, !ProbeStepsM.opt_beta_rtcf, !ProbeStepsM.opt_beta_hwmon, !ProbeStepsM.opt_beta_peek by lia;
    cbn [Isl12020m.oscf Isl12020m.rtcf Isl12020m.hwmon_dev Isl12020m.regmap];
    (repeat split; apply RegmapFacts.peek_transfer).
  unfold Isl12020m.isl12020m_probe. rewrite Hf, Hk, Hinit, Hrtc, Hsys.
  destruct m0 as [rg fs0 tr]. cbn [Regmap.faults] in Hfs. subst fs0.
  reflexivity.
Qed.

Lemma isl12020m_probe_only_status_read_is_critical_witness :
  fst (Isl12020m.isl12020m_probe (sample_client 128 [])) = 0
  /\ exists priv,
       snd (Isl12020m.isl12020m_probe (sample_client 128 [])) = Some priv
       /\ Isl12020m.oscf priv = true
       /\ Isl12020m.rtcf priv = false
       /\ Isl12020m.hwmon_dev priv = true
       /\ Regmap.peek (Isl12020m.regmap priv) Isl12020m.ISL_REG_CSR_SR = 128
       /\ Isl12020m.isl12020m_oscf_show priv = line "1"
       /\ Isl12020m.isl12020m_rtcf_show priv = line "0".
Proof.
  exact (isl12020m_probe_only_status_read_is_critical (sample_client 128 [])
           (sample_bus 0 128 []) eq_refl eq_refl eq_refl eq_refl eq_refl).
Defined.

(** X22: on a channel without faults isl12020_probe stores exactly what
    the firmware node asks for: once the allocations succeeded, probe
    returns what the RTC registration returns, each stored compensation
    flag and the battery flag is the presence of its property, the
    stored frequency-output mode is the low byte of the value of
    frequency-output-mode (0 when absent) with no range check, the INT
    register carries that mode modulo 16 with bit 4 the inverted battery
    flag, and the channel is left without faults. *)
Theorem probe_applies_properties (client : i2c_client) (m0 : Regmap.t) :
  i2c_functionality client = true ->
  kzalloc_ok client = true ->
  regmap_init client = inr m0 ->
  rtc_allocate_err client = 0 ->
  sysfs_create_err client = 0 ->
  Regmap.reliable m0 ->
  let mode := Kernel.u8 (snd (device_property_read_u32 client "frequency-output-mode" 0)) in
  let bat := device_property_present client "battery-frequency-output-enable" in
  exists priv,
    Isl12020.isl12020_probe client = (rtc_register_err client, Some priv)
    /\ Isl12020.config priv
       = Isl12020.mk_config mode bat
           (device_property_present client "temperature-sensor-enable")
           (device_property_present client "battery-temperature-sensor-enable")
           (device_property_present client "high-sensing-frequency-enable")
    /\ Z.land (Regmap.peek (Isl12020.regmap priv) Isl12020.ISL_REG_CSR_INT)
              (Kernel.GENMASK 3 0) = mode mod 16
    /\ Z.testbit (Regmap.peek (Isl12020.regmap priv) Isl12020.ISL_REG_CSR_INT) 4 = negb bat
    /\ Regmap.reliable (Isl12020.regmap priv).
Proof.
  intros Hf Hk Hinit Hrtc Hsys Hrel mode bat.
  destruct m0 as [rg fs tr]. unfold Regmap.reliable in Hrel. cbn [Regmap.faults] in Hrel.
  subst fs.
  unfold Isl12020.isl12020_probe. rewrite Hf, Hk, Hinit, Hrtc, Hsys.
  cbn [negb Z.eqb Isl12020.regmap].
  change (Regmap.regmap_read (Regmap.mk rg [] tr) Isl12020.ISL_REG_CSR_SR)
    with (0, Regmap.peek (Regmap.mk rg [] tr) 7,
          Regmap.mk rg [] (Regmap.RegRead 7 :: tr)).
  cbn [Z.eqb negb].
  fold bat.
  replace (if bat then true else false) with bat by (destruct bat; reflexivity).
  fold mode.
  match goal with
  | |- context [Isl12020.isl12020_set_freq_out ?P mode bat] => remember P as P0 eqn:HP0
  end.
  assert (Regmap.reliable (Isl12020.regmap P0)
          /\ Isl12020.config P0
             = Isl12020.mk_config 0 false
                 (device_property_present client "temperature-sensor-enable")
                 (device_property_present client "battery-temperature-sensor-enable")
                 (device_property_present client "high-sensing-frequency-enable"))
    as [HrelP HcfgP].
  { subst P0. unfold Regmap.reliable.
    repeat match goal with
           | |- context [if ?c then _ else _] => destruct c
           end; split; reflexivity. }
  clear HP0.
  destruct (ProbeSteps.isl12020_set_freq_out_reliable P0 mode bat HrelP)
    as (Hok & Hrel' & Hcfg').
  destruct (Isl12020.isl12020_set_freq_out P0 mode bat) as [e2 p2] eqn:Hset.
  cbn [fst snd] in *. subst e2. exists p2. split; [reflexivity |].
  destruct (ConfigFacts.isl12020_set_freq_out_ok _ _ _ _ Hset) as (Hnew & _).
  change Isl12020.ISL_REG_CSR_INT with 8. rewrite Hnew, Hcfg', HcfgP.
  repeat split.
  - apply ConfigFacts.int_byte_mode.
  - apply ConfigFacts.int_byte_bit4.
  - exact Hrel'.
Qed.

Lemma probe_applies_properties_witness :
  exists priv,
    Isl12020.isl12020_probe
      (sample_client 0 [("frequency-output-mode"%string, Some 16);
                        ("temperature-sensor-enable"%string, None)])
    = (0, Some priv)
    /\ Isl12020.config priv = Isl12020.mk_config 16 false true false false
    /\ Isl12020.isl12020_freq_out_show priv = None.
Proof.
  destruct (probe_applies_properties
              (sample_client 0 [("frequency-output-mode"%string, Some 16);
                                ("temperature-sensor-enable"%string, None)])
              (sample_bus 0 0 []) eq_refl eq_refl eq_refl eq_refl eq_refl eq_refl)
    as (priv & Hp & Hc & _).
  exists priv. split; [exact Hp |].
  assert (Isl12020.config priv = Isl12020.mk_config 16 false true false false) as Hc'
      by (rewrite Hc; vm_compute; reflexivity).
  split; [exact Hc' |].
  unfold Isl12020.isl12020_freq_out_show. rewrite Hc'. reflexivity.
Defined.

(** X23: on a channel without faults isl12020m_probe stores what the
    firmware node asks for, under the property names of that file: each
    compensation flag is the presence of temperature-sensor-enabled,
    battery-temperature-sensor-enabled and high-sensing-frequency, the
    output flag is the presence of frequency-output-enable, the stored
    mode is the u8 value of frequency-output-mode (1 when the property
    is absent or no u8), the INT register carries that mode modulo 16
    with bit 4 equal to the output flag, and probe returns what the RTC
    registration returns. *)
Theorem isl12020m_probe_applies_properties (client : i2c_client) (m0 : Regmap.t) :
  i2c_functionality client = true ->
  kzalloc_ok client = true ->
  regmap_init client = inr m0 ->
  rtc_allocate_err client = 0 ->
  sysfs_create_err client = 0 ->
  Regmap.reliable m0 ->
  let mode := snd (device_property_read_u8 client "frequency-output-mode" 1) in
  let enable := device_property_present client "frequency-output-enable" in
  exists priv,
    Isl12020m.isl12020m_probe client = (rtc_register_err client, Some priv)
    /\ (Isl12020m.tse priv, Isl12020m.btse priv, Isl12020m.btsr priv)
       = (device_property_present client "temperature-sensor-enabled",
          device_property_present client "battery-temperature-sensor-enabled",
          device_property_present client "high-sensing-frequency")
    /\ (Isl12020m.freq_out_mode priv, Isl12020m.freq_out priv) = (mode, enable)
    /\ Z.land (Regmap.peek (Isl12020m.regmap priv) Isl12020m.ISL_REG_CSR_INT)
              (Kernel.GENMASK 3 0) = mode mod 16
    /\ Z.testbit (Regmap.peek (Isl12020m.regmap priv) Isl12020m.ISL_REG_CSR_INT) 4 = enable
    /\ Regmap.reliable (Isl12020m.regmap priv).
Proof.
  intros Hf Hk Hinit Hrtc Hsys Hrel mode enable.
  destruct m0 as [rg fs tr]. unfold Regmap.reliable in Hrel. cbn [Regmap.faults] in Hrel.
  subst fs.
  cbv beta delta [Isl12020m.isl12020m_probe].
  rewrite Hf, Hk, Hinit, Hrtc, Hsys.
  change (negb true) with false. change (negb (0 =? 0)) with false.
  cbv beta iota.
  do 3 ProbeStepsM.zeta_outer.
  change (Regmap.regmap_read
            (Isl12020m.regmap
               (Isl12020m.mk_data (Regmap.mk rg [] tr) false 0 false false false false
                  false false)) Isl12020m.ISL_REG_CSR_SR)
    with (0, Regmap.peek (Regmap.mk rg [] tr) 7,
          Regmap.mk rg [] (Regmap.RegRead 7 :: tr)).
  change (negb (0 =? 0)) with false. cbv beta iota.
  fold enable.
  replace (if enable then true else false) with enable by (destruct enable; reflexivity).
  fold mode.
  generalize mode enable. clear mode enable. intros mode enable.
  destruct (negb (Z.land (Regmap.peek (Regmap.mk rg [] tr) 7)
                         Isl12020m.ISL_BIT_CSR_SR_OSCF =? 0));
    destruct (negb (Z.land (Regmap.peek (Regmap.mk rg [] tr) 7)
                           Isl12020m.ISL_BIT_CSR_SR_RTCF =? 0));
    cbv beta iota; do 4 ProbeStepsM.zeta_outer;
    cbn [Isl12020m.regmap Isl12020m.hwmon_dev Isl12020m.freq_out_mode Isl12020m.freq_out
         Isl12020m.oscf Isl12020m.rtcf Isl12020m.tse Isl12020m.btse Isl12020m.btsr
         Isl12020m.with_regmap];
    match goal with
    | |- context [Isl12020m.isl12020m_beta ?p true false false] =>
        pose proof (ProbeStepsM.config_steps p
                      (device_property_present client "temperature-sensor-enabled")
                      (device_property_present client "battery-temperature-sensor-enabled")
                      (device_property_present client "high-sensing-frequency")
                      mode enable eq_refl eq_refl) as H
    end;
    cbv zeta in H; cbv zeta;
    match type of H with
    | context [Isl12020m.isl12020m_set_freq_out ?P' _ _] =>
        match goal with
        | |- context [Isl12020m.isl12020m_set_freq_out ?P _ _] => change P with P'
        end;
        destruct (Isl12020m.isl12020m_set_freq_out P' mode enable) as [e2 p2]
    end;
    cbn [fst snd] in H; destruct H as (-> & Hfl & Hfm & Hmode & Hbit & Hrel');
    exists p2; change Isl12020m.ISL_REG_CSR_INT with 8;
    repeat split; assumption.
Qed.

Lemma isl12020m_probe_applies_properties_witness :
  exists priv,
    Isl12020m.isl12020m_probe
      (sample_client 0 [("frequency-output-mode"%string, Some 300);
                        ("high-sensing-frequency"%string, None);
                        ("temperature-sensor-enable"%string, None)])
    = (0, Some priv)
    /\ (Isl12020m.tse priv, Isl12020m.btse priv, Isl12020m.btsr priv) = (false, false, true)
    /\ (Isl12020m.freq_out_mode priv, Isl12020m.freq_out priv) = (1, false).
Proof.
  destruct (isl12020m_probe_applies_properties
              (sample_client 0 [("frequency-output-mode"%string, Some 300);
                                ("high-sensing-frequency"%string, None);
                                ("temperature-sensor-enable"%string, None)])
              (sample_bus 0 0 []) eq_refl eq_refl eq_refl eq_refl eq_refl eq_refl)
    as (priv & Hp & Hfl & Hfm & _).
  exists priv. split; [exact Hp |].
  split; [rewrite Hfl | rewrite Hfm]; vm_compute; reflexivity.
Defined.

(** X24: the probe of the first driver of rtc-isl12020m.c never uses the
    channel: whatever it returns, the driver data, when allocated, hold
    the channel exactly as it was initialised (no access in the trace),
    and the result is the error of the first failing allocation or else
    what the RTC registration returns. *)
Theorem rtc_only_probe_makes_no_access (client : i2c_client) :
  match Isl12020mRtc.isl12020m_probe client with
  | (err, Some priv) =>
      regmap_init client = inr (Isl12020mRtc.regmap priv)
      /\ (err = rtc_register_err client
          \/ (err = rtc_allocate_err client /\ err <> 0))
  | (err, None) =>
      err = - Kernel.ENODEV \/ err = - Kernel.ENOMEM \/ regmap_init client = inl err
  end.
Proof.
  unfold Isl12020mRtc.isl12020m_probe.
  destruct (i2c_functionality client); cbn [negb]; [| left; reflexivity].
  destruct (kzalloc_ok client); cbn [negb]; [| right; left; reflexivity].
  destruct (regmap_init client) as [e | m]; [right; right; reflexivity |].
  destruct (Z.eqb_spec (rtc_allocate_err client) 0) as [_ | Hne]; cbn [negb].
  - split; [reflexivity | left; reflexivity].
  - split; [reflexivity | right; split; [reflexivity | exact Hne]].
Qed.

(* a device that does not answer is bound by the first driver, while the
   two drivers with a status read refuse it *)
Example silent_device_is_bound_by_the_first_driver_only :
  let client := mk_i2c_client true true (inr (sample_bus 0 0 [Some 5%positive]))
                              0 0 true [] 0 in
  fst (Isl12020mRtc.isl12020m_probe client) = 0
  /\ fst (Isl12020m.isl12020m_probe client) = -5
  /\ fst (Isl12020.isl12020_probe client) = -5.
Proof. vm_compute. repeat split; reflexivity. Qed.

(** X25: the earlier revision (src/unnamed/part_003) drives TSE alone:
    a successful isl12020m_tse changes bit 7 of the BETA register and no
    other bit and no other register, and stores the flag; a failed one
    stores nothing and leaves the registers. The later isl12020m_beta
    extends it: on the same channel, called with the same TSE value and
    with the two other flags as the register holds them, it returns the
    same result and leaves the same register contents. *)
Theorem tse_revision_writes_one_bit (priv : Isl12020mTse.isl12020m_data) (enable : bool) :
  let old := Regmap.peek (Isl12020mTse.regmap priv) Isl12020mTse.ISL_REG_CSR_BETA in
  let r := Isl12020mTse.isl12020m_tse priv enable in
  ((fst r = 0
    /\ Isl12020mTse.tse (snd r) = enable
    /\ (forall n, 0 <= n ->
          Z.testbit (Regmap.peek (Isl12020mTse.regmap (snd r)) Isl12020mTse.ISL_REG_CSR_BETA) n
          = if n =? 7 then enable else Z.testbit old n)
    /\ (forall reg, reg <> Isl12020mTse.ISL_REG_CSR_BETA ->
          Regmap.peek (Isl12020mTse.regmap (snd r)) reg
          = Regmap.peek (Isl12020mTse.regmap priv) reg))
   \/ (fst r < 0
       /\ Isl12020mTse.tse (snd r) = Isl12020mTse.tse priv
       /\ Regmap.regs (Isl12020mTse.regmap (snd r))
          = Regmap.regs (Isl12020mTse.regmap priv)))
  /\ forall privm : Isl12020m.isl12020m_data,
       let rm := Isl12020m.isl12020m_beta
                   (Isl12020m.with_regmap privm (Isl12020mTse.regmap priv))
                   enable (Z.testbit old 6) (Z.testbit old 5) in
       fst rm = fst r
       /\ forall reg, Regmap.peek (Isl12020m.regmap (snd rm)) reg
                      = Regmap.peek (Isl12020mTse.regmap (snd r)) reg.
Proof.
  intros old r. change Isl12020mTse.ISL_REG_CSR_BETA with 13 in *. split.
  - destruct (TseFacts.isl12020m_tse_cases priv enable) as [[Hok _] | (Hneg & Ht & _ & Hregs)];
      fold r in Hok || fold r in Hneg, Ht, Hregs.
    + left. destruct r as [e p] eqn:Hr. cbn [fst snd] in *. subst e.
      destruct (TseFacts.isl12020m_tse_ok _ _ _ Hr) as (Hnew & Hframe & Htse).
      repeat split; try assumption.
      intros n Hn. rewrite Hnew, Facts.testbit_u8. unfold flag_bit.
      rewrite Facts.testbit_set_or_clear by lia. rewrite (Z.eqb_sym 7 n).
      destruct (Z.eqb_spec n 7) as [-> | Hne]; [reflexivity |].
      fold old. unfold old, Regmap.peek. rewrite Facts.testbit_u8.
      destruct (n <? 8); reflexivity.
    + right. repeat split; assumption.
  - intros privm rm.
    destruct (TseFacts.isl12020m_tse_as_beta priv
                (Isl12020m.with_regmap privm (Isl12020mTse.regmap priv)) enable eq_refl)
      as (Hres & Hregs & _).
    split; assumption.
Qed.

(** X26: the callbacks of the earlier revision (src/unnamed/part_003)
    agree with those of the later driver of rtc-isl12020m.c run on the
    same channel with the same TSE flag and with its stored BTSE and
    BTSR as the BETA register holds them: isl12020m_read_temp returns
    the same result and value and leaves the same channel;
    isl12020m_tse_store answers count in both, stores the same TSE flag
    and leaves the same register contents. In the earlier revision,
    writing back what temperatur_sensing_enable shows leaves the stored
    flag as it was. *)
Theorem tse_revision_agrees_with_successor (priv : Isl12020mTse.isl12020m_data)
        (privm : Isl12020m.isl12020m_data) (buf : string) (count val0 val : Z) :
  let old := Regmap.peek (Isl12020mTse.regmap priv) Isl12020mTse.ISL_REG_CSR_BETA in
  let pm := Isl12020m.mk_data (Isl12020mTse.regmap priv) (Isl12020mTse.hwmon_dev priv)
              (Isl12020m.freq_out_mode privm) (Isl12020m.freq_out privm)
              (Isl12020m.oscf privm) (Isl12020m.rtcf privm)
              (Isl12020mTse.tse priv) (Z.testbit old 6) (Z.testbit old 5) in
  (let r := Isl12020mTse.isl12020m_read_temp priv val in
   let rm := Isl12020m.isl12020m_read_temp pm val in
   fst r = fst rm /\ Isl12020mTse.regmap (snd r) = Isl12020m.regmap (snd rm))
  /\ (let s := Isl12020mTse.isl12020m_tse_store priv buf count val0 in
      let sm := Isl12020m.isl12020m_tse_store pm buf count val0 in
      fst s = count /\ fst sm = count
      /\ Isl12020mTse.tse (snd s) = Isl12020m.tse (snd sm)
      /\ forall reg, Regmap.peek (Isl12020mTse.regmap (snd s)) reg
                     = Regmap.peek (Isl12020m.regmap (snd sm)) reg)
  /\ Isl12020mTse.tse
       (snd (Isl12020mTse.isl12020m_tse_store priv (Isl12020mTse.isl12020m_tse_show priv)
               count val0))
     = Isl12020mTse.tse priv.
Proof.
  intros old pm. change Isl12020mTse.ISL_REG_CSR_BETA with 13 in old.
  split; [| split].
  - unfold Isl12020mTse.isl12020m_read_temp, Isl12020m.isl12020m_read_temp.
    subst pm. cbn [Isl12020m.tse Isl12020m.regmap].
    destruct (Isl12020mTse.tse priv); [| split; reflexivity].
    change Isl12020m.ISL_REG_TEMP_TKOL with Isl12020mTse.ISL_REG_TEMP_TKOL.
    destruct (Regmap.regmap_bulk_read (Isl12020mTse.regmap priv)
                Isl12020mTse.ISL_REG_TEMP_TKOL 2) as [[e b] m1].
    destruct (e =? 0); split; reflexivity.
  - unfold Isl12020mTse.isl12020m_tse_store, Isl12020m.isl12020m_tse_store.
    cbv zeta. cbn [fst snd].
    split; [reflexivity |]. split; [reflexivity |].
    assert (forall enable,
               Isl12020mTse.tse (snd (Isl12020mTse.isl12020m_tse priv enable))
               = Isl12020m.tse (snd (Isl12020m.isl12020m_beta pm enable (Isl12020m.btse pm)
                                       (Isl12020m.btsr pm)))
               /\ forall reg,
                    Regmap.peek (Isl12020mTse.regmap
                                   (snd (Isl12020mTse.isl12020m_tse priv enable))) reg
                    = Regmap.peek (Isl12020m.regmap
                                     (snd (Isl12020m.isl12020m_beta pm enable
                                             (Isl12020m.btse pm) (Isl12020m.btsr pm)))) reg)
      as Hagree.
    { intros enable.
      destruct (TseFacts.isl12020m_tse_as_beta priv pm enable eq_refl)
        as (_ & Hregs & Htse).
      split; [symmetry; apply Htse; reflexivity |].
      intros reg. symmetry. apply Hregs. }
    destruct (negb _); apply Hagree.
  - unfold Isl12020mTse.isl12020m_tse_store, Isl12020mTse.isl12020m_tse_show.
    rewrite ShowFacts.sscanf_hhu_emit_flag. cbn [snd].
    destruct (Isl12020mTse.tse priv) eqn:Ht; cbn [Z.eqb negb].
    + destruct (TseFacts.isl12020m_tse_flag priv true) as [H | H]; rewrite H;
        [reflexivity | exact Ht].
    + destruct (TseFacts.isl12020m_tse_flag priv false) as [H | H]; rewrite H;
        [reflexivity | exact Ht].
Qed.
